(** * Hypertension dummy-data generator: model and verified properties

    Shallow embedding of [usefull_function/create_dummy_data.py],
    [usefull_function/split_data.py] and [usefull_function/merge_csv.py].

    Conventions of the model.
    - Python floats are exact rationals ([Q]); integers are [Z].
    - numpy's global generator is an explicit state threaded through every
      call, in the order the Python code makes the calls.
    - numpy itself is an interface ([Numpy]): the model fixes what the
      repository's code does with the drawn values, not how numpy draws them.
    - A Python exception is an outcome ([Raise]); the [while] loop of the
      prevalence adjustment is run on fuel and [OutOfFuel] is the outcome of
      a run that is still looping when the fuel is spent. *)

From Stdlib Require Import String.
From Stdlib Require Import ZArith QArith Qabs Qround Qminmax Lqa Lia.
From Stdlib Require Import Bool List Permutation DecimalString.
Import ListNotations.

Set Implicit Arguments.

(** ** Values of the categorical columns *)

Inductive Gender : Type := Male | Female.
Inductive Smoking : Type := never | quit | smoker.
Inductive Level : Type := low | high.

Definition Gender_eqb (a b : Gender) : bool :=
  match a, b with
  | Male, Male | Female, Female => true
  | _, _ => false
  end.

Definition Smoking_eqb (a b : Smoking) : bool :=
  match a, b with
  | never, never | quit, quit | smoker, smoker => true
  | _, _ => false
  end.

Definition Level_eqb (a b : Level) : bool :=
  match a, b with
  | low, low | high, high => true
  | _, _ => false
  end.

(** ** Float comparisons and numpy's pure helpers *)

Definition Qgeb (x y : Q) : bool := Qle_bool y x.
Definition Qgtb (x y : Q) : bool := negb (Qle_bool x y).
Definition Qltb (x y : Q) : bool := negb (Qle_bool y x).

(** [np.clip(x, lo, hi)]: [minimum(maximum(x, lo), hi)]. *)
Definition clip (x lo hi : Q) : Q := Qmin (Qmax x lo) hi.

(** [.astype(int)]: truncation toward zero. *)
Definition astype_int (x : Q) : Z := Z.quot (Qnum x) (Zpos (Qden x)).

(** [np.where(cond, a, b)], element by element. *)
Fixpoint np_where {A : Type} (cond : list bool) (a b : list A) : list A :=
  match cond, a, b with
  | c :: cond', x :: a', y :: b' => (if c then x else y) :: np_where cond' a' b'
  | _, _, _ => []
  end.

(** [np.arange(start, stop)]. *)
Definition arange (start stop : Z) : list Z :=
  map (fun i => (start + Z.of_nat i)%Z) (seq 0 (Z.to_nat (stop - start))).

(** ** Outcomes of a run *)

Inductive exn : Type :=
| ValueError (msg : string)
| KeyError (msg : string)
| TypeError (msg : string)
| FileNotFoundError (msg : string)
| OtherError (msg : string).

(** [str(e)]. *)
Definition exn_str (e : exn) : string :=
  match e with
  | ValueError msg | KeyError msg | TypeError msg
  | FileNotFoundError msg | OtherError msg => msg
  end.

Inductive outcome (A : Type) : Type :=
| Return (a : A)
| Raise (e : exn)
| OutOfFuel.

Arguments Return {A} a.
Arguments Raise {A} e.
Arguments OutOfFuel {A}.

(** ** The numpy interface

    [RandomState] is the state of the global generator behind [np.random].
    Every drawing function returns the drawn value and the next state.  The
    four laws are the documented ranges of the draws. *)

Class Numpy : Type := {
  RandomState : Type;
  (** [np.random.seed(s)]: the state after seeding. *)
  random_seed : Z -> RandomState;
  (** [np.random.normal(loc, scale)]. *)
  random_normal : Q -> Q -> RandomState -> Q * RandomState;
  (** [np.random.binomial(1, p)]. *)
  random_binomial1 : Q -> RandomState -> Z * RandomState;
  (** [np.random.random()], a float of [[0, 1)]. *)
  random_random : RandomState -> Q * RandomState;
  (** [np.random.randint(lo, hi)]. *)
  random_randint : Z -> Z -> RandomState -> Z * RandomState;
  (** The position drawn by [np.random.choice(a, p=p)]. *)
  random_choice_p : list Q -> RandomState -> nat * RandomState;
  (** [np.random.permutation(n)]. *)
  random_permutation : nat -> RandomState -> list nat * RandomState;
  (** [np.exp]. *)
  np_exp : Q -> Q;
  random_binomial1_range : forall p g,
    fst (random_binomial1 p g) = 0%Z \/ fst (random_binomial1 p g) = 1%Z;
  random_randint_range : forall lo hi g,
    (lo < hi)%Z -> (lo <= fst (random_randint lo hi g) < hi)%Z;
  random_choice_p_range : forall p g,
    p <> [] -> (fst (random_choice_p p g) < length p)%nat;
  random_permutation_perm : forall n g,
    Permutation (fst (random_permutation n g)) (seq 0 n)
}.

(** ** The monad of the model: a state, and exceptions

    [ST S A] is a computation on a state [S] that returns an [A], raises,
    or is still running when its fuel is spent.  The state survives an
    exception, as Python's globals do. *)

Definition ST (S A : Type) : Type := S -> outcome A * S.

Definition ret {S A : Type} (a : A) : ST S A := fun s => (Return a, s).

Definition bind {S A B : Type} (m : ST S A) (k : A -> ST S B) : ST S B :=
  fun s =>
    match m s with
    | (Return a, s') => k a s'
    | (Raise e, s') => (Raise e, s')
    | (OutOfFuel, s') => (OutOfFuel, s')
    end.

Definition raise {S A : Type} (e : exn) : ST S A := fun s => (Raise e, s).

(** [try: m except Exception as e: handler(e)]. *)
Definition try_except {S A : Type} (m : ST S A) (handler : exn -> ST S A) : ST S A :=
  fun s =>
    match m s with
    | (Raise e, s') => handler e s'
    | r => r
    end.

Section Generator.
Context {np : Numpy}.

(** Computations on numpy's global generator. *)
Definition M (A : Type) : Type := ST RandomState A.

(** A numpy draw as a computation. *)
Definition draw {A : Type} (f : RandomState -> A * RandomState) : M A :=
  fun g => let (a, g') := f g in (Return a, g').

(** [np.random.seed(s)] overwrites the global state. *)
Definition np_random_seed (s : Z) : M unit :=
  fun _ => (Return tt, random_seed s).
End Generator.

Declare Scope gen_scope.
Delimit Scope gen_scope with gen.
Notation "x <- m ;; k" := (bind m (fun x => k))
  (at level 61, m at next level, right associativity) : gen_scope.
Notation "m ;; k" := (bind m (fun _ => k))
  (at level 61, right associativity) : gen_scope.
Open Scope gen_scope.
Open Scope Q_scope.

Section Draws.
Context {np : Numpy}.

(** [data.apply(f, axis=1)]: [f] on every row, first row first. *)
Fixpoint mapM {A B : Type} (f : A -> M B) (l : list A) : M (list B) :=
  match l with
  | [] => ret []
  | a :: l' => b <- f a ;; bs <- mapM f l' ;; ret (b :: bs)
  end.

(** A draw with a [size] argument: a negative size is refused, otherwise
    [size] successive draws. *)
Definition sized {A : Type} (d : M A) (size : Z) : M (list A) :=
  if (size <? 0)%Z
  then raise (ValueError "negative dimensions are not allowed")
  else mapM (fun _ => d) (repeat tt (Z.to_nat size)).

(** [np.random.choice(a)] without [p]: a position from [randint(0, len(a))]. *)
Definition np_random_choice {A : Type} (a : list A) (default : A) : M A :=
  i <- draw (random_randint 0 (Z.of_nat (length a))) ;;
  ret (nth (Z.to_nat i) a default).

(** [np.random.choice(a, p=p)]. *)
Definition np_random_choice_p {A : Type} (a : list A) (p : list Q) (default : A) : M A :=
  i <- draw (random_choice_p p) ;;
  ret (nth i a default).
End Draws.

(** ** One row, as [calculate_risk] reads it *)

Record Row : Type := {
  age : Z;
  gender : Gender;
  height_cm : Q;
  weight_kg : Q;
  belly_circumference_cm : Q;
  smoking_status : Smoking;
  exercise_frequency : Level;
  salt_consumption : Level;
  sugar_consumption : Level;
  family_history : Z
}.

(** ** [generate_weight] and [get_lifestyle_probs] *)

Section Features.
Context {np : Numpy}.

Definition generate_weight (height : Q) (age : Z) : M Q :=
  base_bmi <- (if (age <? 35)%Z
               then draw (random_normal 28 5)
               else draw (random_normal 25 4)) ;;
  ret (base_bmi * (height / 100) ^ 2).

(** [(smoking_probs, exercise_probs, salt_probs, sugar_probs)]. *)
Definition get_lifestyle_probs (age : Z) : list Q * list Q * list Q * list Q :=
  if (age <? 35)%Z
  then ([0.4; 0.1; 0.5], [0.7; 0.3], [0.3; 0.7], [0.3; 0.7])
  else ([0.6; 0.3; 0.1], [0.4; 0.6], [0.6; 0.4], [0.6; 0.4]).
End Features.

(** ** [calculate_risk] *)

(** Line 91.  The quotient is the exact one; at a height of zero Python
    raises [ZeroDivisionError] there (and [OverflowError] when the square
    overflows), which the model does not have: a property of [calculate_risk]
    on an arbitrary row asks for a height in [height_in_float_range]. *)
Definition bmi (row : Row) : Q := weight_kg row / (height_cm row / 100) ^ 2.

Definition is_young (row : Row) : bool := (age row <? 35)%Z.

(** The three additive scores before normalisation. *)
Definition genetic_points (row : Row) : Q :=
  0
  + (if (family_history row =? 1)%Z then 1.5 else 0)
  + (if (age row >=? 60)%Z then 1.2
     else if (age row >=? 45)%Z then 0.9
     else if (age row >=? 35)%Z then 0.6
     else 0)
  + (if Gender_eqb (gender row) Male then 0.2 else 0).

Definition lifestyle_points (row : Row) : Q :=
  0
  + (if Level_eqb (salt_consumption row) high
     then (if is_young row then 1.5 else 1.2) else 0)
  + (if Level_eqb (sugar_consumption row) high
     then (if is_young row then 1.3 else 1.0) else 0)
  + (if Level_eqb (exercise_frequency row) low
     then (if is_young row then 1.4 else 1.0) else 0)
  + (if Smoking_eqb (smoking_status row) smoker
     then (if is_young row then 1.2 else 0.8)
     else if Smoking_eqb (smoking_status row) quit
     then (if is_young row then 0.6 else 0.4)
     else 0).

Definition waist_threshold (row : Row) : Q :=
  if Gender_eqb (gender row) Female then 88 else 102.

Definition waist_ratio (row : Row) : Q :=
  belly_circumference_cm row / waist_threshold row.

Definition health_points (row : Row) : Q :=
  0
  + (if Qgeb (bmi row) 35 then (if is_young row then 1.3 else 1.1)
     else if Qgeb (bmi row) 30 then (if is_young row then 1.0 else 0.8)
     else if Qgeb (bmi row) 25 then (if is_young row then 0.7 else 0.5)
     else 0)
  + (if Qgeb (waist_ratio row) 1.2 then (if is_young row then 1.2 else 1.0)
     else if Qgeb (waist_ratio row) 1.0 then (if is_young row then 0.9 else 0.7)
     else 0).

(** The normalised scores. *)
Definition genetic_score (row : Row) : Q := clip (genetic_points row / 3.0) 0 1.

Definition lifestyle_score (row : Row) : Q :=
  clip (lifestyle_points row / (if is_young row then 5.0 else 4.0)) 0 1.

Definition health_score (row : Row) : Q :=
  clip (health_points row / (if is_young row then 2.5 else 2.1)) 0 1.

(** The weighted combination, before the interaction bonuses. *)
Definition weighted_risk (row : Row) : Q :=
  if is_young row
  then 0.25 * genetic_score row + 0.45 * lifestyle_score row + 0.30 * health_score row
  else 0.35 * genetic_score row + 0.33 * lifestyle_score row + 0.32 * health_score row.

(** The bonus for a bad lifestyle combined with obesity. *)
Definition combined_bonus (row : Row) : Q :=
  if is_young row
  then (if Qgtb (lifestyle_score row) 0.6 && Qgtb (health_score row) 0.6 then 0.2 else 0)
  else (if Qgtb (lifestyle_score row) 0.7 && Qgtb (health_score row) 0.7 then 0.1 else 0).

(** The bonus for a bad lifestyle with a family history. *)
Definition family_bonus (row : Row) : Q :=
  if is_young row
  then (if (family_history row =? 1)%Z && Qgtb (lifestyle_score row) 0.6 then 0.15 else 0)
  else (if (family_history row =? 1)%Z && Qgtb (lifestyle_score row) 0.7 then 0.1 else 0).

(** [risk] just before the random component is added. *)
Definition risk_before_noise (row : Row) : Q :=
  weighted_risk row + combined_bonus row + family_bonus row.

Section Risk.
Context {np : Numpy}.

Definition calculate_risk (row : Row) : M Q :=
  noise <- draw (random_normal 0 0.02) ;;
  ret (clip (risk_before_noise row + noise) 0 1).
End Risk.

(** ** The data frame

    One list per column, row [i] of the frame at position [i] of every
    list (the index is the default [RangeIndex], so a row's label is its
    position).  A cell of a nullable column is [None] once it holds NaN.
    [input_time] is the number of days after 2023-01-01; the column is
    empty until step 9 creates it. *)

Module Frame.
Record t : Type := mk {
  id : list Z;
  age : list Z;
  gender : list (option Gender);
  height_cm : list (option Q);
  weight_kg : list (option Q);
  belly_circumference_cm : list (option Q);
  smoking_status : list (option Smoking);
  exercise_frequency : list (option Level);
  salt_consumption : list (option Level);
  sugar_consumption : list (option Level);
  self_emotional : list (option Z);
  family_history : list (option Z);
  label_hypertension : list Z;
  input_time : list Z
}.

(** [len(data)]. *)
Definition len (data : t) : nat := List.length (id data).

(** Every column but [label_hypertension]. *)
Definition features (data : t) : t :=
  mk (id data) (age data) (gender data) (height_cm data) (weight_kg data)
     (belly_circumference_cm data) (smoking_status data) (exercise_frequency data)
     (salt_consumption data) (sugar_consumption data) (self_emotional data)
     (family_history data) [] (input_time data).

Definition set_label_hypertension (data : t) (label : list Z) : t :=
  mk (id data) (age data) (gender data) (height_cm data) (weight_kg data)
     (belly_circumference_cm data) (smoking_status data) (exercise_frequency data)
     (salt_consumption data) (sugar_consumption data) (self_emotional data)
     (family_history data) label (input_time data).
End Frame.

(** ** Column helpers *)

(** The column with the cell of row [i] replaced. *)
Fixpoint set_at {A : Type} (i : nat) (v : A) (col : list A) : list A :=
  match col, i with
  | [], _ => []
  | _ :: col', O => v :: col'
  | x :: col', S i' => x :: set_at i' v col'
  end.

(** [a[start:stop]] for [0 <= start]. *)
Definition slice {A : Type} (start stop : nat) (a : list A) : list A :=
  firstn (stop - start) (skipn start a).

(** The row labels where the column holds [v]: the index of
    [data[data[col] == v]]. *)
Definition labels_where (v : Z) (col : list Z) : list nat :=
  filter (fun i => (nth i col 0 =? v)%Z) (seq 0 (List.length col)).

Definition sum_Z (col : list Z) : Z := fold_right Z.add 0%Z col.

(** [col.mean()]: NaN ([None]) on an empty column. *)
Definition mean (col : list Z) : option Q :=
  match col with
  | [] => None
  | _ => Some (inject_Z (sum_Z col) / inject_Z (Z.of_nat (List.length col)))
  end.

(** [abs(m - t) > 0.01], false when [m] is NaN.  The comparison is decided
    on the exact values; Python decides it on doubles, and the two can
    differ for a mean whose distance to the target is within rounding of
    0.01 (see [rounding_margin]). *)
Definition off_target (m : option Q) (t : Q) : bool :=
  match m with
  | None => false
  | Some m => Qgtb (Qabs (m - t)) 0.01
  end.

(** [m > t], false when [m] is NaN. *)
Definition above_target (m : option Q) (t : Q) : bool :=
  match m with
  | None => false
  | Some m => Qgtb m t
  end.

(** [data.loc[mask, col] = np.nan]. *)
Definition set_nan {A : Type} (mask : list bool) (col : list (option A)) : list (option A) :=
  map (fun mc : bool * option A => if fst mc then None else snd mc) (combine mask col).

Section Pandas.
Context {np : Numpy}.

(** [np.random.choice(a, size, replace=False)] for an integer [a]:
    the first [size] entries of [permutation(a)]. *)
Definition np_random_choice_no_replace (a size : Z) : M (list nat) :=
  if (a <=? 0)%Z && negb (size =? 0)%Z
  then raise (ValueError "a must be greater than 0 unless no samples are taken")
  else if (size >? a)%Z
  then raise (ValueError "Cannot take a larger sample than population when 'replace=False'")
  else if (size <? 0)%Z
  then raise (ValueError "negative dimensions are not allowed")
  else (perm <- draw (random_permutation (Z.to_nat a)) ;;
        ret (firstn (Z.to_nat size) perm)).

(** [data[...].sample(1).index[0]]: pandas draws the position with
    [np.random.choice(len, 1, replace=False)] on the global generator and
    returns the label of the row at that position. *)
Definition sample_1_index (labels : list nat) : M nat :=
  pos <- np_random_choice_no_replace (Z.of_nat (List.length labels)) 1 ;;
  ret (nth (hd 0%nat pos) labels 0%nat).

(** [data.loc[idx, col] = values] for a list of row labels and an array of
    values: pandas refuses an array whose length is not that of the list,
    and a label that is not in the index. *)
Definition loc_set {A : Type} (col : list A) (idx : list nat) (values : list A) : M (list A) :=
  if negb (List.length idx =? List.length values)%nat
  then raise (ValueError "Must have equal len keys and value when setting with an iterable")
  else if negb (forallb (fun i => (i <? List.length col)%nat) idx)
  then raise (KeyError "not in index")
  else ret (fold_left (fun (c : list A) (iv : nat * A) => set_at (fst iv) (snd iv) c) (combine idx values) col).

(** [pd.DataFrame({'id': ..., 'age': ..., 'gender': ...})]: the arrays must
    have one length.  The other columns do not exist yet. *)
Definition pd_DataFrame (id age : list Z) (gender : list Gender) : M unit :=
  if (List.length age =? List.length id)%nat && (List.length gender =? List.length id)%nat
  then ret tt
  else raise (ValueError "All arrays must be of the same length").
End Pandas.

(** ** [create_dummy_data], step by step *)

Section CreateDummyData.
Context {np : Numpy}.

(** Row [i] of the columns that [calculate_risk] reads. *)
Definition row_at (age : list Z) (gender : list Gender)
    (height_cm weight_kg belly_circumference_cm : list Q)
    (smoking_status : list Smoking)
    (exercise_frequency salt_consumption sugar_consumption : list Level)
    (family_history : list Z) (i : nat) : Row :=
  {| age := nth i age 0%Z;
     gender := nth i gender Male;
     height_cm := nth i height_cm 0;
     weight_kg := nth i weight_kg 0;
     belly_circumference_cm := nth i belly_circumference_cm 0;
     smoking_status := nth i smoking_status never;
     exercise_frequency := nth i exercise_frequency low;
     salt_consumption := nth i salt_consumption low;
     sugar_consumption := nth i sugar_consumption low;
     family_history := nth i family_history 0%Z |}.

Definition smoking_probs (p : list Q * list Q * list Q * list Q) : list Q := fst (fst (fst p)).
Definition exercise_probs (p : list Q * list Q * list Q * list Q) : list Q := snd (fst (fst p)).
Definition salt_probs (p : list Q * list Q * list Q * list Q) : list Q := snd (fst p).
Definition sugar_probs (p : list Q * list Q * list Q * list Q) : list Q := snd p.

(** [1 / (1 + np.exp(-12 * (p - 0.5)))]. *)
Definition sigmoid (p : Q) : Q := 1 / (1 + np_exp (- (12) * (p - 0.5))).

(** Steps 1 to 7 and the label draw: the frame before any corruption. *)
Definition generate_population (n_samples : Z) : M Frame.t :=
  (* 1. base population *)
  young <- sized (draw (random_normal 25 5)) (n_samples / 2) ;;
  older <- sized (draw (random_normal 50 15)) (n_samples / 2) ;;
  let age_distribution := young ++ older in
  let id := arange 1 (n_samples + 1) in
  let age := map (fun x => astype_int (clip x 15 90)) age_distribution in
  gender <- sized (np_random_choice [Male; Female] Male) n_samples ;;
  pd_DataFrame id age gender ;;
  (* 2. height based on gender *)
  male_height <- sized (draw (random_normal 175 7)) n_samples ;;
  female_height <- sized (draw (random_normal 162 6)) n_samples ;;
  let height_cm := np_where (map (fun s => Gender_eqb s Male) gender) male_height female_height in
  (* 3. weight *)
  weight_kg <- mapM (fun r : Q * Z => generate_weight (fst r) (snd r)) (combine height_cm age) ;;
  (* 4. belly circumference *)
  belly_circumference_cm <-
    mapM (fun r : Q * Z =>
            noise <- draw (random_normal 0 5) ;;
            ret (fst r * 0.5 + (if (snd r <? 35)%Z then 60 else 50) + noise))
         (combine weight_kg age) ;;
  (* 5. lifestyle factors *)
  smoking_status <-
    mapM (fun a => np_random_choice_p [never; quit; smoker] (smoking_probs (get_lifestyle_probs a)) never) age ;;
  exercise_frequency <-
    mapM (fun a => np_random_choice_p [low; high] (exercise_probs (get_lifestyle_probs a)) low) age ;;
  salt_consumption <-
    mapM (fun a => np_random_choice_p [low; high] (salt_probs (get_lifestyle_probs a)) low) age ;;
  sugar_consumption <-
    mapM (fun a => np_random_choice_p [low; high] (sugar_probs (get_lifestyle_probs a)) low) age ;;
  (* 6. binary columns *)
  self_emotional <- sized (draw (random_binomial1 0.5)) n_samples ;;
  family_history <- sized (draw (random_binomial1 0.3)) n_samples ;;
  (* 7. hypertension risk *)
  probabilities <-
    mapM calculate_risk
         (map (row_at age gender height_cm weight_kg belly_circumference_cm
                      smoking_status exercise_frequency salt_consumption
                      sugar_consumption family_history)
              (seq 0 (List.length id))) ;;
  let probabilities := map sigmoid probabilities in
  label_hypertension <- mapM (fun p => draw (random_binomial1 p)) probabilities ;;
  ret (Frame.mk id age (map Some gender) (map Some height_cm) (map Some weight_kg)
                (map Some belly_circumference_cm) (map Some smoking_status)
                (map Some exercise_frequency) (map Some salt_consumption)
                (map Some sugar_consumption) (map Some self_emotional)
                (map Some family_history) label_hypertension []).

(** 8. Add outliers (2%). *)
Definition add_outliers (n_samples : Z) (data : Frame.t) : M Frame.t :=
  let n_outliers := astype_int (inject_Z n_samples * 0.02) in
  outlier_indices <- np_random_choice_no_replace n_samples n_outliers ;;
  let q1 := Z.to_nat (n_outliers / 4) in
  let q2 := Z.to_nat (n_outliers / 2) in
  let q3 := Z.to_nat (3 * n_outliers / 4) in
  values <- sized (np_random_choice [1; 2; 800; 1000] 0) (n_outliers / 4) ;;
  weight_kg <- loc_set (Frame.weight_kg data) (firstn q1 outlier_indices) (map Some values) ;;
  values <- sized (np_random_choice [10; 15; 350; 400] 0) (n_outliers / 4) ;;
  height_cm <- loc_set (Frame.height_cm data) (slice q1 q2 outlier_indices) (map Some values) ;;
  values <- sized (np_random_choice [10; 15; 400; 500] 0) (n_outliers / 4) ;;
  belly_circumference_cm <-
    loc_set (Frame.belly_circumference_cm data) (slice q2 q3 outlier_indices) (map Some values) ;;
  values <- sized (np_random_choice [1; 2; 3; 120; 130; 140]%Z 0%Z) (n_outliers / 4) ;;
  age <- loc_set (Frame.age data) (skipn q3 outlier_indices) values ;;
  ret (Frame.mk (Frame.id data) age (Frame.gender data) height_cm weight_kg
                belly_circumference_cm (Frame.smoking_status data)
                (Frame.exercise_frequency data) (Frame.salt_consumption data)
                (Frame.sugar_consumption data) (Frame.self_emotional data)
                (Frame.family_history data) (Frame.label_hypertension data)
                (Frame.input_time data)).

(** 9. Add timestamps. *)
Definition add_timestamps (n_samples : Z) (data : Frame.t) : M Frame.t :=
  random_days <- sized (draw (random_randint 0 365)) n_samples ;;
  ret (Frame.mk (Frame.id data) (Frame.age data) (Frame.gender data) (Frame.height_cm data)
                (Frame.weight_kg data) (Frame.belly_circumference_cm data)
                (Frame.smoking_status data) (Frame.exercise_frequency data)
                (Frame.salt_consumption data) (Frame.sugar_consumption data)
                (Frame.self_emotional data) (Frame.family_history data)
                (Frame.label_hypertension data) random_days).

(** [mask = np.random.random(len(data)) < prob]. *)
Definition missing_mask (data : Frame.t) (prob : Q) : M (list bool) :=
  u <- sized (draw random_random) (Z.of_nat (Frame.len data)) ;;
  ret (map (fun x => Qltb x prob) u).

(** 10. Add missing values, column by column in the order of [missing_probs]. *)
Definition add_missing_values (data : Frame.t) : M Frame.t :=
  mask <- missing_mask data 0.90 ;;
  let self_emotional := set_nan mask (Frame.self_emotional data) in
  mask <- missing_mask data 0.05 ;;
  let sugar_consumption := set_nan mask (Frame.sugar_consumption data) in
  mask <- missing_mask data 0.05 ;;
  let salt_consumption := set_nan mask (Frame.salt_consumption data) in
  mask <- missing_mask data 0.07 ;;
  let exercise_frequency := set_nan mask (Frame.exercise_frequency data) in
  mask <- missing_mask data 0.03 ;;
  let smoking_status := set_nan mask (Frame.smoking_status data) in
  mask <- missing_mask data 0.02 ;;
  let gender := set_nan mask (Frame.gender data) in
  mask <- missing_mask data 0.03 ;;
  let weight_kg := set_nan mask (Frame.weight_kg data) in
  mask <- missing_mask data 0.03 ;;
  let height_cm := set_nan mask (Frame.height_cm data) in
  mask <- missing_mask data 0.03 ;;
  let belly_circumference_cm := set_nan mask (Frame.belly_circumference_cm data) in
  mask <- missing_mask data 0.03 ;;
  let family_history := set_nan mask (Frame.family_history data) in
  ret (Frame.mk (Frame.id data) (Frame.age data) gender height_cm weight_kg
                belly_circumference_cm smoking_status exercise_frequency
                salt_consumption sugar_consumption self_emotional family_history
                (Frame.label_hypertension data) (Frame.input_time data)).

(** 11. Adjust prevalence: the [while] loop on the label column, one
    iteration per unit of fuel. *)
Fixpoint adjust_prevalence_loop (fuel : nat) (target_prevalence : Q) (label : list Z)
  : M (list Z) :=
  match fuel with
  | O => fun g => (OutOfFuel, g)
  | S fuel' =>
      if off_target (mean label) target_prevalence
      then if above_target (mean label) target_prevalence
           then (idx <- sample_1_index (labels_where 1 label) ;;
                 adjust_prevalence_loop fuel' target_prevalence (set_at idx 0%Z label))
           else (idx <- sample_1_index (labels_where 0 label) ;;
                 adjust_prevalence_loop fuel' target_prevalence (set_at idx 1%Z label))
      else ret label
  end.

Definition adjust_prevalence (fuel : nat) (target_prevalence : Q) (data : Frame.t)
  : M Frame.t :=
  label <- adjust_prevalence_loop fuel target_prevalence (Frame.label_hypertension data) ;;
  ret (Frame.set_label_hypertension data label).

(** [create_dummy_data(n_samples, target_prevalence)]; [fuel] bounds the
    iterations of the loop of step 11. *)
Definition create_dummy_data (fuel : nat) (n_samples : Z) (target_prevalence : Q)
  : M Frame.t :=
  np_random_seed 42 ;;
  data <- generate_population n_samples ;;
  data <- add_outliers n_samples data ;;
  data <- add_timestamps n_samples data ;;
  data <- add_missing_values data ;;
  adjust_prevalence fuel target_prevalence data.

End CreateDummyData.

(** ** A concrete generator

    A linear congruential generator behind the [Numpy] interface, used to
    run the model on concrete inputs.  It satisfies the four range laws;
    its draws are not numpy's. *)

Module Lcg.

Definition next (g : Z) : Z := ((g * 1103515245 + 12345) mod 2147483648)%Z.

(** A float of [[0, 1)] with two decimals. *)
Definition unit_float (g : Z) : Q := inject_Z ((g / 65536) mod 100) / 100.

Definition normal (loc scale : Q) (g : Z) : Q * Z :=
  (loc + scale * ((inject_Z ((g / 65536) mod 9) - 4) / 2), next g).

Definition binomial1 (p : Q) (g : Z) : Z * Z :=
  ((if Qltb (unit_float g) p then 1 else 0)%Z, next g).

Definition random (g : Z) : Q * Z := (unit_float g, next g).

Definition randint (lo hi : Z) (g : Z) : Z * Z :=
  ((if (lo <? hi)%Z then lo + (g / 65536) mod (hi - lo) else lo)%Z, next g).

(** The first position whose cumulated probability exceeds [u], clamped
    to the last position. *)
Fixpoint searchsorted (p : list Q) (u : Q) : nat :=
  match p with
  | [] => O
  | [_] => O
  | x :: p' => if Qltb u x then O else S (searchsorted p' (u - x))
  end.

Definition choice_p (p : list Q) (g : Z) : nat * Z :=
  (searchsorted p (unit_float g), next g).

(** [0 .. n-1] rotated by a drawn offset. *)
Definition permutation (n : nat) (g : Z) : list nat * Z :=
  let k := Z.to_nat ((g / 65536) mod Z.of_nat n) in
  (skipn k (seq 0 n) ++ firstn k (seq 0 n), next g).

(** A rational stand-in for the exponential. *)
Definition exp (x : Q) : Q :=
  if Qle_bool 0 x then 1 + x + x * x / 2 else 1 / (1 - x + x * x / 2).

Lemma binomial1_range : forall p g,
  fst (binomial1 p g) = 0%Z \/ fst (binomial1 p g) = 1%Z.
Proof.
  intros p g. unfold binomial1. simpl.
  destruct (Qltb (unit_float g) p); [right | left]; reflexivity.
Qed.

Lemma randint_range : forall lo hi g,
  (lo < hi)%Z -> (lo <= fst (randint lo hi g) < hi)%Z.
Proof.
  intros lo hi g H. unfold randint. simpl.
  apply Z.ltb_lt in H as Hb. rewrite Hb.
  pose proof (Z.mod_pos_bound (g / 65536) (hi - lo)). lia.
Qed.

Lemma searchsorted_range : forall p u, p <> [] -> (searchsorted p u < List.length p)%nat.
Proof.
  induction p as [|x p IH]; intros u Hp; [congruence|].
  destruct p as [|y p]; [simpl; lia|].
  change (searchsorted (x :: y :: p) u)
    with (if Qltb u x then O else S (searchsorted (y :: p) (u - x))).
  destruct (Qltb u x); [simpl; lia|].
  specialize (IH (u - x) ltac:(discriminate)). simpl in *. lia.
Qed.

Lemma choice_p_range : forall p g,
  p <> [] -> (fst (choice_p p g) < List.length p)%nat.
Proof. intros p g Hp. apply searchsorted_range, Hp. Qed.

Lemma permutation_perm : forall n g,
  Permutation (fst (permutation n g)) (seq 0 n).
Proof.
  intros n g. unfold permutation. simpl.
  set (k := Z.to_nat _).
  rewrite <- (firstn_skipn k (seq 0 n)) at 3.
  apply Permutation_app_comm.
Qed.

#[export] Instance numpy : Numpy := {|
  RandomState := Z;
  random_seed := fun s => (s mod 2147483648)%Z;
  random_normal := normal;
  random_binomial1 := binomial1;
  random_random := random;
  random_randint := randint;
  random_choice_p := choice_p;
  random_permutation := permutation;
  np_exp := exp;
  random_binomial1_range := binomial1_range;
  random_randint_range := randint_range;
  random_choice_p_range := choice_p_range;
  random_permutation_perm := permutation_perm
|}.

End Lcg.

(** ** [split_data.py]

    pandas, scikit-learn and the file system are an interface; the state
    of a run is what it printed and the files it wrote. *)

Class SplitEnv : Type := {
  DataFrame : Type;
  Series : Type;
  (** [os.path.join]. *)
  os_path_join : string -> string -> string;
  (** [pd.read_csv(path)] on the file system of the run. *)
  pd_read_csv : string -> exn + DataFrame;
  (** [len(df)]. *)
  df_len : DataFrame -> nat;
  (** [df[col]]: a [KeyError] when the table has no such column. *)
  df_getitem : DataFrame -> string -> exn + Series;
  (** [series.mean()]. *)
  series_mean : Series -> exn + Q;
  (** [train_test_split(df, test_size, random_state, stratify)]. *)
  train_test_split : DataFrame -> Q -> Z -> Series -> exn + (DataFrame * DataFrame);
  (** [str(n)] and the float formats [:.1f], [:.2f]. *)
  str_of_nat : nat -> string;
  format_float : nat -> Q -> string
}.

Section SplitData.
Context {env : SplitEnv}.

Record World : Type := {
  stdout : list string;
  written : list (string * DataFrame)
}.

Definition IO (A : Type) : Type := ST World A.

Definition print (line : string) : IO unit :=
  fun w => (Return tt, {| stdout := stdout w ++ [line]; written := written w |}).

(** [df.to_csv(path, index=False)]. *)
Definition to_csv (df : DataFrame) (path : string) : IO unit :=
  fun w => (Return tt, {| stdout := stdout w; written := written w ++ [(path, df)] |}).

(** A library call that returns or raises. *)
Definition call {A : Type} (r : exn + A) : IO A :=
  match r with
  | inl e => raise e
  | inr a => ret a
  end.

(** [len(part) / len(df) * 100]. *)
Definition percent (part whole : nat) : IO Q :=
  if (whole =? 0)%nat
  then raise (OtherError "division by zero")
  else ret (inject_Z (Z.of_nat part) / inject_Z (Z.of_nat whole) * 100).

(** The second [try] block of [split_data]. *)
Definition split_and_save (input_folder : string) (random_state : Z) (df : DataFrame)
  : IO (option (DataFrame * DataFrame)) :=
  stratify <- call (df_getitem df "label_hypertension") ;;
  parts <- call (train_test_split df 0.3 random_state stratify) ;;
  let train_data := fst parts in
  let test_data := snd parts in
  let train_path := os_path_join input_folder "train_data.csv" in
  let test_path := os_path_join input_folder "test_data.csv" in
  to_csv train_data train_path ;;
  to_csv test_data test_path ;;
  print "Data split summary:" ;;
  train_pct <- percent (df_len train_data) (df_len df) ;;
  print ("Training set: " ++ str_of_nat (df_len train_data) ++ " records ("
         ++ format_float 1 train_pct ++ "%)") ;;
  test_pct <- percent (df_len test_data) (df_len df) ;;
  print ("Testing set:  " ++ str_of_nat (df_len test_data) ++ " records ("
         ++ format_float 1 test_pct ++ "%)") ;;
  train_label <- call (df_getitem train_data "label_hypertension") ;;
  train_mean <- call (series_mean train_label) ;;
  let train_prev := train_mean * 100 in
  test_label <- call (df_getitem test_data "label_hypertension") ;;
  test_mean <- call (series_mean test_label) ;;
  let test_prev := test_mean * 100 in
  print "Hypertension Prevalence:" ;;
  print ("Training set: " ++ format_float 2 train_prev ++ "%") ;;
  print ("Testing set:  " ++ format_float 2 test_prev ++ "%") ;;
  print ("Files saved in '" ++ input_folder ++ "' folder:") ;;
  print ("- " ++ train_path) ;;
  print ("- " ++ test_path) ;;
  ret (Some (train_data, test_data)).

(** [split_data(input_folder, input_filename, random_state)]; [None] is
    Python's [None]. *)
Definition split_data (input_folder input_filename : string) (random_state : Z)
  : IO (option (DataFrame * DataFrame)) :=
  let input_path := os_path_join input_folder input_filename in
  match pd_read_csv input_path with
  | inl (FileNotFoundError _) =>
      print ("Error: File not found at " ++ input_path) ;;
      ret None
  | inl e =>
      print ("Error loading CSV file: " ++ exn_str e) ;;
      ret None
  | inr df =>
      print ("Data loaded successfully from: " ++ input_path) ;;
      print ("Total records: " ++ str_of_nat (df_len df)) ;;
      try_except (split_and_save input_folder random_state df)
        (fun e => print ("Error during data splitting: " ++ exn_str e) ;; raise e)
  end.

(** [main()] of the split script. *)
Definition split_main : IO unit :=
  try_except
    (r <- split_data "dataset" "dummy_data.csv" 42 ;;
     match r with
     | None => raise (TypeError "cannot unpack non-iterable NoneType object")
     | Some _ => print "Data split completed successfully!"
     end)
    (fun e => print ("Error in main: " ++ exn_str e)).

End SplitData.

(** ** [merge_csv.py]

    pandas and the file system are an interface; the state of a run is
    what it printed and the file system.  [Files] is the state of the file
    system: reading and globbing look at it, [os.makedirs] and [to_csv]
    change it. *)

Module MergeCsv.

Class Env : Type := {
  Table : Type;
  Files : Type;
  (** [os.path.join], [os.path.basename], [os.path.splitext]. *)
  os_path_join : string -> string -> string;
  os_path_basename : string -> string;
  os_path_splitext : string -> string * string;
  (** [os.path.exists(path)]. *)
  os_path_exists : string -> Files -> bool;
  (** [os.makedirs(path)]. *)
  os_makedirs : string -> Files -> exn + Files;
  (** [glob(pattern)]. *)
  glob : string -> Files -> list string;
  (** [pd.read_csv(path)]. *)
  pd_read_csv : string -> Files -> exn + Table;
  (** [df.to_csv(path, index=False)]. *)
  df_to_csv : Table -> string -> Files -> exn + Files;
  (** [pd.concat(dfs, ignore_index=True)]. *)
  pd_concat : list Table -> exn + Table;
  (** [len(df)] and [len(df.columns)]. *)
  len : Table -> nat;
  n_columns : Table -> nat;
  (** [df[df.duplicated()]] and [df.drop_duplicates()]. *)
  duplicated_rows : Table -> Table;
  drop_duplicates : Table -> Table;
  (** [str(n)] and the float format [:.2f]. *)
  str : nat -> string;
  format_2f : Q -> string
}.

Section Script.
Context {env : Env}.

Record World : Type := {
  stdout : list string;
  files : Files
}.

Definition IO (A : Type) : Type := ST World A.

Definition print (line : string) : IO unit :=
  fun w => (Return tt, {| stdout := stdout w ++ [line]; files := files w |}).

(** A call that reads the file system. *)
Definition look {A : Type} (f : Files -> A) : IO A :=
  fun w => (Return (f (files w)), w).

(** A call that reads the file system and returns or raises. *)
Definition read {A : Type} (f : Files -> exn + A) : IO A :=
  fun w =>
    match f (files w) with
    | inl e => (Raise e, w)
    | inr a => (Return a, w)
    end.

(** A call that changes the file system, or raises and leaves it. *)
Definition change (f : Files -> exn + Files) : IO unit :=
  fun w =>
    match f (files w) with
    | inl e => (Raise e, w)
    | inr fs => (Return tt, {| stdout := stdout w; files := fs |})
    end.

(** The newline that starts some of the printed lines. *)
Definition nl : string := String (Ascii.ascii_of_nat 10) EmptyString.

(** [for file in csv_files: print(f"- {os.path.basename(file)}")]. *)
Fixpoint print_names (csv_files : list string) : IO unit :=
  match csv_files with
  | [] => ret tt
  | file :: rest =>
      print ("- " ++ os_path_basename file) ;;
      print_names rest
  end.

(** The loop that reads the files: [dfs] is the list so far. *)
Fixpoint load_files (csv_files : list string) (dfs : list Table) : IO (list Table) :=
  match csv_files with
  | [] => ret dfs
  | file :: rest =>
      dfs <- try_except
               (df <- read (pd_read_csv file) ;;
                let dfs := dfs ++ [df] in
                print ("Loaded " ++ os_path_basename file ++ ": " ++ str (len df)
                       ++ " records") ;;
                ret dfs)
               (fun e =>
                  print ("Error loading " ++ os_path_basename file ++ ": " ++ exn_str e) ;;
                  ret dfs) ;;
      load_files rest dfs
  end.

(** [merge_csv_files(input_folder, output_folder, output_filename)];
    [None] is Python's [None]. *)
Definition merge_csv_files (input_folder output_folder output_filename : string)
  : IO (option string) :=
  present <- look (os_path_exists output_folder) ;;
  (if negb present
   then (change (os_makedirs output_folder) ;;
         print ("Created directory: " ++ output_folder))
   else ret tt) ;;
  csv_files <- look (glob (os_path_join input_folder "*.csv")) ;;
  match csv_files with
  | [] =>
      print ("No CSV files found in " ++ input_folder) ;;
      ret None
  | _ :: _ =>
      print ("Found " ++ str (List.length csv_files) ++ " CSV files:") ;;
      print_names csv_files ;;
      dfs <- load_files csv_files [] ;;
      match dfs with
      | [] =>
          print "No data frames were successfully loaded" ;;
          ret None
      | _ :: _ =>
          merged_df <- read (fun _ => pd_concat dfs) ;;
          let output_path := os_path_join output_folder output_filename in
          change (df_to_csv merged_df output_path) ;;
          print (nl ++ "Merge complete!") ;;
          print ("Total records: " ++ str (len merged_df)) ;;
          print ("Total columns: " ++ str (n_columns merged_df)) ;;
          print ("Merged file saved as: " ++ output_path) ;;
          ret (Some output_path)
      end
  end.

(** [duplicate_count / total_rows * 100]: Python raises
    [ZeroDivisionError] on a zero divisor. *)
Definition percentage (duplicate_count total_rows : nat) : IO Q :=
  if (total_rows =? 0)%nat
  then raise (OtherError "division by zero")
  else ret (inject_Z (Z.of_nat duplicate_count) / inject_Z (Z.of_nat total_rows) * 100).

(** [check_duplicates(csv_path, output_folder, remove_duplicates)]. *)
Definition check_duplicates (csv_path output_folder : string) (remove_duplicates : bool)
  : IO (nat * nat * option string) :=
  print (nl ++ "Checking duplicates in: " ++ csv_path) ;;
  df <- read (pd_read_csv csv_path) ;;
  let total_rows := len df in
  let duplicates := duplicated_rows df in
  let duplicate_count := len duplicates in
  print (nl ++ "Duplicate Analysis:") ;;
  print ("Total rows: " ++ str total_rows) ;;
  print ("Duplicate rows: " ++ str duplicate_count) ;;
  pct <- percentage duplicate_count total_rows ;;
  print ("Duplicate percentage: " ++ format_2f pct ++ "%") ;;
  if remove_duplicates && (0 <? duplicate_count)%nat
  then
    let filename := os_path_basename csv_path in
    let (base, ext) := os_path_splitext filename in
    let output_path := os_path_join output_folder (base ++ "_no_duplicates" ++ ext) in
    let df_clean := drop_duplicates df in
    change (df_to_csv df_clean output_path) ;;
    print (nl ++ "Duplicates removed:") ;;
    print ("Original rows: " ++ str total_rows) ;;
    print ("Rows after deduplication: " ++ str (len df_clean)) ;;
    print ("Deduplicated file saved as: " ++ output_path) ;;
    ret (total_rows, duplicate_count, Some output_path)
  else ret (total_rows, duplicate_count, None).

(** [main()] of the merge script; the empty string is falsy. *)
Definition main : IO unit :=
  merged_file <- merge_csv_files "raw_data" "dataset" "DUMMY_DATA_hypertension_patient.csv" ;;
  match merged_file with
  | Some path =>
      if String.eqb path EmptyString
      then ret tt
      else (check_duplicates path "dataset" true ;; ret tt)
  | None => ret tt
  end.

(** The tables of the files that [pd.read_csv] reads, in the order of the
    list. *)
Fixpoint readable (csv_files : list string) (fs : Files) : list Table :=
  match csv_files with
  | [] => []
  | file :: rest =>
      match pd_read_csv file fs with
      | inl _ => readable rest fs
      | inr df => df :: readable rest fs
      end
  end.

(** The file system once the output folder is there. *)
Definition with_output_folder (output_folder : string) (fs : Files) : exn + Files :=
  if os_path_exists output_folder fs then inr fs else os_makedirs output_folder fs.

(** The last part of [merge_csv_files], on the tables that were read. *)
Definition write_merged (output_folder output_filename : string) (dfs : list Table)
  : IO (option string) :=
  merged_df <- read (fun _ => pd_concat dfs) ;;
  let output_path := os_path_join output_folder output_filename in
  change (df_to_csv merged_df output_path) ;;
  print (nl ++ "Merge complete!") ;;
  print ("Total records: " ++ str (len merged_df)) ;;
  print ("Total columns: " ++ str (n_columns merged_df)) ;;
  print ("Merged file saved as: " ++ output_path) ;;
  ret (Some output_path).

(** The path of the deduplicated file. *)
Definition no_duplicates_path (csv_path output_folder : string) : string :=
  os_path_join output_folder
    (fst (os_path_splitext (os_path_basename csv_path)) ++ "_no_duplicates"
     ++ snd (os_path_splitext (os_path_basename csv_path))).

End Script.

(** A concrete environment: a table is a list of rows of integers, a file
    holds a table or cannot be parsed, and the file system is the list of
    directories and the list of files, newest first. *)
Module Disk.

Definition Rows : Type := list (list Z).

Record Fs : Type := {
  dirs : list string;
  entries : list (string * option Rows)
}.

Definition row_eqb (a b : list Z) : bool :=
  if list_eq_dec Z.eq_dec a b then true else false.

(** The rows that repeat an earlier row. *)
Fixpoint repeats (seen : list (list Z)) (rows : Rows) : Rows :=
  match rows with
  | [] => []
  | r :: rest =>
      if existsb (row_eqb r) seen
      then r :: repeats seen rest
      else repeats (r :: seen) rest
  end.

(** The first occurrence of every row. *)
Fixpoint firsts (seen : list (list Z)) (rows : Rows) : Rows :=
  match rows with
  | [] => []
  | r :: rest =>
      if existsb (row_eqb r) seen
      then firsts seen rest
      else r :: firsts (r :: seen) rest
  end.

Definition lookup (path : string) (fs : Fs) : option (option Rows) :=
  match find (fun f => String.eqb (fst f) path) (entries fs) with
  | Some f => Some (snd f)
  | None => None
  end.

Definition ends_with (suffix s : string) : bool :=
  String.eqb
    (substring (String.length s - String.length suffix) (String.length suffix) s)
    suffix.

(** The files of the pattern's folder whose name ends in [.csv]; the
    pattern is [<folder>/*.csv]. *)
Definition matches (pattern path : string) : bool :=
  prefix (substring 0 (String.length pattern - 5) pattern) path && ends_with ".csv" path.

Definition basename (path : string) : string :=
  match index 0 "/" path with
  | Some i => substring (S i) (String.length path - S i) path
  | None => path
  end.

Definition splitext (name : string) : string * string :=
  match index 0 "." name with
  | Some i => (substring 0 i name, substring i (String.length name - i) name)
  | None => (name, EmptyString)
  end.

Definition env : Env := {|
  Table := Rows;
  Files := Fs;
  os_path_join := fun a b => (a ++ "/" ++ b)%string;
  os_path_basename := basename;
  os_path_splitext := splitext;
  os_path_exists := fun path fs => existsb (String.eqb path) (dirs fs);
  os_makedirs := fun path fs => inr {| dirs := path :: dirs fs; entries := entries fs |};
  glob := fun pattern fs => map fst (filter (fun f => matches pattern (fst f)) (entries fs));
  pd_read_csv := fun path fs =>
    match lookup path fs with
    | Some (Some rows) => inr rows
    | Some None => inl (OtherError "Error tokenizing data")
    | None => inl (FileNotFoundError "No such file or directory")
    end;
  df_to_csv := fun rows path fs =>
    inr {| dirs := dirs fs; entries := (path, Some rows) :: entries fs |};
  pd_concat := fun dfs => inr (concat dfs);
  len := fun rows => List.length rows;
  n_columns := fun rows => List.length (hd [] rows);
  duplicated_rows := repeats [];
  drop_duplicates := firsts [];
  str := fun n => NilZero.string_of_uint (Nat.to_uint n);
  format_2f := fun q => NilZero.string_of_int (Z.to_int (Qfloor q))
|}.

(** The state of a run that starts on [fs] with nothing printed. *)
Definition start (fs : Fs) : @World env := @Build_World env [] fs.

(** A raw-data folder with two tables and a file that cannot be parsed. *)
Definition raw : Fs := {|
  dirs := ["raw_data"%string];
  entries := [("raw_data/a.csv"%string, Some [[1; 20]; [2; 30]]%Z);
              ("raw_data/broken.csv"%string, None);
              ("raw_data/b.csv"%string, Some [[2; 30]; [3; 40]]%Z)]
|}.

(** A raw-data folder whose one table has no rows. *)
Definition headers_only : Fs := {|
  dirs := ["raw_data"%string; "dataset"%string];
  entries := [("raw_data/a.csv"%string, Some [])]
|}.

(** A merged file in which the first row comes three times. *)
Definition with_duplicates : Fs := {|
  dirs := ["dataset"%string];
  entries :=
    [("dataset/merged.csv"%string, Some [[1; 20]; [2; 30]; [1; 20]; [1; 20]]%Z)]
|}.

End Disk.

End MergeCsv.

(** * Definitions the properties are stated with *)

(** A label column: every value is 0 or 1. *)
Definition binary (col : list Z) : Prop := Forall (fun x => x = 0%Z \/ x = 1%Z) col.

(** [col'] is [col] with the rows [idx] overwritten by values of [allowed]
    and every other row as it was. *)
Definition overwritten {A : Type} (col col' : list A) (idx : list nat) (allowed : list A)
  : Prop :=
  List.length col' = List.length col /\
  (forall i, In i idx -> exists v, nth_error col' i = Some v /\ In v allowed) /\
  (forall i, ~ In i idx -> nth_error col' i = nth_error col i).

(** A computation that needs no fuel: it returns or raises. *)
Definition fuel_free {S A : Type} (m : ST S A) : Prop :=
  forall s, fst (m s) <> OutOfFuel.

(** The row of the scenario: a young person with every bad habit, 170 cm
    and 90 kg.  Gender and belly circumference are left open. *)
Definition scenario (row : Row) : Prop :=
  age row = 20%Z /\ family_history row = 1%Z /\
  salt_consumption row = high /\ sugar_consumption row = high /\
  exercise_frequency row = low /\ smoking_status row = smoker /\
  height_cm row = 170 /\ weight_kg row = 90.

(** A scenario row with a slim waist. *)
Definition slim_scenario_row : Row :=
  {| age := 20; gender := Female; height_cm := 170; weight_kg := 90;
     belly_circumference_cm := 80; smoking_status := smoker;
     exercise_frequency := low; salt_consumption := high;
     sugar_consumption := high; family_history := 1 |}.

(** A scenario row with the belly circumference the generator gives a
    young person of 90 kg when its noise is zero: 90 * 0.5 + 60. *)
Definition typical_scenario_row : Row :=
  {| age := 20; gender := Male; height_cm := 170; weight_kg := 90;
     belly_circumference_cm := 105; smoking_status := smoker;
     exercise_frequency := low; salt_consumption := high;
     sugar_consumption := high; family_history := 1 |}.

Section Pipelines.
Context {np : Numpy}.

(** Everything [create_dummy_data] does before step 11. *)
Definition before_adjustment (n_samples : Z) : M Frame.t :=
  np_random_seed 42 ;;
  data <- generate_population n_samples ;;
  data <- add_outliers n_samples data ;;
  data <- add_timestamps n_samples data ;;
  add_missing_values data.

(** The order of the specification's system overview: the prevalence
    calibrator runs on the labelled population, before outlier injection
    and missing-value injection. *)
Definition spec_order_pipeline (fuel : nat) (n_samples : Z) (target_prevalence : Q)
  : M Frame.t :=
  np_random_seed 42 ;;
  data <- generate_population n_samples ;;
  data <- adjust_prevalence fuel target_prevalence data ;;
  data <- add_outliers n_samples data ;;
  data <- add_timestamps n_samples data ;;
  add_missing_values data.

(** The run the specification's configuration surface describes: the
    steps of [create_dummy_data] on a generator seeded with a configured
    seed. *)
Definition seeded_pipeline (seed : Z) (fuel : nat) (n_samples : Z) (target_prevalence : Q)
  : M Frame.t :=
  np_random_seed seed ;;
  data <- generate_population n_samples ;;
  data <- add_outliers n_samples data ;;
  data <- add_timestamps n_samples data ;;
  data <- add_missing_values data ;;
  adjust_prevalence fuel target_prevalence data.

End Pipelines.

(** The configuration surface of the specification. *)
Record Config : Type := {
  config_n_samples : Z;
  config_target_prevalence : Q;
  config_seed : Z
}.

(** A valid configuration, in the specification's words: a positive sample
    count and a target prevalence in the open interval (0, 1). *)
Definition valid_configuration (n_samples : Z) (target_prevalence : Q) : Prop :=
  (0 < n_samples)%Z /\ 0 < target_prevalence /\ target_prevalence < 1.

Section Runs.
Context {np : Numpy}.

(** A run under a configuration: [create_dummy_data] takes the sample
    count and the target, and has no parameter for a seed. *)
Definition run (fuel : nat) (c : Config) : M Frame.t :=
  create_dummy_data fuel (config_n_samples c) (config_target_prevalence c).

(** The run the configuration surface describes. *)
Definition run_on_configured_seed (fuel : nat) (c : Config) : M Frame.t :=
  seeded_pipeline (config_seed c) fuel (config_n_samples c) (config_target_prevalence c).

End Runs.

(** A concrete environment for [split_data]: a table is a list of named
    columns of integers, the file system is [disk], and the split is by
    position (a stand-in for scikit-learn's). *)
Module Disk.

Definition Table : Type := list (string * list Z).

Definition len (df : Table) : nat :=
  match df with
  | [] => O
  | (_, col) :: _ => List.length col
  end.

Definition getitem (df : Table) (name : string) : exn + list Z :=
  match find (fun c => String.eqb (fst c) name) df with
  | Some c => inr (snd c)
  | None => inl (KeyError name)
  end.

Definition column_mean (s : list Z) : exn + Q :=
  match mean s with
  | Some m => inr m
  | None => inl (OtherError "mean of an empty series")
  end.

Definition split (df : Table) (test_size : Q) (random_state : Z) (stratify : list Z)
  : exn + (Table * Table) :=
  let n := len df in
  let n_test := Z.to_nat (Qceiling (inject_Z (Z.of_nat n) * test_size)) in
  if (n <? 2)%nat
  then inl (ValueError "the resulting train set will be empty")
  else inr (map (fun c => (fst c, firstn (n - n_test) (snd c))) df,
            map (fun c => (fst c, skipn (n - n_test) (snd c))) df).

Definition env (disk : string -> option Table) : SplitEnv := {|
  DataFrame := Table;
  Series := list Z;
  os_path_join := fun a b => (a ++ "/" ++ b)%string;
  pd_read_csv := fun path =>
    match disk path with
    | Some df => inr df
    | None => inl (FileNotFoundError "No such file or directory")
    end;
  df_len := len;
  df_getitem := getitem;
  series_mean := column_mean;
  train_test_split := split;
  str_of_nat := fun n => NilZero.string_of_uint (Nat.to_uint n);
  format_float := fun _ q => NilZero.string_of_int (Z.to_int (Qfloor q))
|}.

(** No file at all. *)
Definition empty : string -> option Table := fun _ => None.

(** A file at every path, without a [label_hypertension] column. *)
Definition unlabelled : string -> option Table :=
  fun _ => Some [("id"%string, [1; 2; 3; 4]%Z); ("age"%string, [20; 30; 40; 50]%Z)].

(** A file at every path, with the label column. *)
Definition labelled : string -> option Table :=
  fun _ => Some [("id"%string, [1; 2; 3; 4]%Z);
                 ("label_hypertension"%string, [0; 1; 0; 1]%Z)].

End Disk.

(** ** Preconditions that keep clear of float arithmetic *)

(** Step 11 computes [abs(mean - t)] in doubles: the mean, the target and
    the difference are each rounded, and so is the literal 0.01.  For a
    target between -1 and 2 the computed value is within 1e-15 of the exact
    one, so the double comparison and the exact one can differ only for a
    count whose distance to the target is that close to 0.01: with 20 rows
    and a target of 0.29, six positives are at distance 0.01 exactly, and in
    doubles [0.3 - 0.29 > 0.01].  [rounding_margin] is far above the bound. *)
Definition rounding_margin : Q := 1 # 1000000000.

(** The count [k] of positives on [n] rows is within 0.01 of the target
    and clear of the rounding: on doubles as on the exact values,
    [abs(k/n - t) > 0.01] is false. *)
Definition well_on_target (k n : Z) (t : Q) : Prop :=
  Qabs (inject_Z k / inject_Z n - t) <= 0.01 - rounding_margin.

(** A height whose square [(height/100) ** 2] is a finite, nonzero double
    (between 1e-150 and 1e150 in absolute value).  At line 91 Python raises
    [ZeroDivisionError] when the height is zero or its square underflows to
    zero, and [OverflowError] when the square overflows. *)
Definition height_in_float_range (height : Q) : Prop :=
  1 / inject_Z (10 ^ 150) <= Qabs height <= inject_Z (10 ^ 150).

(** ** Definitions of the further properties *)

(** Every column of [data] but [input_time] has [n] rows. *)
Definition frame_rows (n : nat) (data : Frame.t) : Prop :=
  List.length (Frame.id data) = n /\
  List.length (Frame.age data) = n /\
  List.length (Frame.gender data) = n /\
  List.length (Frame.height_cm data) = n /\
  List.length (Frame.weight_kg data) = n /\
  List.length (Frame.belly_circumference_cm data) = n /\
  List.length (Frame.smoking_status data) = n /\
  List.length (Frame.exercise_frequency data) = n /\
  List.length (Frame.salt_consumption data) = n /\
  List.length (Frame.sugar_consumption data) = n /\
  List.length (Frame.self_emotional data) = n /\
  List.length (Frame.family_history data) = n /\
  List.length (Frame.label_hypertension data) = n.

(** An age as steps 1 and 8 can leave it: drawn and clipped, or one of the
    outlier values. *)
Definition age_in_domain (a : Z) : Prop :=
  (15 <= a <= 90)%Z \/ In a [1; 2; 3; 120; 130; 140]%Z.

(** A frame of two rows, before any corruption. *)
Definition example_frame : Frame.t :=
  Frame.mk [1; 2]%Z [22; 61]%Z [Some Male; Some Female]
           [Some 176; Some 160] [Some 85; Some 64] [Some 104; Some 81]
           [Some smoker; Some never] [Some low; Some high]
           [Some high; Some low] [Some high; Some low]
           [Some 1%Z; Some 0%Z] [Some 0%Z; Some 1%Z] [1; 0]%Z [].

(** [new] is [old] or NaN. *)
Definition same_or_nan {A : Type} (old new : option A) : Prop :=
  new = old \/ new = None.

(** A computation that always returns. *)
Definition total {S A : Type} (m : ST S A) : Prop :=
  forall s, exists a s', m s = (Return a, s').

(** A frame of [n] rows whose cells are all NaN. *)
Definition blank_frame (n : nat) : Frame.t :=
  Frame.mk (repeat 0%Z n) (repeat 0%Z n) (repeat None n) (repeat None n) (repeat None n)
           (repeat None n) (repeat None n) (repeat None n) (repeat None n) (repeat None n)
           (repeat None n) (repeat None n) (repeat 0%Z n) [].

(** A label is as it was, or went from 1 to 0. *)
Definition lowered (old new : Z) : Prop := new = old \/ (old = 1%Z /\ new = 0%Z).

(** A label is as it was, or went from 0 to 1. *)
Definition raised (old new : Z) : Prop := new = old \/ (old = 0%Z /\ new = 1%Z).

(** The row with its four lifestyle columns replaced. *)
Definition with_habits (row : Row) (sm : Smoking) (ex sa su : Level) : Row :=
  {| age := age row; gender := gender row; height_cm := height_cm row;
     weight_kg := weight_kg row; belly_circumference_cm := belly_circumference_cm row;
     smoking_status := sm; exercise_frequency := ex; salt_consumption := sa;
     sugar_consumption := su; family_history := family_history row |}.

Definition smoking_rank (s : Smoking) : nat :=
  match s with
  | never => 0
  | quit => 1
  | smoker => 2
  end.

(** The habits [sm], [ex], [sa], [su] are no better than those of [row]:
    smoking is at least as far along never, quit, smoker; exercise that
    was low is low; salt and sugar that were high are high. *)
Definition no_better (row : Row) (sm : Smoking) (ex sa su : Level) : Prop :=
  (smoking_rank (smoking_status row) <= smoking_rank sm)%nat /\
  (exercise_frequency row = low -> ex = low) /\
  (salt_consumption row = high -> sa = high) /\
  (sugar_consumption row = high -> su = high).

(** A young non-smoker who exercises and eats little salt and sugar. *)
Definition careful_row : Row :=
  {| age := 20; gender := Male; height_cm := 170; weight_kg := 90;
     belly_circumference_cm := 105; smoking_status := never;
     exercise_frequency := high; salt_consumption := low;
     sugar_consumption := low; family_history := 1 |}.

(** * Properties *)

(** ** The risk scorer *)

Lemma clip_unit : forall x, 0 <= clip x 0 1 <= 1.
Proof.
  intro x. unfold clip. split.
  - apply Q.min_glb; [apply Q.le_max_r | lra].
  - apply Q.le_min_r.
Qed.

Lemma Qgeb_false : forall x y, Qgeb x y = false -> x < y.
Proof.
  unfold Qgeb. intros x y H. apply Qnot_le_lt. intro L.
  apply Qle_bool_iff in L. congruence.
Qed.

Lemma Qgtb_true : forall x y, Qgtb x y = true <-> y < x.
Proof.
  unfold Qgtb. intros x y. rewrite negb_true_iff. split; intro H.
  - apply Qnot_le_lt. intro L. apply Qle_bool_iff in L. congruence.
  - apply not_true_is_false. intro L. apply Qle_bool_iff in L. lra.
Qed.

Lemma Qgtb_false : forall x y, Qgtb x y = false <-> x <= y.
Proof.
  unfold Qgtb. intros x y. rewrite negb_false_iff. apply Qle_bool_iff.
Qed.

Section RiskProperties.
Context {np : Numpy}.

Lemma calculate_risk_returns : forall row g,
  calculate_risk row g =
    (Return (clip (risk_before_noise row + fst (random_normal 0 0.02 g)) 0 1),
     snd (random_normal 0 0.02 g)).
Proof.
  intros row g. unfold calculate_risk, bind, draw, ret.
  destruct (random_normal 0 0.02 g) as [noise g']. reflexivity.
Qed.

(** C6. For every row whose height lets line 91 compute the BMI (a
    height that is not zero and whose square is a finite double), the three
    normalised scores lie in [0, 1], and [calculate_risk] returns, for
    every state of the generator, a probability that lies in [0, 1]. *)
Theorem scores_and_risk_in_unit_interval : forall (row : Row) (g : RandomState),
  height_in_float_range (height_cm row) ->
  0 <= genetic_score row <= 1 /\
  0 <= lifestyle_score row <= 1 /\
  0 <= health_score row <= 1 /\
  exists p g', calculate_risk row g = (Return p, g') /\ 0 <= p <= 1.
Proof.
  intros row g _. repeat split; try apply clip_unit.
  eexists. eexists. split.
  - apply calculate_risk_returns.
  - apply clip_unit.
Qed.

(** C10. [generate_weight] returns the drawn [base_bmi] times
    [(height/100)^2], and the BMI that [calculate_risk] recomputes from that
    weight and a nonzero height is the drawn [base_bmi] again. *)
Theorem bmi_recovers_base_bmi : forall (height : Q) (a : Z) (g : RandomState),
  ~ height == 0 ->
  exists base_bmi w g',
    (base_bmi, g') = (if (a <? 35)%Z then random_normal 28 5 g else random_normal 25 4 g) /\
    generate_weight height a g = (Return w, g') /\
    forall row, weight_kg row = w -> height_cm row = height -> bmi row == base_bmi.
Proof.
  intros height a g Hh.
  unfold generate_weight, bind, draw, ret.
  destruct (a <? 35)%Z.
  - destruct (random_normal 28 5 g) as [b g'].
    exists b, (b * (height / 100) ^ 2), g'. repeat split.
    intros row Hw Hr. unfold bmi. rewrite Hw, Hr. field. exact Hh.
  - destruct (random_normal 25 4 g) as [b g'].
    exists b, (b * (height / 100) ^ 2), g'. repeat split.
    intros row Hw Hr. unfold bmi. rewrite Hw, Hr. field. exact Hh.
Qed.

End RiskProperties.

(** Unfolds [calculate_risk]'s arithmetic on a row given field by field. *)
Ltac unfold_risk :=
  unfold risk_before_noise, weighted_risk, combined_bonus, family_bonus,
    health_score, lifestyle_score, genetic_score,
    health_points, lifestyle_points, genetic_points, is_young, bmi,
    waist_ratio, waist_threshold;
  cbn [age gender height_cm weight_kg belly_circumference_cm smoking_status
       exercise_frequency salt_consumption sugar_consumption family_history
       Gender_eqb].

(** C8, as stated, fails: a scenario row whose waist is under the
    threshold has a health score of 0.4 and gets no combined bonus. *)
Lemma scenario_slim_waist_no_bonus :
  exists row, scenario row /\
    health_score row == 0.4 /\ ~ 0.6 < health_score row /\ combined_bonus row == 0.
Proof.
  exists slim_scenario_row. split.
  - repeat split.
  - vm_compute. intuition congruence.
Qed.

(** C8, amended. For a scenario row whose belly circumference reaches the
    waist threshold of its gender (88 for Female, 102 otherwise): the BMI is
    31.1 to one decimal, the health and lifestyle scores both exceed 0.6, the
    combined bonus of 0.2 is added, and the probability before noise exceeds
    0.7. *)
Theorem scenario_scores : forall row,
  scenario row ->
  waist_threshold row <= belly_circumference_cm row ->
  Qabs (bmi row - 31.1) < 0.05 /\
  0.6 < health_score row /\
  0.6 < lifestyle_score row /\
  combined_bonus row == 0.2 /\
  0.7 < risk_before_noise row.
Proof.
  intros [a gd h w b sm ex sa su fh] (Ha & Hf & Hsa & Hsu & Hex & Hsm & Hh & Hw) Hb.
  cbn [age gender height_cm weight_kg belly_circumference_cm smoking_status
       exercise_frequency salt_consumption sugar_consumption family_history] in *.
  subst.
  unfold waist_threshold in Hb.
  cbn [gender belly_circumference_cm] in Hb.
  destruct gd; cbn [Gender_eqb] in Hb; unfold_risk.
  - destruct (Qgeb (b / 102) 1.2) eqn:E1; [vm_compute; intuition congruence|].
    destruct (Qgeb (b / 102) 1.0) eqn:E2; [vm_compute; intuition congruence|].
    apply Qgeb_false in E2.
    assert (1.0 <= b / 102) by (apply Qle_shift_div_l; lra). lra.
  - destruct (Qgeb (b / 88) 1.2) eqn:E1; [vm_compute; intuition congruence|].
    destruct (Qgeb (b / 88) 1.0) eqn:E2; [vm_compute; intuition congruence|].
    apply Qgeb_false in E2.
    assert (1.0 <= b / 88) by (apply Qle_shift_div_l; lra). lra.
Qed.

(** Whatever the waist, the probability before noise of a scenario row
    exceeds 0.7. *)
Lemma scenario_risk_above : forall row, scenario row -> 0.7 < risk_before_noise row.
Proof.
  intros [a gd h w b sm ex sa su fh] (Ha & Hf & Hsa & Hsu & Hex & Hsm & Hh & Hw).
  cbn [age gender height_cm weight_kg belly_circumference_cm smoking_status
       exercise_frequency salt_consumption sugar_consumption family_history] in *.
  subst.
  destruct gd; unfold_risk.
  - destruct (Qgeb (b / 102) 1.2); [|destruct (Qgeb (b / 102) 1.0)];
      vm_compute; reflexivity.
  - destruct (Qgeb (b / 88) 1.2); [|destruct (Qgeb (b / 88) 1.0)];
      vm_compute; reflexivity.
Qed.

Lemma scenario_scores_witness :
  scenario typical_scenario_row /\
  waist_threshold typical_scenario_row <= belly_circumference_cm typical_scenario_row /\
  Qabs (bmi typical_scenario_row - 31.1) < 0.05 /\
  0.6 < health_score typical_scenario_row /\
  0.6 < lifestyle_score typical_scenario_row /\
  combined_bonus typical_scenario_row == 0.2 /\
  0.7 < risk_before_noise typical_scenario_row.
Proof.
  assert (Hs : scenario typical_scenario_row) by (repeat split).
  assert (Hw : waist_threshold typical_scenario_row
               <= belly_circumference_cm typical_scenario_row)
    by (vm_compute; discriminate).
  split; [exact Hs | split; [exact Hw |]].
  exact (scenario_scores Hs Hw).
Defined.

Lemma bmi_recovers_base_bmi_witness :
  ~ 170 == 0 /\
  exists base_bmi w g',
    (base_bmi, g') = Lcg.normal 28 5 0%Z /\
    generate_weight (np := Lcg.numpy) 170 20 0%Z = (Return w, g') /\
    forall row, weight_kg row = w -> height_cm row = 170 -> bmi row == base_bmi.
Proof.
  assert (H : ~ 170 == 0) by (intro E; discriminate E).
  split; [exact H |].
  exact (bmi_recovers_base_bmi (np := Lcg.numpy) 20 0%Z H).
Defined.

Lemma scores_and_risk_in_unit_interval_witness :
  height_in_float_range (height_cm typical_scenario_row) /\
  0 <= genetic_score typical_scenario_row <= 1 /\
  0 <= lifestyle_score typical_scenario_row <= 1 /\
  0 <= health_score typical_scenario_row <= 1 /\
  exists p g',
    calculate_risk (np := Lcg.numpy) typical_scenario_row 0%Z = (Return p, g') /\
    0 <= p <= 1.
Proof.
  assert (H : height_in_float_range (height_cm typical_scenario_row)).
  { unfold height_in_float_range. split; apply Qle_bool_imp_le; vm_compute; reflexivity. }
  split; [exact H |].
  exact (@scores_and_risk_in_unit_interval Lcg.numpy typical_scenario_row 0%Z H).
Defined.

(** ** The monad *)

Lemma bind_Return : forall (S A B : Type) (m : ST S A) (k : A -> ST S B) s b s',
  bind m k s = (Return b, s') ->
  exists a s1, m s = (Return a, s1) /\ k a s1 = (Return b, s').
Proof.
  intros S A B m k s b s' H. unfold bind in H.
  destruct (m s) as [[a | e |] s1]; try discriminate.
  exists a, s1. split; [reflexivity | exact H].
Qed.

(** ** Columns of labels *)

Lemma set_at_length : forall (A : Type) (col : list A) i v,
  List.length (set_at i v col) = List.length col.
Proof.
  induction col as [|x col IH]; intros [|i] v; simpl; auto.
Qed.

Lemma set_at_binary : forall col i v,
  binary col -> v = 0%Z \/ v = 1%Z -> binary (set_at i v col).
Proof.
  unfold binary. induction col as [|x col IH]; intros [|i] v Hc Hv; simpl; auto;
    inversion Hc; subst; constructor; auto.
Qed.

Lemma sum_Z_set_at : forall col i v,
  (i < List.length col)%nat ->
  sum_Z (set_at i v col) = (sum_Z col - nth i col 0 + v)%Z.
Proof.
  induction col as [|x col IH]; intros [|i] v Hi; simpl in *; try lia.
  rewrite IH by lia. lia.
Qed.

Lemma binary_sum_bounds : forall col,
  binary col -> (0 <= sum_Z col <= Z.of_nat (List.length col))%Z.
Proof.
  unfold binary. induction 1 as [|x col Hx _ IH]; simpl; [lia|].
  destruct Hx; subst; lia.
Qed.

Lemma binary_has_one : forall col,
  binary col -> (0 < sum_Z col)%Z ->
  exists i, (i < List.length col)%nat /\ nth i col 0%Z = 1%Z.
Proof.
  unfold binary. induction 1 as [|x col Hx Hc IH]; simpl; intro Hs; [lia|].
  destruct Hx; subst.
  - destruct (IH Hs) as (i & Hi & Hn). exists (S i). split; [lia | exact Hn].
  - exists O. split; [lia | reflexivity].
Qed.

Lemma binary_has_zero : forall col,
  binary col -> (sum_Z col < Z.of_nat (List.length col))%Z ->
  exists i, (i < List.length col)%nat /\ nth i col 0%Z = 0%Z.
Proof.
  unfold binary. induction 1 as [|x col Hx Hc IH]; simpl; intro Hs; [lia|].
  destruct Hx; subst.
  - exists O. split; [lia | reflexivity].
  - destruct IH as (i & Hi & Hn); [lia|]. exists (S i). split; [lia | exact Hn].
Qed.

Lemma binary_zero_below : forall col i,
  binary col -> (i < List.length col)%nat -> nth i col 0%Z = 0%Z ->
  (sum_Z col < Z.of_nat (List.length col))%Z.
Proof.
  unfold binary. induction col as [|x col IH]; intros [|i] Hc Hi Hn; simpl in *; try lia;
    inversion Hc as [|? ? Hx Hc']; subst.
  - pose proof (binary_sum_bounds Hc'). lia.
  - specialize (IH i Hc' ltac:(lia) Hn). destruct Hx; subst; lia.
Qed.

Lemma labels_where_In : forall v col i,
  In i (labels_where v col) <-> (i < List.length col)%nat /\ nth i col 0%Z = v.
Proof.
  intros v col i. unfold labels_where. rewrite filter_In, in_seq, Z.eqb_eq. lia.
Qed.

Lemma mean_cons : forall col,
  col <> [] ->
  mean col = Some (inject_Z (sum_Z col) / inject_Z (Z.of_nat (List.length col))).
Proof. intros [|x col] H; [congruence | reflexivity]. Qed.

Lemma frac_le : forall a b n,
  (0 < n)%Z -> (a <= b)%Z -> inject_Z a / inject_Z n <= inject_Z b / inject_Z n.
Proof.
  intros a b n Hn Hab. unfold Qdiv. apply Qmult_le_compat_r.
  - rewrite <- Zle_Qle. exact Hab.
  - apply Qinv_le_0_compat. replace 0 with (inject_Z 0) by reflexivity.
    rewrite <- Zle_Qle. lia.
Qed.

Lemma frac_unit : forall a n,
  (0 < n)%Z -> (0 <= a <= n)%Z -> 0 <= inject_Z a / inject_Z n <= 1.
Proof.
  intros a n Hn Ha. split.
  - setoid_replace 0 with (inject_Z 0 / inject_Z n) by (unfold Qdiv; ring).
    apply frac_le; lia.
  - setoid_replace 1 with (inject_Z n / inject_Z n).
    + apply frac_le; lia.
    + field. replace 0 with (inject_Z 0) by reflexivity.
      rewrite inject_Z_injective. lia.
Qed.

Section Sampling.
Context {np : Numpy}.

Lemma sample_1_index_empty : forall g,
  sample_1_index [] g =
    (Raise (ValueError "a must be greater than 0 unless no samples are taken"), g).
Proof. reflexivity. Qed.

Lemma sample_1_index_nonempty : forall labels g,
  labels <> [] ->
  exists i g', sample_1_index labels g = (Return i, g') /\ In i labels.
Proof.
  intros labels g Hl.
  assert (Hlen : (0 < List.length labels)%nat) by (destruct labels; simpl; [congruence | lia]).
  unfold sample_1_index, np_random_choice_no_replace, bind, draw, ret.
  replace (Z.of_nat (List.length labels) <=? 0)%Z with false by (symmetry; apply Z.leb_gt; lia).
  replace (1 >? Z.of_nat (List.length labels))%Z with false
    by (symmetry; rewrite Z.gtb_ltb; apply Z.ltb_ge; lia).
  simpl. rewrite Nat2Z.id.
  pose proof (random_permutation_perm (List.length labels) g) as Hp.
  destruct (random_permutation (List.length labels) g) as [perm g']. simpl in Hp.
  destruct perm as [|x perm].
  - apply Permutation_length in Hp. rewrite length_seq in Hp. simpl in Hp. lia.
  - exists (nth x labels 0%nat), g'. split; [reflexivity|].
    apply nth_In.
    assert (Hx : In x (seq 0 (List.length labels)))
      by (eapply Permutation_in; [exact Hp | left; reflexivity]).
    apply in_seq in Hx. lia.
Qed.

(** ** The prevalence loop *)

Lemma loop_on_target : forall fuel t col g,
  off_target (mean col) t = false ->
  adjust_prevalence_loop (S fuel) t col g = (Return col, g).
Proof. intros fuel t col g H. simpl. rewrite H. reflexivity. Qed.

Lemma loop_step_down : forall fuel t col g,
  binary col ->
  off_target (mean col) t = true -> above_target (mean col) t = true ->
  (0 < sum_Z col)%Z ->
  exists i g',
    (i < List.length col)%nat /\ nth i col 0%Z = 1%Z /\
    adjust_prevalence_loop (S fuel) t col g =
      adjust_prevalence_loop fuel t (set_at i 0%Z col) g'.
Proof.
  intros fuel t col g Hb Hoff Habove Hs.
  destruct (binary_has_one Hb Hs) as (j & Hj & Hn).
  assert (Hne : labels_where 1 col <> []).
  { intro E. assert (In j (labels_where 1 col)) by (apply labels_where_In; auto).
    rewrite E in H. contradiction. }
  destruct (sample_1_index_nonempty g Hne) as (i & g' & Hsamp & Hin).
  apply labels_where_In in Hin. destruct Hin as [Hi Hni].
  exists i, g'. repeat split; auto.
  simpl. rewrite Hoff, Habove. unfold bind. rewrite Hsamp. reflexivity.
Qed.

Lemma loop_step_up : forall fuel t col g,
  binary col ->
  off_target (mean col) t = true -> above_target (mean col) t = false ->
  (sum_Z col < Z.of_nat (List.length col))%Z ->
  exists i g',
    (i < List.length col)%nat /\ nth i col 0%Z = 0%Z /\
    adjust_prevalence_loop (S fuel) t col g =
      adjust_prevalence_loop fuel t (set_at i 1%Z col) g'.
Proof.
  intros fuel t col g Hb Hoff Habove Hs.
  destruct (binary_has_zero Hb Hs) as (j & Hj & Hn).
  assert (Hne : labels_where 0 col <> []).
  { intro E. assert (In j (labels_where 0 col)) by (apply labels_where_In; auto).
    rewrite E in H. contradiction. }
  destruct (sample_1_index_nonempty g Hne) as (i & g' & Hsamp & Hin).
  apply labels_where_In in Hin. destruct Hin as [Hi Hni].
  exists i, g'. repeat split; auto.
  simpl. rewrite Hoff, Habove. unfold bind. rewrite Hsamp. reflexivity.
Qed.

(** Partial correctness: what the loop returns is on target, and the loop
    keeps the length of the column and its values in {0, 1}. *)
Lemma loop_returns_on_target : forall fuel t col g col' g',
  adjust_prevalence_loop fuel t col g = (Return col', g') ->
  off_target (mean col') t = false /\
  List.length col' = List.length col /\
  (binary col -> binary col').
Proof.
  induction fuel as [|fuel IH]; intros t col g col' g' H; simpl in H; [discriminate|].
  destruct (off_target (mean col) t) eqn:Hoff.
  - destruct (above_target (mean col) t).
    + apply bind_Return in H. destruct H as (i & g1 & _ & H).
      apply IH in H. destruct H as (H1 & H2 & H3).
      rewrite set_at_length in H2. repeat split; auto.
      intro Hb. apply H3, set_at_binary; auto.
    + apply bind_Return in H. destruct H as (i & g1 & _ & H).
      apply IH in H. destruct H as (H1 & H2 & H3).
      rewrite set_at_length in H2. repeat split; auto.
      intro Hb. apply H3, set_at_binary; auto.
  - unfold ret in H. inversion H; subst. auto.
Qed.

Lemma loop_fuel_mono : forall fuel t col g col' g',
  adjust_prevalence_loop fuel t col g = (Return col', g') ->
  forall fuel', (fuel <= fuel')%nat ->
  adjust_prevalence_loop fuel' t col g = (Return col', g').
Proof.
  induction fuel as [|fuel IH]; intros t col g col' g' H fuel' Hle; simpl in H; [discriminate|].
  destruct fuel' as [|fuel']; [lia|]. simpl.
  destruct (off_target (mean col) t); [|exact H].
  destruct (above_target (mean col) t).
  - unfold bind in *. destruct (sample_1_index _ g) as [[i | e |] g1]; try discriminate.
    apply IH; [exact H | lia].
  - unfold bind in *. destruct (sample_1_index _ g) as [[i | e |] g1]; try discriminate.
    apply IH; [exact H | lia].
Qed.

End Sampling.

Lemma Qabs_gt_cases : forall x e, e < Qabs x -> x < - e \/ e < x.
Proof.
  intros x e. apply Qabs_case; intros H1 H2; [right | left]; lra.
Qed.

Lemma Qabs_gt_intro : forall x e, x < - e \/ e < x -> e < Qabs x.
Proof.
  intros x e. apply Qabs_case; intros H1 [H2 | H2]; lra.
Qed.

Lemma off_target_true : forall col t,
  col <> [] ->
  (off_target (mean col) t = true <->
   0.01 < Qabs (inject_Z (sum_Z col) / inject_Z (Z.of_nat (List.length col)) - t)).
Proof.
  intros col t H. rewrite (mean_cons H). simpl. apply Qgtb_true.
Qed.

Lemma off_target_false : forall col t,
  col <> [] ->
  (off_target (mean col) t = false <->
   Qabs (inject_Z (sum_Z col) / inject_Z (Z.of_nat (List.length col)) - t) <= 0.01).
Proof.
  intros col t H. rewrite (mean_cons H). simpl. apply Qgtb_false.
Qed.

Lemma above_target_true : forall col t,
  col <> [] ->
  (above_target (mean col) t = true <->
   t < inject_Z (sum_Z col) / inject_Z (Z.of_nat (List.length col))).
Proof.
  intros col t H. rewrite (mean_cons H). simpl. apply Qgtb_true.
Qed.

Lemma above_target_false : forall col t,
  col <> [] ->
  (above_target (mean col) t = false <->
   inject_Z (sum_Z col) / inject_Z (Z.of_nat (List.length col)) <= t).
Proof.
  intros col t H. rewrite (mean_cons H). simpl. apply Qgtb_false.
Qed.

Lemma nonempty_length : forall (A : Type) (col : list A),
  col <> [] <-> (0 < Z.of_nat (List.length col))%Z.
Proof.
  intros A [|x col]; simpl; split; intro H; try congruence; try lia.
Qed.

Lemma set_at_nonempty : forall (A : Type) (col : list A) i v,
  col <> [] -> set_at i v col <> [].
Proof.
  intros A col i v H E. apply (f_equal (@List.length A)) in E.
  rewrite set_at_length in E. destruct col; simpl in E; [congruence | lia].
Qed.

Section Loop.
Context {np : Numpy}.

(** The loop reaches a returning state in as many iterations as the number
    of positives is away from a count that is on target. *)
Lemma loop_terminates_within : forall (d : nat) t col g kstar,
  binary col -> col <> [] ->
  (0 <= kstar <= Z.of_nat (List.length col))%Z ->
  Qabs (inject_Z kstar / inject_Z (Z.of_nat (List.length col)) - t) <= 0.01 ->
  (Z.abs (sum_Z col - kstar) <= Z.of_nat d)%Z ->
  forall fuel, (d < fuel)%nat ->
  exists col' g', adjust_prevalence_loop fuel t col g = (Return col', g').
Proof.
  induction d as [|d IH]; intros t col g kstar Hb Hne Hk Hstar Hd fuel Hf;
    (destruct fuel as [|fuel]; [lia|]);
    (destruct (off_target (mean col) t) eqn:Hoff;
      [| exists col, g; apply loop_on_target; exact Hoff]);
    apply off_target_true in Hoff; auto;
    apply Qabs_gt_cases in Hoff;
    apply Qabs_Qle_condition in Hstar;
    pose proof (proj1 (nonempty_length col) Hne) as HN;
    pose proof (binary_sum_bounds Hb) as Hbd;
    destruct (above_target (mean col) t) eqn:Hab.
  - apply above_target_true in Hab; auto.
    assert (kstar < sum_Z col)%Z.
    { apply Z.lt_nge. intro Hle. pose proof (frac_le HN Hle). lra. }
    lia.
  - apply above_target_false in Hab; auto.
    assert (sum_Z col < kstar)%Z.
    { apply Z.lt_nge. intro Hle. pose proof (frac_le HN Hle). lra. }
    lia.
  - apply above_target_true in Hab as Hab'; auto.
    assert (kstar < sum_Z col)%Z.
    { apply Z.lt_nge. intro Hle. pose proof (frac_le HN Hle). lra. }
    destruct (loop_step_down fuel t g Hb) as (i & g' & Hi & Hn & Heq); auto.
    { apply off_target_true; auto. apply Qabs_gt_intro. exact Hoff. }
    { lia. }
    rewrite Heq. apply IH with (kstar := kstar).
    + apply set_at_binary; auto.
    + apply set_at_nonempty; auto.
    + rewrite set_at_length. exact Hk.
    + rewrite set_at_length. apply Qabs_Qle_condition. exact Hstar.
    + rewrite sum_Z_set_at by exact Hi. lia.
    + lia.
  - apply above_target_false in Hab as Hab'; auto.
    assert (sum_Z col < kstar)%Z.
    { apply Z.lt_nge. intro Hle. pose proof (frac_le HN Hle). lra. }
    destruct (loop_step_up fuel t g Hb) as (i & g' & Hi & Hn & Heq); auto.
    { apply off_target_true; auto. apply Qabs_gt_intro. exact Hoff. }
    { lia. }
    rewrite Heq. apply IH with (kstar := kstar).
    + apply set_at_binary; auto.
    + apply set_at_nonempty; auto.
    + rewrite set_at_length. exact Hk.
    + rewrite set_at_length. apply Qabs_Qle_condition. exact Hstar.
    + rewrite sum_Z_set_at by exact Hi. lia.
    + lia.
Qed.

(** For a target in [0, 1] the loop never raises: there is always a row of
    the class it needs. *)
Lemma loop_never_raises : forall fuel t col g,
  binary col -> 0 <= t <= 1 ->
  (exists col' g', adjust_prevalence_loop fuel t col g = (Return col', g')) \/
  (exists g', adjust_prevalence_loop fuel t col g = (OutOfFuel, g')).
Proof.
  induction fuel as [|fuel IH]; intros t col g Hb Ht.
  - right. exists g. reflexivity.
  - destruct (off_target (mean col) t) eqn:Hoff;
      [| left; exists col, g; apply loop_on_target; exact Hoff].
    assert (Hne : col <> []) by (intro E; subst; discriminate).
    apply off_target_true in Hoff as Hoff'; auto.
    apply Qabs_gt_cases in Hoff'.
    pose proof (proj1 (nonempty_length col) Hne) as HN.
    pose proof (binary_sum_bounds Hb) as Hbd.
    pose proof (frac_unit HN Hbd) as Hm.
    destruct (above_target (mean col) t) eqn:Hab.
    + apply above_target_true in Hab as Hab'; auto.
      assert (0 < sum_Z col)%Z.
      { apply Z.lt_nge. intro Hle. pose proof (@frac_le _ 0 _ HN Hle) as F.
        unfold Qdiv in F at 2. rewrite Qmult_0_l in F. lra. }
      destruct (loop_step_down fuel t g Hb Hoff Hab) as (i & g' & Hi & Hn & Heq); auto.
      rewrite Heq. apply IH; auto. apply set_at_binary; auto.
    + apply above_target_false in Hab as Hab'; auto.
      assert (sum_Z col < Z.of_nat (List.length col))%Z.
      { apply Z.lt_nge. intro Hle.
        assert (E : sum_Z col = Z.of_nat (List.length col)) by lia.
        rewrite E in *.
        assert (inject_Z (Z.of_nat (List.length col)) / inject_Z (Z.of_nat (List.length col)) == 1).
        { field. replace 0 with (inject_Z 0) by reflexivity.
          rewrite inject_Z_injective. lia. }
        lra. }
      destruct (loop_step_up fuel t g Hb Hoff Hab) as (i & g' & Hi & Hn & Heq); auto.
      rewrite Heq. apply IH; auto. apply set_at_binary; auto.
Qed.

(** When no count of positives is on target, the loop is still running
    after any number of iterations. *)
Lemma loop_runs_forever : forall fuel t col g,
  binary col -> col <> [] -> 0 <= t <= 1 ->
  (forall k, (0 <= k <= Z.of_nat (List.length col))%Z ->
             0.01 < Qabs (inject_Z k / inject_Z (Z.of_nat (List.length col)) - t)) ->
  exists g', adjust_prevalence_loop fuel t col g = (OutOfFuel, g').
Proof.
  intros fuel t col g Hb Hne Ht Hun.
  destruct (loop_never_raises fuel g Hb Ht) as [(col' & g' & H) | H]; [| exact H].
  exfalso. apply loop_returns_on_target in H. destruct H as (Hoff & Hlen & Hb').
  assert (Hne' : col' <> []) by (intro E; subst; destruct col; simpl in *; congruence).
  apply off_target_false in Hoff; auto.
  specialize (Hun (sum_Z col')). rewrite Hlen in Hoff.
  pose proof (binary_sum_bounds (Hb' Hb)) as Hbd. rewrite Hlen in Hbd.
  specialize (Hun Hbd). lra.
Qed.

(** A target above 1.01: the loop flips every 0 to 1 and then fails on
    sampling from an empty selection. *)
Lemma loop_raises_high : forall (d : nat) t col g,
  binary col -> col <> [] -> 1.01 < t ->
  (Z.of_nat (List.length col) - sum_Z col <= Z.of_nat d)%Z ->
  forall fuel, (d < fuel)%nat ->
  exists g', adjust_prevalence_loop fuel t col g =
    (Raise (ValueError "a must be greater than 0 unless no samples are taken"), g').
Proof.
  induction d as [|d IH]; intros t col g Hb Hne Ht Hd fuel Hf;
    (destruct fuel as [|fuel]; [lia|]);
    pose proof (proj1 (nonempty_length col) Hne) as HN;
    pose proof (binary_sum_bounds Hb) as Hbd;
    pose proof (frac_unit HN Hbd) as Hm;
    assert (Hoff : off_target (mean col) t = true)
      by (apply off_target_true; auto; apply Qabs_gt_intro; left; lra);
    assert (Hab : above_target (mean col) t = false)
      by (apply above_target_false; auto; lra);
    destruct (Z.eq_dec (sum_Z col) (Z.of_nat (List.length col))) as [E | E].
  - exists g. simpl. rewrite Hoff, Hab.
    assert (Hl : labels_where 0 col = []).
    { destruct (labels_where 0 col) as [|i l] eqn:El; [reflexivity|].
      assert (Hin : In i (labels_where 0 col)) by (rewrite El; left; reflexivity).
      apply labels_where_In in Hin. destruct Hin as [Hi Hn].
      pose proof (binary_zero_below Hb Hi Hn). lia. }
    rewrite Hl. reflexivity.
  - lia.
  - exists g. simpl. rewrite Hoff, Hab.
    assert (Hl : labels_where 0 col = []).
    { destruct (labels_where 0 col) as [|i l] eqn:El; [reflexivity|].
      assert (Hin : In i (labels_where 0 col)) by (rewrite El; left; reflexivity).
      apply labels_where_In in Hin. destruct Hin as [Hi Hn].
      pose proof (binary_zero_below Hb Hi Hn). lia. }
    rewrite Hl. reflexivity.
  - destruct (loop_step_up fuel t g Hb Hoff Hab) as (i & g' & Hi & Hn & Heq); [lia|].
    rewrite Heq. apply IH.
    + apply set_at_binary; auto.
    + apply set_at_nonempty; auto.
    + exact Ht.
    + rewrite set_at_length, sum_Z_set_at by exact Hi. lia.
    + lia.
Qed.

End Loop.

(** ** The steps of [create_dummy_data] *)

Ltac inv_bind H :=
  let a := fresh "a" in
  let s := fresh "s" in
  let E := fresh "E" in
  apply bind_Return in H; destruct H as (a & s & E & H).

Ltac inv_binds H := repeat inv_bind H.

Lemma ret_Return : forall (S A : Type) (a b : A) (s s' : S),
  ret a s = (Return b, s') -> a = b /\ s = s'.
Proof. intros S A a b s s' H. unfold ret in H. inversion H. auto. Qed.

Section Steps.
Context {np : Numpy}.

Lemma mapM_length : forall (A B : Type) (f : A -> M B) l g bs g',
  mapM f l g = (Return bs, g') -> List.length bs = List.length l.
Proof.
  induction l as [|a l IH]; intros g bs g' H; simpl in H.
  - apply ret_Return in H. destruct H; subst. reflexivity.
  - inv_binds H. apply ret_Return in H. destruct H; subst.
    simpl. f_equal. eapply IH; eauto.
Qed.

Lemma mapM_Forall : forall (A B : Type) (P : B -> Prop) (f : A -> M B),
  (forall a g b g', f a g = (Return b, g') -> P b) ->
  forall l g bs g', mapM f l g = (Return bs, g') -> Forall P bs.
Proof.
  intros A B P f Hf. induction l as [|a l IH]; intros g bs g' H; simpl in H.
  - apply ret_Return in H. destruct H; subst. constructor.
  - inv_binds H. apply ret_Return in H. destruct H; subst.
    constructor; eauto.
Qed.

Lemma sized_Return : forall (A : Type) (d : M A) size g l g',
  sized d size g = (Return l, g') ->
  (0 <= size)%Z /\ List.length l = Z.to_nat size.
Proof.
  intros A d size g l g' H. unfold sized in H.
  destruct (size <? 0)%Z eqn:E; [discriminate|].
  apply Z.ltb_ge in E. split; [exact E|].
  apply mapM_length in H. rewrite repeat_length in H. exact H.
Qed.

Lemma sized_negative : forall (A : Type) (d : M A) size g,
  (size < 0)%Z ->
  sized d size g = (Raise (ValueError "negative dimensions are not allowed"), g).
Proof.
  intros A d size g H. unfold sized. apply Z.ltb_lt in H. rewrite H. reflexivity.
Qed.

Lemma draw_binomial1_binary : forall p g b g',
  draw (random_binomial1 p) g = (Return b, g') -> b = 0%Z \/ b = 1%Z.
Proof.
  intros p g b g' H. unfold draw in H.
  pose proof (random_binomial1_range p g) as R.
  destruct (random_binomial1 p g) as [x g1]. inversion H; subst. exact R.
Qed.

Lemma arange_length : forall start stop,
  List.length (arange start stop) = Z.to_nat (stop - start).
Proof. intros. unfold arange. rewrite length_map, length_seq. reflexivity. Qed.

(** The frame that steps 1 to 7 return has [n_samples] rows, and its
    labels are 0 or 1. *)
Lemma generate_population_labels : forall n_samples g data g',
  generate_population n_samples g = (Return data, g') ->
  (0 <= n_samples)%Z /\
  Frame.len data = Z.to_nat n_samples /\
  List.length (Frame.label_hypertension data) = Z.to_nat n_samples /\
  binary (Frame.label_hypertension data).
Proof.
  intros n_samples g data g' H. unfold generate_population in H.
  inv_binds H. apply ret_Return in H. destruct H as [H _]. subst data.
  unfold Frame.len. simpl.
  match goal with
  | E : sized _ n_samples _ = _ |- _ => apply sized_Return in E; destruct E as [Hn _]
  end.
  rewrite arange_length.
  replace (n_samples + 1 - 1)%Z with n_samples by lia.
  repeat split; auto.
  - match goal with
    | E : mapM (fun p => draw (random_binomial1 p)) _ _ = _ |- _ =>
        apply mapM_length in E; rewrite E
    end.
    rewrite length_map.
    match goal with
    | E : mapM calculate_risk _ _ = _ |- _ => apply mapM_length in E; rewrite E
    end.
    rewrite length_map, length_seq, arange_length. f_equal. lia.
  - match goal with
    | E : mapM (fun p => draw (random_binomial1 p)) _ _ = _ |- _ =>
        eapply mapM_Forall in E; [exact E |]
    end.
    intros p0 st b0 st' Hd. eapply draw_binomial1_binary; eauto.
Qed.

Lemma generate_population_negative : forall n_samples g,
  (n_samples < 0)%Z ->
  generate_population n_samples g =
    (Raise (ValueError "negative dimensions are not allowed"), g).
Proof.
  intros n_samples g H. unfold generate_population, bind.
  rewrite sized_negative; [reflexivity|].
  apply Z.div_lt_upper_bound; lia.
Qed.

Lemma add_outliers_frame : forall n_samples data g data' g',
  add_outliers n_samples data g = (Return data', g') ->
  Frame.label_hypertension data' = Frame.label_hypertension data /\
  Frame.id data' = Frame.id data.
Proof.
  intros n_samples data g data' g' H. unfold add_outliers in H.
  inv_binds H. apply ret_Return in H. destruct H as [H _]. subst data'.
  split; reflexivity.
Qed.

Lemma add_timestamps_frame : forall n_samples data g data' g',
  add_timestamps n_samples data g = (Return data', g') ->
  Frame.label_hypertension data' = Frame.label_hypertension data /\
  Frame.id data' = Frame.id data.
Proof.
  intros n_samples data g data' g' H. unfold add_timestamps in H.
  inv_binds H. apply ret_Return in H. destruct H as [H _]. subst data'.
  split; reflexivity.
Qed.

Lemma add_missing_values_frame : forall data g data' g',
  add_missing_values data g = (Return data', g') ->
  Frame.label_hypertension data' = Frame.label_hypertension data /\
  Frame.id data' = Frame.id data.
Proof.
  intros data g data' g' H. unfold add_missing_values in H.
  inv_binds H. apply ret_Return in H. destruct H as [H _]. subst data'.
  split; reflexivity.
Qed.

Lemma create_dummy_data_split : forall fuel n_samples t g,
  create_dummy_data fuel n_samples t g =
    bind (before_adjustment n_samples) (adjust_prevalence fuel t) g.
Proof.
  intros fuel n_samples t g.
  unfold create_dummy_data, before_adjustment, bind, np_random_seed.
  destruct (generate_population n_samples (random_seed 42)) as [[d1 | e |] g1]; try reflexivity.
  destruct (add_outliers n_samples d1 g1) as [[d2 | e |] g2]; try reflexivity.
  destruct (add_timestamps n_samples d2 g2) as [[d3 | e |] g3]; reflexivity.
Qed.

(** The seed is set inside: the state of the generator before the call
    does not matter. *)
Lemma before_adjustment_reseeds : forall n_samples g1 g2,
  before_adjustment n_samples g1 = before_adjustment n_samples g2.
Proof. reflexivity. Qed.

Lemma before_adjustment_labels : forall n_samples g data g',
  before_adjustment n_samples g = (Return data, g') ->
  (0 <= n_samples)%Z /\
  List.length (Frame.label_hypertension data) = Z.to_nat n_samples /\
  binary (Frame.label_hypertension data).
Proof.
  intros n_samples g data g' H. unfold before_adjustment in H.
  inv_bind H. inv_bind H. inv_bind H. inv_bind H.
  match goal with E : generate_population _ _ = _ |- _ =>
    apply generate_population_labels in E; destruct E as (Hn & _ & Hl & Hb) end.
  match goal with E : add_outliers _ _ _ = _ |- _ =>
    apply add_outliers_frame in E; destruct E as [E1 _] end.
  match goal with E : add_timestamps _ _ _ = _ |- _ =>
    apply add_timestamps_frame in E; destruct E as [E2 _] end.
  apply add_missing_values_frame in H. destruct H as [E3 _].
  rewrite E3, E2, E1. auto.
Qed.

Lemma adjust_prevalence_Return : forall fuel t data g data' g',
  adjust_prevalence fuel t data g = (Return data', g') ->
  exists label,
    adjust_prevalence_loop fuel t (Frame.label_hypertension data) g = (Return label, g') /\
    data' = Frame.set_label_hypertension data label.
Proof.
  intros fuel t data g data' g' H. unfold adjust_prevalence in H.
  inv_bind H. apply ret_Return in H. destruct H; subst.
  eexists. split; [eassumption | reflexivity].
Qed.

End Steps.

Lemma binary_one_above : forall col i,
  binary col -> (i < List.length col)%nat -> nth i col 0%Z = 1%Z ->
  (0 < sum_Z col)%Z.
Proof.
  unfold binary. induction col as [|x col IH]; intros [|i] Hc Hi Hn; simpl in *; try lia;
    inversion Hc as [|? ? Hx Hc']; subst.
  - pose proof (binary_sum_bounds Hc'). lia.
  - specialize (IH i Hc' ltac:(lia) Hn). destruct Hx; subst; lia.
Qed.

(** ** C1 and C5: the prevalence loop *)

Section LoopLow.
Context {np : Numpy}.

(** A target below -0.01: the loop flips every 1 to 0 and then fails on
    sampling from an empty selection. *)
Lemma loop_raises_low : forall (d : nat) t col g,
  binary col -> col <> [] -> t < - 0.01 ->
  (sum_Z col <= Z.of_nat d)%Z ->
  forall fuel, (d < fuel)%nat ->
  exists g', adjust_prevalence_loop fuel t col g =
    (Raise (ValueError "a must be greater than 0 unless no samples are taken"), g').
Proof.
  induction d as [|d IH]; intros t col g Hb Hne Ht Hd fuel Hf;
    (destruct fuel as [|fuel]; [lia|]);
    pose proof (proj1 (nonempty_length col) Hne) as HN;
    pose proof (binary_sum_bounds Hb) as Hbd;
    pose proof (frac_unit HN Hbd) as Hm;
    assert (Hoff : off_target (mean col) t = true)
      by (apply off_target_true; auto; apply Qabs_gt_intro; right; lra);
    assert (Hab : above_target (mean col) t = true)
      by (apply above_target_true; auto; lra);
    destruct (Z.eq_dec (sum_Z col) 0) as [E | E].
  - exists g. simpl. rewrite Hoff, Hab.
    assert (Hl : labels_where 1 col = []).
    { destruct (labels_where 1 col) as [|i l] eqn:El; [reflexivity|].
      assert (Hin : In i (labels_where 1 col)) by (rewrite El; left; reflexivity).
      apply labels_where_In in Hin. destruct Hin as [Hi Hn].
      pose proof (binary_one_above Hb Hi Hn). lia. }
    rewrite Hl. reflexivity.
  - lia.
  - exists g. simpl. rewrite Hoff, Hab.
    assert (Hl : labels_where 1 col = []).
    { destruct (labels_where 1 col) as [|i l] eqn:El; [reflexivity|].
      assert (Hin : In i (labels_where 1 col)) by (rewrite El; left; reflexivity).
      apply labels_where_In in Hin. destruct Hin as [Hi Hn].
      pose proof (binary_one_above Hb Hi Hn). lia. }
    rewrite Hl. reflexivity.
  - destruct (loop_step_down fuel t g Hb Hoff Hab) as (i & g' & Hi & Hn & Heq); [lia|].
    rewrite Heq. apply IH.
    + apply set_at_binary; auto.
    + apply set_at_nonempty; auto.
    + exact Ht.
    + rewrite sum_Z_set_at by exact Hi. lia.
    + lia.
Qed.

End LoopLow.

Ltac solve_binary :=
  unfold binary;
  repeat (apply Forall_cons; [first [left; reflexivity | right; reflexivity] |]);
  apply Forall_nil.

Lemma no_count_on_target_4 : forall k,
  (0 <= k <= Z.of_nat 4)%Z -> 0.01 < Qabs (inject_Z k / inject_Z (Z.of_nat 4) - 0.29).
Proof.
  intros k Hk.
  assert (C : (k = 0 \/ k = 1 \/ k = 2 \/ k = 3 \/ k = 4)%Z) by (simpl in Hk; lia).
  destruct C as [C | [C | [C | [C | C]]]]; subst k; vm_compute; reflexivity.
Qed.

(** The frame that reaches step 11 for [n_samples = 4] under the
    concrete generator. *)
Lemma before_adjustment_4 :
  exists data g,
    before_adjustment (np := Lcg.numpy) 4 0%Z = (Return data, g) /\
    Frame.label_hypertension data = [1; 1; 1; 1]%Z.
Proof. eexists. eexists. split; vm_compute; reflexivity. Qed.

(** C1, as stated, fails. With four rows and a target of 0.29 no count of
    positives is within 0.01 of the target: whatever the generator and the
    labels, the loop is still running after any number of iterations and
    raises nothing; [create_dummy_data(4, 0.29)] runs into it. *)
Lemma calibration_loops_without_bound :
  (~ exists (np : Numpy) (fuel : nat) (col : list Z) (g : RandomState),
       List.length col = 4%nat /\ binary col /\
       fst (adjust_prevalence_loop fuel 0.29 col g) <> OutOfFuel) /\
  (~ exists fuel : nat,
       fst (create_dummy_data (np := Lcg.numpy) fuel 4 0.29 0%Z) <> OutOfFuel).
Proof.
  assert (L : forall (np : Numpy) fuel col g,
             List.length col = 4%nat -> binary col ->
             fst (adjust_prevalence_loop fuel 0.29 col g) = OutOfFuel).
  { intros np fuel col g Hlen Hb.
    destruct (@loop_runs_forever np fuel 0.29 col g Hb) as [g' H].
    - intro E. subst. discriminate.
    - lra.
    - rewrite Hlen. exact no_count_on_target_4.
    - rewrite H. reflexivity. }
  split.
  - intros (np & fuel & col & g & Hlen & Hb & H). apply H. apply L; assumption.
  - intros (fuel & H). apply H.
    rewrite create_dummy_data_split.
    destruct before_adjustment_4 as (data & g & Hd & Hl).
    unfold bind. rewrite Hd. unfold adjust_prevalence, bind.
    specialize (L Lcg.numpy fuel (Frame.label_hypertension data) g).
    destruct (adjust_prevalence_loop fuel 0.29 (Frame.label_hypertension data) g)
      as [[l | e |] g1]; simpl in L.
    + rewrite Hl in L. specialize (L eq_refl ltac:(solve_binary)). discriminate L.
    + rewrite Hl in L. specialize (L eq_refl ltac:(solve_binary)). discriminate L.
    + reflexivity.
Qed.

Section LoopClaims.
Context {np : Numpy}.

(** C1, amended. The loop has no iteration bound and no failure of its
    own.  It terminates when a count of positives within 0.01 of the target
    exists, clear of the rounding of the double comparison: for labels in
    {0, 1} on N > 0 rows and such a count, the loop returns after at most N
    iterations, with labels whose mean is within 0.01 of the target. *)
Theorem calibration_terminates_when_reachable : forall t col g kstar,
  binary col -> col <> [] ->
  (0 <= kstar <= Z.of_nat (List.length col))%Z ->
  well_on_target kstar (Z.of_nat (List.length col)) t ->
  exists col' g' m,
    adjust_prevalence_loop (S (List.length col)) t col g = (Return col', g') /\
    mean col' = Some m /\ Qabs (m - t) <= 0.01.
Proof.
  intros t col g kstar Hb Hne Hk Hwell.
  assert (Hstar : Qabs (inject_Z kstar / inject_Z (Z.of_nat (List.length col)) - t)
                  <= 0.01).
  { unfold well_on_target, rounding_margin in Hwell. lra. }
  pose proof (binary_sum_bounds Hb) as Hbd.
  destruct (@loop_terminates_within np (List.length col) t col g kstar)
    with (fuel := S (List.length col)) as (col' & g' & H); auto; try lia.
  exists col', g'.
  apply loop_returns_on_target in H as H'. destruct H' as (Hoff & Hlen & _).
  assert (Hne' : col' <> []) by (intro E; subst; destruct col; simpl in *; congruence).
  exists (inject_Z (sum_Z col') / inject_Z (Z.of_nat (List.length col'))).
  split; [exact H | split].
  - apply mean_cons, Hne'.
  - apply off_target_false in Hoff; auto.
Qed.

(** C5. When [create_dummy_data] returns a dataset for a positive sample
    count, the mean of [label_hypertension] is within 0.01 of the target
    prevalence. *)
Theorem returned_prevalence_on_target : forall fuel n_samples t g data g',
  (0 < n_samples)%Z ->
  create_dummy_data fuel n_samples t g = (Return data, g') ->
  exists m, mean (Frame.label_hypertension data) = Some m /\ Qabs (m - t) <= 0.01.
Proof.
  intros fuel n_samples t g data g' Hn H.
  rewrite create_dummy_data_split in H. inv_bind H.
  match goal with E : before_adjustment _ _ = _ |- _ =>
    apply before_adjustment_labels in E; destruct E as (_ & Hlen & Hb) end.
  apply adjust_prevalence_Return in H. destruct H as (label & Hloop & Hd). subst data.
  simpl.
  apply loop_returns_on_target in Hloop. destruct Hloop as (Hoff & Hl & _).
  assert (Hne : label <> []).
  { intro E. subst. simpl in Hl. rewrite Hlen in Hl. lia. }
  exists (inject_Z (sum_Z label) / inject_Z (Z.of_nat (List.length label))).
  split.
  - apply mean_cons, Hne.
  - apply off_target_false in Hoff; auto.
Qed.

End LoopClaims.

Lemma calibration_terminates_when_reachable_witness :
  binary [1; 1; 1; 0]%Z /\ [1; 1; 1; 0]%Z <> [] /\
  (0 <= 1 <= Z.of_nat (List.length [1; 1; 1; 0]%Z))%Z /\
  well_on_target 1 (Z.of_nat (List.length [1; 1; 1; 0]%Z)) 0.25 /\
  exists col' g' m,
    adjust_prevalence_loop (np := Lcg.numpy) 5 0.25 [1; 1; 1; 0]%Z 0%Z = (Return col', g') /\
    mean col' = Some m /\ Qabs (m - 0.25) <= 0.01.
Proof.
  assert (H1 : binary [1; 1; 1; 0]%Z) by solve_binary.
  assert (H2 : [1; 1; 1; 0]%Z <> []) by discriminate.
  assert (H3 : (0 <= 1 <= Z.of_nat (List.length [1; 1; 1; 0]%Z))%Z) by (simpl; lia).
  assert (H4 : well_on_target 1 (Z.of_nat (List.length [1; 1; 1; 0]%Z)) 0.25)
    by (apply Qle_bool_imp_le; vm_compute; reflexivity).
  repeat (split; [assumption |]).
  exact (calibration_terminates_when_reachable (np := Lcg.numpy) 0%Z H1 H2 H3 H4).
Defined.

Lemma returned_prevalence_on_target_witness :
  (0 < 4)%Z /\
  exists data g',
    create_dummy_data (np := Lcg.numpy) 10 4 0.5 0%Z = (Return data, g') /\
    exists m, mean (Frame.label_hypertension data) = Some m /\ Qabs (m - 0.5) <= 0.01.
Proof.
  split; [lia |].
  eexists. eexists. split.
  - vm_compute. reflexivity.
  - eapply (@returned_prevalence_on_target Lcg.numpy 10 4 0.5 0%Z); [lia |].
    vm_compute. reflexivity.
Defined.

(** ** C2 and C4: the order of the steps, and the seed *)

Section RunClaims.
Context {np : Numpy}.

(** What a returning run of [create_dummy_data] went through. *)
Lemma create_dummy_data_Return : forall fuel n_samples t g data g',
  create_dummy_data fuel n_samples t g = (Return data, g') ->
  exists d0 s0 label,
    before_adjustment n_samples g = (Return d0, s0) /\
    adjust_prevalence_loop fuel t (Frame.label_hypertension d0) s0 = (Return label, g') /\
    data = Frame.set_label_hypertension d0 label /\
    (0 <= n_samples)%Z /\
    List.length label = Z.to_nat n_samples /\
    binary label /\
    off_target (mean label) t = false.
Proof.
  intros fuel n_samples t g data g' H.
  rewrite create_dummy_data_split in H. inv_bind H.
  match goal with E : before_adjustment _ _ = _ |- _ =>
    pose proof (before_adjustment_labels _ _ E) as (Hn & Hlen & Hb) end.
  apply adjust_prevalence_Return in H. destruct H as (label & Hloop & Hd).
  pose proof (loop_returns_on_target _ _ _ _ Hloop) as (Hoff & Hl & Hb').
  eexists. eexists. exists label. repeat split; eauto. congruence.
Qed.

(** C2, amended. The steps run in the order: population (features,
    lifestyle, risk, labels), outlier injection, timestamps, missing-value
    injection, prevalence calibration.  Calibration comes last: a run that
    returns a dataset has calibrated the labels of the frame that outlier
    and missing-value injection had already produced, from the generator
    state they left, and has changed no other column of it. *)
Theorem calibration_runs_last : forall fuel n_samples t g data g',
  create_dummy_data fuel n_samples t g = (Return data, g') ->
  exists d0 s0 label,
    (np_random_seed 42 ;;
     data <- generate_population n_samples ;;
     data <- add_outliers n_samples data ;;
     data <- add_timestamps n_samples data ;;
     add_missing_values data) g = (Return d0, s0) /\
    adjust_prevalence_loop fuel t (Frame.label_hypertension d0) s0 = (Return label, g') /\
    data = Frame.set_label_hypertension d0 label /\
    Frame.features data = Frame.features d0.
Proof.
  intros fuel n_samples t g data g' H.
  apply create_dummy_data_Return in H.
  destruct H as (d0 & s0 & label & H0 & Hloop & Hd & _).
  exists d0, s0, label. repeat split; auto.
  subst data. reflexivity.
Qed.

(** The columns other than the label do not depend on the target. *)
Lemma features_independent_of_target :
  forall fuel1 fuel2 n_samples t1 t2 g1 g2 d1 d2 s1 s2,
  create_dummy_data fuel1 n_samples t1 g1 = (Return d1, s1) ->
  create_dummy_data fuel2 n_samples t2 g2 = (Return d2, s2) ->
  Frame.features d1 = Frame.features d2.
Proof.
  intros fuel1 fuel2 n_samples t1 t2 g1 g2 d1 d2 s1 s2 H1 H2.
  apply create_dummy_data_Return in H1, H2.
  destruct H1 as (a0 & sa & la & Ha & _ & Hda & _).
  destruct H2 as (b0 & sb & lb & Hb & _ & Hdb & _).
  rewrite (before_adjustment_reseeds n_samples g2 g1) in Hb.
  rewrite Ha in Hb. inversion Hb; subst. reflexivity.
Qed.

(** C4, amended. The dataset is a function of the sample count and the
    target prevalence alone: the generator is seeded with the constant 42
    inside [create_dummy_data], so two runs on the same sample count and
    target return the same dataset, whatever the state of the generator
    before each call and however long each loop was allowed to run. *)
Theorem same_inputs_same_dataset :
  forall fuel1 fuel2 n_samples t g1 g2 d1 d2 s1 s2,
  create_dummy_data fuel1 n_samples t g1 = (Return d1, s1) ->
  create_dummy_data fuel2 n_samples t g2 = (Return d2, s2) ->
  d1 = d2 /\ s1 = s2.
Proof.
  intros fuel1 fuel2 n_samples t g1 g2 d1 d2 s1 s2 H1 H2.
  apply create_dummy_data_Return in H1, H2.
  destruct H1 as (a0 & sa & la & Ha & Hla & Hda & _).
  destruct H2 as (b0 & sb & lb & Hb & Hlb & Hdb & _).
  rewrite (before_adjustment_reseeds n_samples g2 g1) in Hb.
  rewrite Ha in Hb. inversion Hb; subst b0 sb.
  apply loop_fuel_mono with (fuel' := Nat.max fuel1 fuel2) in Hla; [| lia].
  apply loop_fuel_mono with (fuel' := Nat.max fuel1 fuel2) in Hlb; [| lia].
  rewrite Hla in Hlb. inversion Hlb; subst. auto.
Qed.

End RunClaims.

(** C2, as stated, fails: on four rows and a target of 0.5 the dataset of
    [create_dummy_data] is not the dataset of the specified order. *)
Lemma calibration_is_not_before_injection :
  exists d1 d2,
    fst (create_dummy_data (np := Lcg.numpy) 10 4 0.5 0%Z) = Return d1 /\
    fst (spec_order_pipeline (np := Lcg.numpy) 10 4 0.5 0%Z) = Return d2 /\
    d1 <> d2.
Proof.
  eexists. eexists. split; [vm_compute; reflexivity |].
  split; [vm_compute; reflexivity |].
  intro H. apply (f_equal Frame.input_time) in H. vm_compute in H. discriminate H.
Qed.

Lemma calibration_runs_last_witness :
  exists data g',
    create_dummy_data (np := Lcg.numpy) 10 4 0.5 0%Z = (Return data, g') /\
    exists d0 s0 label,
      (np_random_seed (np := Lcg.numpy) 42 ;;
       data <- generate_population 4 ;;
       data <- add_outliers 4 data ;;
       data <- add_timestamps 4 data ;;
       add_missing_values data) 0%Z = (Return d0, s0) /\
      adjust_prevalence_loop 10 0.5 (Frame.label_hypertension d0) s0 = (Return label, g') /\
      data = Frame.set_label_hypertension d0 label /\
      Frame.features data = Frame.features d0.
Proof.
  eexists. eexists. split.
  - vm_compute. reflexivity.
  - eapply (@calibration_runs_last Lcg.numpy 10 4 0.5 0%Z).
    vm_compute. reflexivity.
Defined.

(** C4, as stated, fails: the seed is no input.  A run configured with
    seed 7 does not return the dataset that a generator seeded with 7
    gives. *)
Lemma configured_seed_is_ignored :
  exists c d1 d2,
    config_seed c = 7%Z /\
    fst (run (np := Lcg.numpy) 10 c 0%Z) = Return d1 /\
    fst (run_on_configured_seed (np := Lcg.numpy) 10 c 0%Z) = Return d2 /\
    d1 <> d2.
Proof.
  exists {| config_n_samples := 4; config_target_prevalence := 0.5; config_seed := 7 |}.
  eexists. eexists. split; [reflexivity |].
  split; [vm_compute; reflexivity |].
  split; [vm_compute; reflexivity |].
  intro H. apply (f_equal Frame.input_time) in H. vm_compute in H. discriminate H.
Qed.

Lemma same_inputs_same_dataset_witness :
  exists d1 d2 s1 s2,
    create_dummy_data (np := Lcg.numpy) 10 4 0.5 0%Z = (Return d1, s1) /\
    create_dummy_data (np := Lcg.numpy) 12 4 0.5 5%Z = (Return d2, s2) /\
    d1 = d2 /\ s1 = s2.
Proof.
  eexists. eexists. eexists. eexists.
  split; [vm_compute; reflexivity |].
  split; [vm_compute; reflexivity |].
  eapply (@same_inputs_same_dataset Lcg.numpy 10 12 4 0.5 0%Z 5%Z);
    vm_compute; reflexivity.
Defined.

(** ** C7: what an invalid configuration runs into *)

Lemma fuel_free_ret : forall (S A : Type) (a : A), fuel_free (@ret S A a).
Proof. intros S A a s. discriminate. Qed.

Lemma fuel_free_raise : forall (S A : Type) (e : exn), fuel_free (@raise S A e).
Proof. intros S A e s. discriminate. Qed.

Lemma fuel_free_bind : forall (S A B : Type) (m : ST S A) (k : A -> ST S B),
  fuel_free m -> (forall a, fuel_free (k a)) -> fuel_free (bind m k).
Proof.
  intros S A B m k Hm Hk s. unfold bind.
  specialize (Hm s). destruct (m s) as [[a | e |] s1]; simpl in *.
  - apply Hk.
  - discriminate.
  - congruence.
Qed.

Section FuelFree.
Context {np : Numpy}.

Lemma fuel_free_draw : forall (A : Type) (f : RandomState -> A * RandomState),
  fuel_free (draw f).
Proof. intros A f s. unfold draw. destruct (f s). discriminate. Qed.

Lemma fuel_free_seed : forall s, fuel_free (np_random_seed s).
Proof. intros s g. discriminate. Qed.

Lemma fuel_free_mapM : forall (A B : Type) (f : A -> M B) l,
  (forall a, fuel_free (f a)) -> fuel_free (mapM f l).
Proof.
  intros A B f l Hf. induction l as [|a l IH]; simpl.
  - apply fuel_free_ret.
  - apply fuel_free_bind; [apply Hf | intro b].
    apply fuel_free_bind; [exact IH | intro bs]. apply fuel_free_ret.
Qed.

Lemma fuel_free_sized : forall (A : Type) (d : M A) size,
  fuel_free d -> fuel_free (sized d size).
Proof.
  intros A d size Hd. unfold sized. destruct (size <? 0)%Z.
  - apply fuel_free_raise.
  - apply fuel_free_mapM. intros _. exact Hd.
Qed.

Ltac fuel_free_step :=
  first
    [ apply fuel_free_ret
    | apply fuel_free_raise
    | apply fuel_free_draw
    | apply fuel_free_seed
    | apply fuel_free_sized
    | apply fuel_free_mapM; intro
    | apply fuel_free_bind; [| intro]
    | match goal with
      | |- fuel_free (if ?b then _ else _) => destruct b
      | |- fuel_free (match ?b with _ => _ end) => destruct b
      end ].

Ltac fuel_free_solve := cbv zeta; repeat fuel_free_step.

Lemma fuel_free_generate_population : forall n_samples,
  fuel_free (generate_population n_samples).
Proof.
  intro n_samples.
  unfold generate_population, np_random_choice, np_random_choice_p, pd_DataFrame,
    generate_weight, calculate_risk.
  fuel_free_solve.
Qed.

Lemma fuel_free_add_outliers : forall n_samples data,
  fuel_free (add_outliers n_samples data).
Proof.
  intros n_samples data.
  unfold add_outliers, np_random_choice_no_replace, np_random_choice, loc_set.
  fuel_free_solve.
Qed.

Lemma fuel_free_add_timestamps : forall n_samples data,
  fuel_free (add_timestamps n_samples data).
Proof.
  intros n_samples data. unfold add_timestamps. fuel_free_solve.
Qed.

Lemma fuel_free_add_missing_values : forall data,
  fuel_free (add_missing_values data).
Proof.
  intro data. unfold add_missing_values, missing_mask. fuel_free_solve.
Qed.

Lemma fuel_free_before_adjustment : forall n_samples,
  fuel_free (before_adjustment n_samples).
Proof.
  intro n_samples. unfold before_adjustment.
  apply fuel_free_bind; [apply fuel_free_seed | intros _].
  apply fuel_free_bind; [apply fuel_free_generate_population | intro d1].
  apply fuel_free_bind; [apply fuel_free_add_outliers | intro d2].
  apply fuel_free_bind; [apply fuel_free_add_timestamps | intro d3].
  apply fuel_free_add_missing_values.
Qed.

Lemma before_adjustment_negative : forall n_samples g,
  (n_samples < 0)%Z ->
  before_adjustment n_samples g =
    (Raise (ValueError "negative dimensions are not allowed"), random_seed 42).
Proof.
  intros n_samples g H. unfold before_adjustment, bind, np_random_seed.
  rewrite generate_population_negative by exact H. reflexivity.
Qed.

(** C7, amended. Nothing is validated before sampling and there is no
    configuration error.  A negative sample count fails with numpy's
    ValueError at the first draw, right after seeding.  A target outside
    (0, 1) is accepted.  If it is farther than 0.01 from [0, 1] and the
    sample count is positive, no dataset is returned, and once the loop is
    allowed more iterations than there are rows the run ends in an exception
    raised inside the steps: when the frame reaches step 11, the loop flips
    labels until no row of the class it needs is left, and pandas' sampling
    raises ValueError on the empty selection. *)
Theorem unvalidated_configuration : forall fuel n_samples t g,
  ((n_samples < 0)%Z ->
   create_dummy_data fuel n_samples t g =
     (Raise (ValueError "negative dimensions are not allowed"), random_seed 42)) /\
  ((0 < n_samples)%Z -> t < - 0.01 \/ 1.01 < t ->
   (forall data g', create_dummy_data fuel n_samples t g <> (Return data, g')) /\
   ((Z.to_nat n_samples < fuel)%nat ->
    exists e g', create_dummy_data fuel n_samples t g = (Raise e, g')) /\
   (forall d0 s0,
      before_adjustment n_samples g = (Return d0, s0) ->
      (Z.to_nat n_samples < fuel)%nat ->
      exists g',
        create_dummy_data fuel n_samples t g =
          (Raise (ValueError "a must be greater than 0 unless no samples are taken"), g'))).
Proof.
  intros fuel n_samples t g. split.
  - intro Hn. rewrite create_dummy_data_split. unfold bind.
    rewrite before_adjustment_negative by exact Hn. reflexivity.
  - intros Hn Ht.
    assert (Hraise : forall d0 s0,
      before_adjustment n_samples g = (Return d0, s0) ->
      (Z.to_nat n_samples < fuel)%nat ->
      exists g',
        create_dummy_data fuel n_samples t g =
          (Raise (ValueError "a must be greater than 0 unless no samples are taken"), g')).
    { intros d0 s0 H0 Hf.
      pose proof (before_adjustment_labels _ _ H0) as (_ & Hlen & Hb).
      assert (Hne : Frame.label_hypertension d0 <> []).
      { intro E. rewrite E in Hlen. simpl in Hlen. lia. }
      pose proof (binary_sum_bounds Hb) as Hbd.
      rewrite create_dummy_data_split. unfold bind. rewrite H0.
      unfold adjust_prevalence, bind.
      destruct Ht as [Ht | Ht].
      - destruct (@loop_raises_low np (Z.to_nat n_samples) t
                    (Frame.label_hypertension d0) s0 Hb Hne Ht) with (fuel := fuel)
          as [g' Hl]; [lia | lia |].
        exists g'. rewrite Hl. reflexivity.
      - destruct (@loop_raises_high np (Z.to_nat n_samples) t
                    (Frame.label_hypertension d0) s0 Hb Hne Ht) with (fuel := fuel)
          as [g' Hl]; [lia | lia |].
        exists g'. rewrite Hl. reflexivity. }
    split; [| split].
    + intros data g' H.
      apply create_dummy_data_Return in H.
      destruct H as (d0 & s0 & label & _ & _ & _ & _ & Hlen & Hb & Hoff).
      assert (Hne : label <> []).
      { intro E. subst. simpl in Hlen. lia. }
      apply off_target_false in Hoff; auto.
      apply Qabs_Qle_condition in Hoff.
      pose proof (frac_unit (proj1 (nonempty_length label) Hne) (binary_sum_bounds Hb)).
      lra.
    + intro Hf.
      pose proof (fuel_free_before_adjustment n_samples g) as Hff.
      destruct (before_adjustment n_samples g) as [[d0 | e |] s0] eqn:H0.
      * destruct (Hraise d0 s0 eq_refl Hf) as [g' Hr]. eexists. exists g'. exact Hr.
      * exists e, s0. rewrite create_dummy_data_split. unfold bind. rewrite H0. reflexivity.
      * simpl in Hff. congruence.
    + exact Hraise.
Qed.

End FuelFree.

(** The three outcomes under the concrete generator: a negative sample
    count, an odd one, and a target of 1.5. *)
Lemma invalid_configuration_runs :
  create_dummy_data (np := Lcg.numpy) 10 (-2) 0.29 0%Z =
    (Raise (ValueError "negative dimensions are not allowed"), 42%Z) /\
  fst (create_dummy_data (np := Lcg.numpy) 10 3 0.29 0%Z) =
    Raise (ValueError "All arrays must be of the same length") /\
  fst (create_dummy_data (np := Lcg.numpy) 10 4 1.5 0%Z) =
    Raise (ValueError "a must be greater than 0 unless no samples are taken").
Proof. repeat split; vm_compute; reflexivity. Qed.

(** C7, as stated, fails: a target of 1 is outside (0, 1), and the run
    returns a dataset. *)
Lemma invalid_target_returns_dataset :
  ~ valid_configuration 4 1 /\
  exists data g', create_dummy_data (np := Lcg.numpy) 10 4 1 0%Z = (Return data, g').
Proof.
  split.
  - unfold valid_configuration. intros (_ & _ & H). revert H. vm_compute. congruence.
  - eexists. eexists. vm_compute. reflexivity.
Qed.

(** ** C3: outlier injection *)

Section Outliers.
Context {np : Numpy}.

Lemma permutation_length : forall n g,
  List.length (fst (random_permutation n g)) = n.
Proof.
  intros n g. rewrite (Permutation_length (random_permutation_perm n g)).
  apply length_seq.
Qed.

Lemma np_random_choice_no_replace_Return : forall a size g,
  (0 < a)%Z -> (0 <= size <= a)%Z ->
  np_random_choice_no_replace a size g =
    (Return (firstn (Z.to_nat size) (fst (random_permutation (Z.to_nat a) g))),
     snd (random_permutation (Z.to_nat a) g)).
Proof.
  intros a size g Ha Hs. unfold np_random_choice_no_replace.
  replace (a <=? 0)%Z with false by (symmetry; apply Z.leb_gt; lia).
  replace (size >? a)%Z with false by (symmetry; rewrite Z.gtb_ltb; apply Z.ltb_ge; lia).
  replace (size <? 0)%Z with false by (symmetry; apply Z.ltb_ge; lia).
  simpl. unfold bind, draw, ret.
  destruct (random_permutation (Z.to_nat a) g) as [perm g1]. reflexivity.
Qed.

(** C3 at [n_samples = 100]. Two rows are selected, no value is drawn for
    any column ([2 // 4 = 0]), and the second assignment puts an empty
    array on the one row of [outlier_indices[0:1]]: pandas raises, whatever
    the generator and the frame. *)
Theorem add_outliers_raises_on_100 : forall (data : Frame.t) (g : RandomState),
  exists g',
    add_outliers 100 data g =
      (Raise (ValueError "Must have equal len keys and value when setting with an iterable"),
       g').
Proof.
  intros data g. unfold add_outliers.
  replace (astype_int (inject_Z 100 * 0.02)) with 2%Z by reflexivity.
  unfold bind. rewrite np_random_choice_no_replace_Return by lia.
  change (Z.to_nat 100) with 100%nat.
  pose proof (permutation_length 100 g) as Hlen.
  destruct (random_permutation 100 g) as [perm g1]. simpl in Hlen.
  destruct perm as [|x [|y perm]]; simpl in Hlen; try lia.
  exists g1. reflexivity.
Qed.

End Outliers.

(** [create_dummy_data(100, 0.29)] under the concrete generator: the run
    ends in that exception, at step 8. *)
Lemma create_dummy_data_100_raises : forall fuel g,
  fst (create_dummy_data (np := Lcg.numpy) fuel 100 0.29 g) =
    Raise (ValueError "Must have equal len keys and value when setting with an iterable").
Proof.
  intros fuel g. rewrite create_dummy_data_split. unfold bind.
  rewrite (before_adjustment_reseeds (np := Lcg.numpy) 100 g 0%Z).
  replace (before_adjustment (np := Lcg.numpy) 100 0%Z)
    with (@Raise Frame.t (ValueError "Must have equal len keys and value when setting with an iterable"),
          snd (before_adjustment (np := Lcg.numpy) 100 0%Z)).
  - reflexivity.
  - vm_compute. reflexivity.
Qed.

(** *** When the number of outliers is not a multiple of four *)

Lemma n_outliers_floor : forall n_samples,
  (0 <= n_samples)%Z -> astype_int (inject_Z n_samples * 0.02) = (n_samples / 50)%Z.
Proof.
  intros n Hn. unfold astype_int. simpl.
  rewrite Z.quot_div_nonneg by lia.
  replace (n * 2)%Z with (n * 2)%Z by reflexivity.
  change 100%Z with (50 * 2)%Z.
  apply Z.div_mul_cancel_r; lia.
Qed.

Section OutlierSlices.
Context {np : Numpy}.

Lemma mapM_total : forall (A B : Type) (f : A -> M B) l g,
  (forall a s, exists b s', f a s = (Return b, s')) ->
  exists bs g', mapM f l g = (Return bs, g').
Proof.
  intros A B f l g Hf. revert g. induction l as [|a l IH]; intro g; simpl.
  - exists [], g. reflexivity.
  - destruct (Hf a g) as (b & g1 & Hb). destruct (IH g1) as (bs & g2 & Hbs).
    exists (b :: bs), g2. unfold bind. rewrite Hb, Hbs. reflexivity.
Qed.

Lemma sized_total : forall (A : Type) (d : M A) size g,
  (0 <= size)%Z ->
  (forall s, exists a s', d s = (Return a, s')) ->
  exists l g', sized d size g = (Return l, g') /\ List.length l = Z.to_nat size.
Proof.
  intros A d size g Hs Hd.
  destruct (@mapM_total unit A (fun _ => d) (repeat tt (Z.to_nat size)) g) as (l & g' & H).
  { intros _ s. apply Hd. }
  exists l, g'. assert (E : sized d size g = (Return l, g')).
  { unfold sized. replace (size <? 0)%Z with false by (symmetry; apply Z.ltb_ge; lia).
    exact H. }
  split; [exact E | eapply sized_Return; exact E].
Qed.

Lemma np_random_choice_total : forall (A : Type) (a : list A) (default : A) s,
  exists x s', np_random_choice a default s = (Return x, s').
Proof.
  intros A a default s. unfold np_random_choice, bind, draw, ret.
  destruct (random_randint 0 (Z.of_nat (List.length a)) s) as [i s'].
  eexists. eexists. reflexivity.
Qed.

Lemma loc_set_mismatch : forall (A : Type) (col : list A) idx values g,
  List.length idx <> List.length values ->
  loc_set col idx values g =
    (Raise (ValueError "Must have equal len keys and value when setting with an iterable"), g).
Proof.
  intros A col idx values g H. unfold loc_set.
  apply Nat.eqb_neq in H. rewrite H. reflexivity.
Qed.

Lemma loc_set_Return : forall (A : Type) (col : list A) idx values g,
  List.length idx = List.length values ->
  Forall (fun i => (i < List.length col)%nat) idx ->
  loc_set col idx values g =
    (Return (fold_left (fun (c : list A) (iv : nat * A) => set_at (fst iv) (snd iv) c)
                       (combine idx values) col), g).
Proof.
  intros A col idx values g Hl Hi. unfold loc_set.
  apply Nat.eqb_eq in Hl. rewrite Hl. simpl.
  replace (forallb (fun i => (i <? List.length col)%nat) idx) with true; [reflexivity|].
  symmetry. apply forallb_forall. intros i Hin.
  rewrite Forall_forall in Hi. apply Nat.ltb_lt. auto.
Qed.

Lemma permutation_in_range : forall n g,
  Forall (fun i => (i < n)%nat) (fst (random_permutation n g)).
Proof.
  intros n g. apply Forall_forall. intros i Hin.
  apply (Permutation_in _ (random_permutation_perm n g)) in Hin.
  apply in_seq in Hin. lia.
Qed.

Lemma Forall_firstn : forall (A : Type) (P : A -> Prop) k l,
  Forall P l -> Forall P (firstn k l).
Proof.
  intros A P k l H. rewrite <- (firstn_skipn k l) in H.
  apply Forall_app in H. tauto.
Qed.

Lemma Forall_skipn : forall (A : Type) (P : A -> Prop) k l,
  Forall P l -> Forall P (skipn k l).
Proof.
  intros A P k l H. rewrite <- (firstn_skipn k l) in H.
  apply Forall_app in H. tauto.
Qed.

Lemma slice_length : forall (A : Type) (a : list A) start stop,
  List.length (slice start stop a) = Nat.min (stop - start) (List.length a - start).
Proof.
  intros A a start stop. unfold slice. rewrite length_firstn, length_skipn. reflexivity.
Qed.

(** The failing inputs in general. On a frame of [n_samples] rows,
    whenever [int(n_samples * 0.02)] is not a multiple of four, one of the
    four assignments of step 8 pairs a slice of [outlier_indices] with an
    array of another length, and pandas raises. *)
Theorem add_outliers_raises_unless_multiple_of_4 :
  forall (n_samples : Z) (data : Frame.t) (g : RandomState),
  (0 < n_samples)%Z ->
  ((n_samples / 50) mod 4 <> 0)%Z ->
  List.length (Frame.weight_kg data) = Z.to_nat n_samples ->
  List.length (Frame.height_cm data) = Z.to_nat n_samples ->
  List.length (Frame.belly_circumference_cm data) = Z.to_nat n_samples ->
  exists g',
    add_outliers n_samples data g =
      (Raise (ValueError "Must have equal len keys and value when setting with an iterable"),
       g').
Proof.
  intros n data g Hn Hr Hw Hh Hbc. unfold add_outliers.
  rewrite n_outliers_floor by lia.
  set (k := (n / 50)%Z) in *.
  assert (Hk : (0 <= k <= n)%Z).
  { subst k. split; [apply Z.div_pos; lia |]. apply Z.div_le_upper_bound; lia. }
  unfold bind at 1. rewrite np_random_choice_no_replace_Return by lia.
  pose proof (permutation_length (Z.to_nat n) g) as Hlen.
  pose proof (permutation_in_range (Z.to_nat n) g) as Hrange.
  destruct (random_permutation (Z.to_nat n) g) as [perm g1]. simpl in Hlen, Hrange. simpl fst. simpl snd.
  set (oi := firstn (Z.to_nat k) perm).
  assert (Hoi : List.length oi = Z.to_nat k).
  { subst oi. rewrite length_firstn. lia. }
  assert (Hoir : Forall (fun i => (i < Z.to_nat n)%nat) oi).
  { subst oi. apply Forall_firstn. exact Hrange. }
  assert (Hq : (0 <= k / 4)%Z) by (apply Z.div_pos; lia).
  (* weight_kg *)
  destruct (@sized_total _ (np_random_choice [1; 2; 800; 1000] 0) (k / 4) g1 Hq)
    as (v1 & g2 & Hv1 & Hl1); [intro s; apply np_random_choice_total |].
  unfold bind at 1. rewrite Hv1.
  unfold bind at 1. rewrite loc_set_Return.
  2:{ rewrite length_firstn, length_map, Hoi, Hl1.
      pose proof (Z.div_mod k 4). assert (k / 4 <= k)%Z by (apply Z.div_le_upper_bound; lia). lia. }
  2:{ rewrite Hw. apply Forall_firstn. exact Hoir. }
  (* height_cm *)
  destruct (@sized_total _ (np_random_choice [10; 15; 350; 400] 0) (k / 4) g2 Hq)
    as (v2 & g3 & Hv2 & Hl2); [intro s; apply np_random_choice_total |].
  unfold bind at 1. rewrite Hv2.
  assert (Hs2 : List.length (slice (Z.to_nat (k / 4)) (Z.to_nat (k / 2)) oi)
                = (Z.to_nat (k / 2) - Z.to_nat (k / 4))%nat).
  { rewrite slice_length, Hoi.
    assert (k / 2 <= k)%Z by (apply Z.div_le_upper_bound; lia).
    assert (k / 4 <= k / 2)%Z by (apply Z.div_le_compat_l; lia).
    lia. }
  destruct (Z.eq_dec (k mod 4) 1) as [R1 | R1].
  - (* one index left over: the last assignment fails *)
    assert (E2 : (k / 2 = 2 * (k / 4))%Z).
    { pose proof (Z.div_mod k 4 ltac:(lia)).
      replace k with (2 * (2 * (k / 4)) + 1)%Z at 1 by lia.
      rewrite Z.add_comm, Z.mul_comm, Z.div_add by lia. reflexivity. }
    assert (E3 : (3 * k / 4 = 3 * (k / 4))%Z).
    { pose proof (Z.div_mod k 4 ltac:(lia)).
      replace (3 * k)%Z with (3 + (3 * (k / 4)) * 4)%Z by lia.
      rewrite Z.div_add by lia. reflexivity. }
    unfold bind at 1. rewrite loc_set_Return.
    2:{ rewrite Hs2, length_map, Hl2, E2. lia. }
    2:{ rewrite Hh. unfold slice. apply Forall_firstn, Forall_skipn. exact Hoir. }
    destruct (@sized_total _ (np_random_choice [10; 15; 400; 500] 0) (k / 4) g3 Hq)
      as (v3 & g4 & Hv3 & Hl3); [intro s; apply np_random_choice_total |].
    unfold bind at 1. rewrite Hv3.
    unfold bind at 1. rewrite loc_set_Return.
    2:{ rewrite slice_length, length_map, Hoi, Hl3, E2, E3.
        pose proof (Z.div_mod k 4 ltac:(lia)). lia. }
    2:{ rewrite Hbc. unfold slice. apply Forall_firstn, Forall_skipn. exact Hoir. }
    destruct (@sized_total _ (np_random_choice [1; 2; 3; 120; 130; 140]%Z 0%Z) (k / 4) g4 Hq)
      as (v4 & g5 & Hv4 & Hl4); [intro s; apply np_random_choice_total |].
    unfold bind at 1. rewrite Hv4.
    unfold bind at 1. rewrite loc_set_mismatch.
    + exists g5. reflexivity.
    + rewrite length_skipn, Hoi, Hl4, E3.
      pose proof (Z.div_mod k 4 ltac:(lia)). lia.
  - (* two or three left over: the second assignment fails *)
    assert (E2 : (k / 2 = 2 * (k / 4) + 1)%Z).
    { pose proof (Z.div_mod k 4 ltac:(lia)).
      pose proof (Z.mod_pos_bound k 4 ltac:(lia)).
      assert (C : (k mod 4 = 2 \/ k mod 4 = 3)%Z) by (subst k; lia).
      destruct C as [C | C].
      - replace k with (0 + (2 * (k / 4) + 1) * 2)%Z at 1 by lia.
        rewrite Z.div_add by lia. reflexivity.
      - replace k with (1 + (2 * (k / 4) + 1) * 2)%Z at 1 by lia.
        rewrite Z.div_add by lia. reflexivity. }
    unfold bind at 1. rewrite loc_set_mismatch.
    + exists g3. reflexivity.
    + rewrite Hs2, length_map, Hl2, E2. lia.
Qed.

End OutlierSlices.

(** *** When the number of outliers is a multiple of four *)

Lemma nth_error_set_at_same : forall (A : Type) (col : list A) i v,
  (i < List.length col)%nat -> nth_error (set_at i v col) i = Some v.
Proof.
  induction col as [|x col IH]; intros [|i] v Hi; simpl in *; try lia; auto.
  apply IH. lia.
Qed.

Lemma nth_error_set_at_other : forall (A : Type) (col : list A) i j v,
  i <> j -> nth_error (set_at j v col) i = nth_error col i.
Proof.
  induction col as [|x col IH]; intros [|i] [|j] v Hij; simpl; auto; try congruence.
Qed.

Lemma fold_set_at_spec : forall (A : Type) (allowed : list A) idx values col,
  List.length idx = List.length values ->
  Forall (fun i => (i < List.length col)%nat) idx ->
  Forall (fun v => In v allowed) values ->
  overwritten col
    (fold_left (fun (c : list A) (iv : nat * A) => set_at (fst iv) (snd iv) c)
               (combine idx values) col)
    idx allowed.
Proof.
  intros A allowed. induction idx as [|j idx IH]; intros values col Hl Hi Hv.
  - simpl. repeat split; auto. intros i [].
  - destruct values as [|v values]; [discriminate|]. simpl.
    inversion Hi as [|? ? Hj Hi']; subst. inversion Hv as [|? ? Hvj Hv']; subst.
    destruct (IH values (set_at j v col)) as (L & In1 & Out1); auto.
    { rewrite set_at_length. exact Hi'. }
    rewrite set_at_length in L. repeat split; auto.
    + intros i [E | Hin].
      * subst i. destruct (in_dec Nat.eq_dec j idx) as [Hjin | Hjout]; [auto|].
        exists v. split; [| exact Hvj].
        rewrite Out1 by exact Hjout. apply nth_error_set_at_same. exact Hj.
      * auto.
    + intros i Hni. rewrite Out1 by (intro; apply Hni; right; assumption).
      apply nth_error_set_at_other. intro E. apply Hni. left. auto.
Qed.

Section OutliersReturn.
Context {np : Numpy}.

Lemma np_random_choice_In : forall (A : Type) (a : list A) (default : A) s x s',
  a <> [] -> np_random_choice a default s = (Return x, s') -> In x a.
Proof.
  intros A a default s x s' Ha H. unfold np_random_choice, bind, draw, ret in H.
  assert (Hlen : (0 < Z.of_nat (List.length a))%Z) by (apply nonempty_length; exact Ha).
  pose proof (@random_randint_range np 0%Z (Z.of_nat (List.length a)) s Hlen) as R.
  destruct (random_randint 0 (Z.of_nat (List.length a)) s) as [i s1].
  simpl in R. inversion H; subst. apply nth_In. lia.
Qed.

Lemma sized_choice_In : forall (A : Type) (a : list A) (default : A) size s l s',
  a <> [] -> sized (np_random_choice a default) size s = (Return l, s') ->
  Forall (fun v => In v a) l.
Proof.
  intros A a default size s l s' Ha H. unfold sized in H.
  destruct (size <? 0)%Z; [discriminate|].
  eapply mapM_Forall in H; [exact H |].
  intros _ s0 b s0' Hb. eapply np_random_choice_In; eauto.
Qed.

(** Outlier injection where the code works. On a frame of [n_samples]
    rows with [int(n_samples * 0.02)] a multiple of four, step 8 returns.  It
    has selected [int(n_samples * 0.02)] distinct rows, [outlier_indices];
    each quarter of that list, in list order, is overwritten in its one
    column with values of that column's set; every other cell of the four
    columns, and every other column, is as it was. *)
Theorem add_outliers_when_multiple_of_4 :
  forall (n_samples : Z) (data : Frame.t) (g : RandomState),
  (0 < n_samples)%Z ->
  ((n_samples / 50) mod 4 = 0)%Z ->
  List.length (Frame.weight_kg data) = Z.to_nat n_samples ->
  List.length (Frame.height_cm data) = Z.to_nat n_samples ->
  List.length (Frame.belly_circumference_cm data) = Z.to_nat n_samples ->
  List.length (Frame.age data) = Z.to_nat n_samples ->
  exists data' g' outlier_indices,
    add_outliers n_samples data g = (Return data', g') /\
    NoDup outlier_indices /\
    List.length outlier_indices = Z.to_nat (n_samples / 50) /\
    (let q := Z.to_nat (n_samples / 50 / 4) in
     List.length outlier_indices = (4 * q)%nat /\
     overwritten (Frame.weight_kg data) (Frame.weight_kg data')
       (slice 0 q outlier_indices) (map Some [1; 2; 800; 1000]) /\
     overwritten (Frame.height_cm data) (Frame.height_cm data')
       (slice q (2 * q) outlier_indices) (map Some [10; 15; 350; 400]) /\
     overwritten (Frame.belly_circumference_cm data) (Frame.belly_circumference_cm data')
       (slice (2 * q) (3 * q) outlier_indices) (map Some [10; 15; 400; 500]) /\
     overwritten (Frame.age data) (Frame.age data')
       (slice (3 * q) (4 * q) outlier_indices) [1; 2; 3; 120; 130; 140]%Z) /\
    Frame.id data' = Frame.id data /\
    Frame.gender data' = Frame.gender data /\
    Frame.smoking_status data' = Frame.smoking_status data /\
    Frame.exercise_frequency data' = Frame.exercise_frequency data /\
    Frame.salt_consumption data' = Frame.salt_consumption data /\
    Frame.sugar_consumption data' = Frame.sugar_consumption data /\
    Frame.self_emotional data' = Frame.self_emotional data /\
    Frame.family_history data' = Frame.family_history data /\
    Frame.label_hypertension data' = Frame.label_hypertension data /\
    Frame.input_time data' = Frame.input_time data.
Proof.
  intros n data g Hn Hr Hw Hh Hbc Ha. unfold add_outliers.
  rewrite n_outliers_floor by lia.
  set (k := (n / 50)%Z) in *.
  assert (Hk : (0 <= k <= n)%Z).
  { subst k. split; [apply Z.div_pos; lia |]. apply Z.div_le_upper_bound; lia. }
  assert (Hq : (0 <= k / 4)%Z) by (apply Z.div_pos; lia).
  assert (Ek : (k = 4 * (k / 4))%Z) by (pose proof (Z.div_mod k 4 ltac:(lia)); lia).
  assert (E2 : (k / 2 = 2 * (k / 4))%Z).
  { rewrite Ek at 1. replace (4 * (k / 4))%Z with (2 * (k / 4) * 2)%Z by lia.
    apply Z.div_mul. lia. }
  assert (E3 : (3 * k / 4 = 3 * (k / 4))%Z).
  { rewrite Ek at 1. replace (3 * (4 * (k / 4)))%Z with (3 * (k / 4) * 4)%Z by lia.
    apply Z.div_mul. lia. }
  unfold bind at 1. rewrite np_random_choice_no_replace_Return by lia.
  pose proof (permutation_length (Z.to_nat n) g) as Hlen.
  pose proof (permutation_in_range (Z.to_nat n) g) as Hrange.
  pose proof (random_permutation_perm (Z.to_nat n) g) as Hperm.
  destruct (random_permutation (Z.to_nat n) g) as [perm g1].
  simpl in Hlen, Hrange, Hperm. simpl fst. simpl snd.
  set (oi := firstn (Z.to_nat k) perm).
  assert (Hoi : List.length oi = Z.to_nat k).
  { subst oi. rewrite length_firstn. lia. }
  assert (Hoir : Forall (fun i => (i < Z.to_nat n)%nat) oi).
  { subst oi. apply Forall_firstn. exact Hrange. }
  assert (Hnd : NoDup oi).
  { assert (Hp : NoDup perm).
    { eapply Permutation_NoDup; [apply Permutation_sym; exact Hperm | apply seq_NoDup]. }
    rewrite <- (firstn_skipn (Z.to_nat k) perm) in Hp.
    apply NoDup_app_remove_r in Hp. exact Hp. }
  destruct (@sized_total np _ (np_random_choice [1; 2; 800; 1000] 0) (k / 4) g1 Hq)
    as (v1 & g2 & Hv1 & Hl1); [intro s; apply np_random_choice_total |].
  destruct (@sized_total np _ (np_random_choice [10; 15; 350; 400] 0) (k / 4) g2 Hq)
    as (v2 & g3 & Hv2 & Hl2); [intro s; apply np_random_choice_total |].
  destruct (@sized_total np _ (np_random_choice [10; 15; 400; 500] 0) (k / 4) g3 Hq)
    as (v3 & g4 & Hv3 & Hl3); [intro s; apply np_random_choice_total |].
  destruct (@sized_total np _ (np_random_choice [1; 2; 3; 120; 130; 140]%Z 0%Z) (k / 4) g4 Hq)
    as (v4 & g5 & Hv4 & Hl4); [intro s; apply np_random_choice_total |].
  assert (In1 : Forall (fun v => In v [1; 2; 800; 1000]) v1).
  { eapply sized_choice_In; [| exact Hv1]. intro E; discriminate E. }
  assert (In2 : Forall (fun v => In v [10; 15; 350; 400]) v2).
  { eapply sized_choice_In; [| exact Hv2]. intro E; discriminate E. }
  assert (In3 : Forall (fun v => In v [10; 15; 400; 500]) v3).
  { eapply sized_choice_In; [| exact Hv3]. intro E; discriminate E. }
  assert (In4 : Forall (fun v => In v [1; 2; 3; 120; 130; 140]%Z) v4).
  { eapply sized_choice_In; [| exact Hv4]. intro E; discriminate E. }
  assert (L1 : List.length (firstn (Z.to_nat (k / 4)) oi) = List.length (map Some v1)).
  { rewrite length_firstn, length_map, Hoi, Hl1. lia. }
  assert (L2 : List.length (slice (Z.to_nat (k / 4)) (Z.to_nat (k / 2)) oi)
               = List.length (map Some v2)).
  { rewrite slice_length, length_map, Hoi, Hl2, E2. lia. }
  assert (L3 : List.length (slice (Z.to_nat (k / 2)) (Z.to_nat (3 * k / 4)) oi)
               = List.length (map Some v3)).
  { rewrite slice_length, length_map, Hoi, Hl3, E2, E3. lia. }
  assert (L4 : List.length (skipn (Z.to_nat (3 * k / 4)) oi) = List.length v4).
  { rewrite length_skipn, Hoi, Hl4, E3. lia. }
  assert (R1 : Forall (fun i => (i < List.length (Frame.weight_kg data))%nat)
                      (firstn (Z.to_nat (k / 4)) oi)).
  { rewrite Hw. apply Forall_firstn. exact Hoir. }
  assert (R2 : Forall (fun i => (i < List.length (Frame.height_cm data))%nat)
                      (slice (Z.to_nat (k / 4)) (Z.to_nat (k / 2)) oi)).
  { rewrite Hh. unfold slice. apply Forall_firstn, Forall_skipn. exact Hoir. }
  assert (R3 : Forall (fun i => (i < List.length (Frame.belly_circumference_cm data))%nat)
                      (slice (Z.to_nat (k / 2)) (Z.to_nat (3 * k / 4)) oi)).
  { rewrite Hbc. unfold slice. apply Forall_firstn, Forall_skipn. exact Hoir. }
  assert (R4 : Forall (fun i => (i < List.length (Frame.age data))%nat)
                      (skipn (Z.to_nat (3 * k / 4)) oi)).
  { rewrite Ha. apply Forall_skipn. exact Hoir. }
  unfold bind at 1. rewrite Hv1.
  unfold bind at 1. rewrite (loc_set_Return _ _ _ L1 R1).
  unfold bind at 1. rewrite Hv2.
  unfold bind at 1. rewrite (loc_set_Return _ _ _ L2 R2).
  unfold bind at 1. rewrite Hv3.
  unfold bind at 1. rewrite (loc_set_Return _ _ _ L3 R3).
  unfold bind at 1. rewrite Hv4.
  unfold bind at 1. rewrite (loc_set_Return _ _ _ L4 R4).
  unfold ret.
  eexists. exists g5, oi. split; [reflexivity |].
  split; [exact Hnd |]. split; [exact Hoi |].
  split; [| simpl; repeat split; reflexivity].
  cbv zeta.
  cbn [Frame.weight_kg Frame.height_cm Frame.belly_circumference_cm Frame.age].
  assert (Forall_map_Some : forall (l : list Q) (a : list Q),
            Forall (fun v => In v a) l ->
            Forall (fun v => In v (map Some a)) (map Some l)).
  { intros l a H. apply Forall_forall. intros x Hx.
    apply in_map_iff in Hx. destruct Hx as (y & Ey & Hy). subst x.
    apply in_map. rewrite Forall_forall in H. auto. }
  replace (Z.to_nat (k / 2)) with (2 * Z.to_nat (k / 4))%nat in * by lia.
  replace (Z.to_nat (3 * k / 4)) with (3 * Z.to_nat (k / 4))%nat in * by lia.
  split; [lia |].
  split; [| split; [| split]].
  - unfold slice at 1. rewrite Nat.sub_0_r. simpl skipn.
    apply fold_set_at_spec; auto.
  - apply fold_set_at_spec; auto.
  - apply fold_set_at_spec; auto.
  - replace (slice (3 * Z.to_nat (k / 4)) (4 * Z.to_nat (k / 4)) oi)
      with (skipn (3 * Z.to_nat (k / 4)) oi).
    + apply fold_set_at_spec; auto.
    + unfold slice. symmetry. apply firstn_all2. rewrite length_skipn, Hoi. lia.
Qed.

End OutliersReturn.

(** ** C9: the split utility *)

Section SplitClaims.
Context {env : SplitEnv}.

(** C9, amended. When the input file is absent, [split_data] prints
    "Error: File not found at <path>", writes nothing and returns [None]: it
    raises nothing.  When the file is read and the table has no
    [label_hypertension] column, it prints the error and raises it again.
    The script's [main] catches either failure, prints it and ends
    normally. *)
Theorem split_data_on_missing_input :
  forall (input_folder input_filename : string) (random_state : Z) (w : World),
  (forall msg,
     pd_read_csv (os_path_join input_folder input_filename) = inl (FileNotFoundError msg) ->
     split_data input_folder input_filename random_state w =
       (Return None,
        {| stdout := stdout w ++
             [("Error: File not found at " ++ os_path_join input_folder input_filename)%string];
           written := written w |})) /\
  (forall df e,
     pd_read_csv (os_path_join input_folder input_filename) = inr df ->
     df_getitem df "label_hypertension" = inl e ->
     split_data input_folder input_filename random_state w =
       (Raise e,
        {| stdout := ((stdout w ++
             [("Data loaded successfully from: "
               ++ os_path_join input_folder input_filename)%string]) ++
             [("Total records: " ++ str_of_nat (df_len df))%string]) ++
             [("Error during data splitting: " ++ exn_str e)%string];
           written := written w |})) /\
  (forall msg,
     pd_read_csv (os_path_join "dataset" "dummy_data.csv") = inl (FileNotFoundError msg) ->
     fst (split_main w) = Return tt) /\
  (forall df e,
     pd_read_csv (os_path_join "dataset" "dummy_data.csv") = inr df ->
     df_getitem df "label_hypertension" = inl e ->
     fst (split_main w) = Return tt).
Proof.
  intros input_folder input_filename random_state w. repeat split.
  - intros msg H. unfold split_data. rewrite H. reflexivity.
  - intros df e H He. unfold split_data. rewrite H.
    unfold bind, try_except, print, split_and_save, bind, call. simpl.
    rewrite He. reflexivity.
  - intros msg H. unfold split_main, try_except, bind, split_data.
    rewrite H. reflexivity.
  - intros df e H He. unfold split_main, try_except, bind, split_data.
    rewrite H. unfold bind, try_except, print, split_and_save, bind, call. simpl.
    rewrite He. reflexivity.
Qed.

End SplitClaims.

(** C9, as stated, fails: with no input file, [split_data] returns [None]
    after printing one line, and the script ends normally. *)
Lemma split_data_absent_file_returns :
  split_data (env := Disk.env Disk.empty) "dataset" "dummy_data.csv" 42
    {| stdout := []; written := [] |} =
    (Return None,
     {| stdout := ["Error: File not found at dataset/dummy_data.csv"%string];
        written := [] |}) /\
  fst (split_main (env := Disk.env Disk.empty) {| stdout := []; written := [] |}) =
    Return tt.
Proof. split; reflexivity. Qed.

(** With a file that has no [label_hypertension] column, [split_data]
    raises the [KeyError]. *)
Lemma split_data_unlabelled_raises :
  fst (split_data (env := Disk.env Disk.unlabelled) "dataset" "dummy_data.csv" 42
         {| stdout := []; written := [] |}) =
    Raise (KeyError "label_hypertension").
Proof. reflexivity. Qed.

(** With a labelled file the two parts are written and returned. *)
Lemma split_data_labelled_returns :
  exists train test w',
    split_data (env := Disk.env Disk.labelled) "dataset" "dummy_data.csv" 42
      {| stdout := []; written := [] |} = (Return (Some (train, test)), w') /\
    map fst (written w') = ["dataset/train_data.csv"%string; "dataset/test_data.csv"%string].
Proof. eexists. eexists. eexists. split; vm_compute; reflexivity. Qed.

(** * Further properties *)

(** ** The shape of the dataset *)

Lemma np_where_length : forall (A : Type) (cond : list bool) (a b : list A),
  List.length a = List.length cond -> List.length b = List.length cond ->
  List.length (np_where cond a b) = List.length cond.
Proof.
  induction cond as [|c cond IH]; intros [|x a] [|y b] Ha Hb; simpl in *;
    try discriminate; auto.
Qed.

Lemma astype_int_clip : forall x, (15 <= astype_int (clip x 15 90) <= 90)%Z.
Proof.
  intro x. unfold astype_int.
  assert (H : 15 <= clip x 15 90 <= 90).
  { unfold clip. split.
    - apply Q.min_glb; [apply Q.le_max_r | lra].
    - apply Q.le_min_r. }
  destruct (clip x 15 90) as [a b]. destruct H as [H1 H2].
  unfold Qle in H1, H2. simpl in *.
  rewrite Z.quot_div_nonneg by lia.
  split.
  - apply Z.div_le_lower_bound; lia.
  - apply Z.div_le_upper_bound; lia.
Qed.

Lemma fold_set_at_length : forall (A : Type) (ivs : list (nat * A)) (col : list A),
  List.length (fold_left (fun (c : list A) (iv : nat * A) => set_at (fst iv) (snd iv) c)
                         ivs col) = List.length col.
Proof.
  induction ivs as [|iv ivs IH]; intro col; simpl; [reflexivity|].
  rewrite IH. apply set_at_length.
Qed.

Lemma set_at_Forall : forall (A : Type) (P : A -> Prop) (col : list A) i v,
  Forall P col -> P v -> Forall P (set_at i v col).
Proof.
  induction col as [|x col IH]; intros [|i] v Hc Hv; simpl; auto;
    inversion Hc; subst; constructor; auto.
Qed.

Lemma fold_set_at_Forall : forall (A : Type) (P : A -> Prop) (ivs : list (nat * A)) col,
  Forall P col -> Forall (fun iv => P (snd iv)) ivs ->
  Forall P (fold_left (fun (c : list A) (iv : nat * A) => set_at (fst iv) (snd iv) c)
                      ivs col).
Proof.
  induction ivs as [|iv ivs IH]; intros col Hc Hv; simpl; [exact Hc|].
  inversion Hv; subst. apply IH; [apply set_at_Forall |]; auto.
Qed.

Lemma combine_snd_Forall : forall (A B : Type) (P : B -> Prop) (l : list A) (l' : list B),
  Forall P l' -> Forall (fun ab => P (snd ab)) (combine l l').
Proof.
  induction l as [|a l IH]; intros [|b l'] H; simpl; try constructor;
    inversion H; subst; auto.
Qed.

Lemma set_nan_length : forall (A : Type) (mask : list bool) (col : list (option A)),
  List.length mask = List.length col ->
  List.length (set_nan mask col) = List.length col.
Proof.
  intros A mask col H. unfold set_nan.
  rewrite length_map, length_combine, H. apply Nat.min_id.
Qed.

Lemma set_nan_cells : forall (A : Type) (mask : list bool) (col : list (option A)),
  List.length mask = List.length col ->
  Forall2 same_or_nan col (set_nan mask col).
Proof.
  intros A mask. unfold set_nan.
  induction mask as [|m mask IH]; intros [|c col] H; simpl in *; try discriminate.
  - constructor.
  - constructor; [| apply IH; lia].
    unfold same_or_nan. destruct m; simpl; auto.
Qed.

Section Shape.
Context {np : Numpy}.

Lemma loc_set_inv : forall (A : Type) (col : list A) idx values g col' g',
  loc_set col idx values g = (Return col', g') ->
  g' = g /\
  List.length idx = List.length values /\
  col' = fold_left (fun (c : list A) (iv : nat * A) => set_at (fst iv) (snd iv) c)
                   (combine idx values) col.
Proof.
  intros A col idx values g col' g' H. unfold loc_set in H.
  destruct (List.length idx =? List.length values)%nat eqn:E; simpl in H; [| discriminate].
  destruct (forallb (fun i => (i <? List.length col)%nat) idx); simpl in H; [| discriminate].
  apply ret_Return in H. destruct H; subst.
  apply Nat.eqb_eq in E. auto.
Qed.

Lemma pd_DataFrame_inv : forall id age gender g u g',
  pd_DataFrame id age gender g = (Return u, g') ->
  List.length age = List.length id /\ List.length gender = List.length id.
Proof.
  intros id age gender g u g' H. unfold pd_DataFrame in H.
  destruct (List.length age =? List.length id)%nat eqn:E1; simpl in H; [| discriminate].
  destruct (List.length gender =? List.length id)%nat eqn:E2; simpl in H; [| discriminate].
  apply Nat.eqb_eq in E1, E2. auto.
Qed.

Lemma draw_randint_range : forall lo hi g x g',
  (lo < hi)%Z -> draw (random_randint lo hi) g = (Return x, g') -> (lo <= x < hi)%Z.
Proof.
  intros lo hi g x g' Hlt H. unfold draw in H.
  pose proof (@random_randint_range np lo hi g Hlt) as R.
  destruct (random_randint lo hi g) as [y g1]. inversion H; subst. exact R.
Qed.

(** What steps 1 to 7 return. *)
Lemma generate_population_shape : forall n_samples g data g',
  generate_population n_samples g = (Return data, g') ->
  (0 <= n_samples)%Z /\ (n_samples mod 2 = 0)%Z /\
  frame_rows (Z.to_nat n_samples) data /\
  Frame.id data = arange 1 (n_samples + 1) /\
  Forall (fun a => (15 <= a <= 90)%Z) (Frame.age data) /\
  Frame.input_time data = [].
Proof.
  intros n g data g' H.
  pose proof (generate_population_labels _ _ H) as (Hn & _ & Hlab & _).
  unfold generate_population in H.
  inv_bind H. inv_bind H. inv_bind H. inv_bind H.
  match goal with E : pd_DataFrame _ _ _ _ = _ |- _ =>
    apply pd_DataFrame_inv in E; destruct E as [Hage Hgen] end.
  rewrite arange_length in Hage, Hgen.
  replace (n + 1 - 1)%Z with n in Hage, Hgen by lia.
  rewrite length_map, length_app in Hage.
  repeat match goal with
  | E : sized _ _ _ = (Return _, _) |- _ => apply sized_Return in E; destruct E as [_ E]
  end.
  inv_bind H. inv_bind H.
  repeat match goal with
  | E : sized _ _ _ = (Return _, _) |- _ => apply sized_Return in E; destruct E as [_ E]
  end.
  inv_bind H. inv_bind H. inv_bind H. inv_bind H. inv_bind H. inv_bind H.
  inv_bind H. inv_bind H. inv_bind H. inv_bind H.
  repeat match goal with
  | E : sized _ _ _ = (Return _, _) |- _ => apply sized_Return in E; destruct E as [_ E]
  | E : mapM _ _ _ = (Return _, _) |- _ => apply mapM_length in E
  end.
  apply ret_Return in H. destruct H as [H _]. subst data.
  assert (Heven : (n mod 2 = 0)%Z).
  { assert (Hh : (Z.to_nat (n / 2) + Z.to_nat (n / 2))%nat = Z.to_nat n) by congruence.
    pose proof (Z.div_mod n 2 ltac:(lia)). pose proof (Z.mod_pos_bound n 2 ltac:(lia)).
    assert (0 <= n / 2)%Z by (apply Z.div_pos; lia). lia. }
  assert (Hagelen : forall (l1 l2 : list Q),
            List.length l1 = Z.to_nat (n / 2) -> List.length l2 = Z.to_nat (n / 2) ->
            List.length (map (fun x => astype_int (clip x 15 90)) (l1 ++ l2)) = Z.to_nat n).
  { intros l1 l2 Hl1 Hl2. rewrite length_map, length_app, Hl1, Hl2.
    pose proof (Z.div_mod n 2 ltac:(lia)).
    assert (0 <= n / 2)%Z by (apply Z.div_pos; lia). lia. }
  assert (HA : List.length (map (fun x => astype_int (clip x 15 90)) (a ++ a0))
               = Z.to_nat n) by (apply Hagelen; assumption).
  assert (HH : List.length (np_where (map (fun s => Gender_eqb s Male) a1) a3 a4)
               = Z.to_nat n).
  { rewrite np_where_length; rewrite length_map; congruence. }
  rewrite length_combine, HH, HA, Nat.min_id in E4.
  rewrite length_combine, E4, HA, Nat.min_id in E5.
  rewrite HA in E6, E7, E8, E9.
  split; [exact Hn |]. split; [exact Heven |].
  split; [| split; [reflexivity | split; [| reflexivity]]].
  - unfold frame_rows. cbn [Frame.id Frame.age Frame.gender Frame.height_cm Frame.weight_kg
      Frame.belly_circumference_cm Frame.smoking_status Frame.exercise_frequency
      Frame.salt_consumption Frame.sugar_consumption Frame.self_emotional
      Frame.family_history Frame.label_hypertension].
    cbn [Frame.label_hypertension] in Hlab.
    rewrite arange_length. replace (n + 1 - 1)%Z with n by lia.
    rewrite HA.
    rewrite (length_map (@Some Gender)), !(length_map (@Some Q)),
      (length_map (@Some Smoking)), !(length_map (@Some Level)), !(length_map (@Some Z)).
    rewrite HH, E1, E4, E5, E6, E7, E8, E9, E10, E11, Hlab.
    repeat split.
  - cbn [Frame.age]. apply Forall_forall. intros y Hin.
    apply in_map_iff in Hin. destruct Hin as (x & Hx & _). subst y.
    apply astype_int_clip.
Qed.

End Shape.

Section ShapeSteps.
Context {np : Numpy}.

Lemma missing_mask_Return : forall data prob g mask g',
  missing_mask data prob g = (Return mask, g') ->
  List.length mask = Frame.len data.
Proof.
  intros data prob g mask g' H. unfold missing_mask in H.
  inv_bind H. apply ret_Return in H. destruct H as [H _]. subst mask.
  match goal with E : sized _ _ _ = _ |- _ => apply sized_Return in E; destruct E as [_ E] end.
  rewrite length_map. rewrite Nat2Z.id in *. assumption.
Qed.

Lemma missing_mask_total : forall data prob g,
  exists mask g', missing_mask data prob g = (Return mask, g').
Proof.
  intros data prob g. unfold missing_mask.
  destruct (@sized_total np _ (draw random_random) (Z.of_nat (Frame.len data)) g)
    as (u & g' & Hu & _); [lia | |].
  - intro s. unfold draw. destruct (random_random s) as [x s']. eauto.
  - eexists. eexists. unfold bind. rewrite Hu. reflexivity.
Qed.

(** Step 10 on a frame of [n] rows. It always returns; [id], [age],
    [label_hypertension] and [input_time] are as they were; every cell of
    the ten other columns is as it was or NaN; no row is added or lost. *)
Theorem add_missing_values_cells : forall (n : nat) (data : Frame.t) (g : RandomState),
  frame_rows n data ->
  exists data' g',
    add_missing_values data g = (Return data', g') /\
    frame_rows n data' /\
    Frame.id data' = Frame.id data /\
    Frame.age data' = Frame.age data /\
    Frame.label_hypertension data' = Frame.label_hypertension data /\
    Frame.input_time data' = Frame.input_time data /\
    Forall2 same_or_nan (Frame.self_emotional data) (Frame.self_emotional data') /\
    Forall2 same_or_nan (Frame.sugar_consumption data) (Frame.sugar_consumption data') /\
    Forall2 same_or_nan (Frame.salt_consumption data) (Frame.salt_consumption data') /\
    Forall2 same_or_nan (Frame.exercise_frequency data) (Frame.exercise_frequency data') /\
    Forall2 same_or_nan (Frame.smoking_status data) (Frame.smoking_status data') /\
    Forall2 same_or_nan (Frame.gender data) (Frame.gender data') /\
    Forall2 same_or_nan (Frame.weight_kg data) (Frame.weight_kg data') /\
    Forall2 same_or_nan (Frame.height_cm data) (Frame.height_cm data') /\
    Forall2 same_or_nan (Frame.belly_circumference_cm data)
            (Frame.belly_circumference_cm data') /\
    Forall2 same_or_nan (Frame.family_history data) (Frame.family_history data').
Proof.
  intros n data g Hrows.
  destruct Hrows as (Hid & Hage & Hgen & Hh & Hw & Hb & Hsm & Hex & Hsa & Hsu & Hse & Hfh & Hl).
  unfold add_missing_values.
  assert (Hlen : Frame.len data = n) by exact Hid.
  destruct (missing_mask_total data 0.90 g) as (m1 & g1 & M1).
  destruct (missing_mask_total data 0.05 g1) as (m2 & g2 & M2).
  destruct (missing_mask_total data 0.05 g2) as (m3 & g3 & M3).
  destruct (missing_mask_total data 0.07 g3) as (m4 & g4 & M4).
  destruct (missing_mask_total data 0.03 g4) as (m5 & g5 & M5).
  destruct (missing_mask_total data 0.02 g5) as (m6 & g6 & M6).
  destruct (missing_mask_total data 0.03 g6) as (m7 & g7 & M7).
  destruct (missing_mask_total data 0.03 g7) as (m8 & g8 & M8).
  destruct (missing_mask_total data 0.03 g8) as (m9 & g9 & M9).
  destruct (missing_mask_total data 0.03 g9) as (m10 & g10 & M10).
  unfold bind. rewrite M1, M2, M3, M4, M5, M6, M7, M8, M9, M10. unfold ret.
  apply missing_mask_Return in M1, M2, M3, M4, M5, M6, M7, M8, M9, M10.
  eexists. eexists. split; [reflexivity |].
  cbn [Frame.id Frame.age Frame.gender Frame.height_cm Frame.weight_kg
       Frame.belly_circumference_cm Frame.smoking_status Frame.exercise_frequency
       Frame.salt_consumption Frame.sugar_consumption Frame.self_emotional
       Frame.family_history Frame.label_hypertension Frame.input_time].
  split.
  - unfold frame_rows.
    cbn [Frame.id Frame.age Frame.gender Frame.height_cm Frame.weight_kg
         Frame.belly_circumference_cm Frame.smoking_status Frame.exercise_frequency
         Frame.salt_consumption Frame.sugar_consumption Frame.self_emotional
         Frame.family_history Frame.label_hypertension].
    rewrite !set_nan_length
      by (etransitivity; [eassumption |]; rewrite Hlen; symmetry; assumption).
    repeat split; assumption.
  - repeat split; try reflexivity; apply set_nan_cells;
      (etransitivity; [eassumption |]; rewrite Hlen; symmetry; assumption).
Qed.

Lemma add_missing_values_shape : forall (n : nat) data g data' g',
  frame_rows n data ->
  add_missing_values data g = (Return data', g') ->
  frame_rows n data' /\
  Frame.age data' = Frame.age data /\
  Frame.input_time data' = Frame.input_time data.
Proof.
  intros n data g data' g' Hrows H.
  destruct Hrows as (Hid & Hage & Hgen & Hh & Hw & Hb & Hsm & Hex & Hsa & Hsu & Hse & Hfh & Hl).
  assert (Hlen : Frame.len data = n) by exact Hid.
  unfold add_missing_values in H.
  inv_bind H. inv_bind H. inv_bind H. inv_bind H. inv_bind H.
  inv_bind H. inv_bind H. inv_bind H. inv_bind H. inv_bind H.
  apply ret_Return in H. destruct H as [H _]. subst data'.
  repeat match goal with
  | E : missing_mask _ _ _ = (Return _, _) |- _ => apply missing_mask_Return in E
  end.
  cbn [Frame.age Frame.input_time].
  split; [| split; reflexivity].
  unfold frame_rows.
  cbn [Frame.id Frame.age Frame.gender Frame.height_cm Frame.weight_kg
       Frame.belly_circumference_cm Frame.smoking_status Frame.exercise_frequency
       Frame.salt_consumption Frame.sugar_consumption Frame.self_emotional
       Frame.family_history Frame.label_hypertension].
  rewrite !set_nan_length
    by (etransitivity; [eassumption |]; rewrite Hlen; symmetry; assumption).
  repeat split; assumption.
Qed.

Lemma add_timestamps_shape : forall n_samples data g data' g',
  add_timestamps n_samples data g = (Return data', g') ->
  (forall n, frame_rows n data -> frame_rows n data') /\
  Frame.age data' = Frame.age data /\
  List.length (Frame.input_time data') = Z.to_nat n_samples /\
  Forall (fun d => (0 <= d < 365)%Z) (Frame.input_time data').
Proof.
  intros n data g data' g' H. unfold add_timestamps in H.
  inv_bind H. apply ret_Return in H. destruct H as [H _]. subst data'.
  cbn [Frame.age Frame.input_time].
  split; [intros k Hk; exact Hk |]. split; [reflexivity |].
  match goal with E : sized _ _ _ = _ |- _ => rename E into Hs end.
  split.
  - apply sized_Return in Hs. tauto.
  - unfold sized in Hs. destruct (n <? 0)%Z; [discriminate |].
    eapply mapM_Forall in Hs; [exact Hs |].
    intros _ s0 x s0' Hx. eapply draw_randint_range; [| exact Hx]. lia.
Qed.

Lemma add_outliers_shape : forall n_samples data g data' g',
  add_outliers n_samples data g = (Return data', g') ->
  (forall n, frame_rows n data -> frame_rows n data') /\
  Frame.input_time data' = Frame.input_time data /\
  (Forall (fun a => (15 <= a <= 90)%Z) (Frame.age data) ->
   Forall age_in_domain (Frame.age data')).
Proof.
  intros n data g data' g' H. unfold add_outliers in H.
  inv_bind H. inv_bind H. inv_bind H. inv_bind H. inv_bind H.
  inv_bind H. inv_bind H. inv_bind H. inv_bind H.
  apply ret_Return in H. destruct H as [H _]. subst data'.
  repeat match goal with
  | E : loc_set _ _ _ _ = (Return _, _) |- _ =>
      apply loc_set_inv in E; destruct E as (_ & _ & E)
  end.
  subst.
  cbn [Frame.age Frame.input_time].
  split; [| split; [reflexivity |]].
  - intros k (Hid & Hage & Hgen & Hh & Hw & Hb & Hrest).
    unfold frame_rows.
    cbn [Frame.id Frame.age Frame.gender Frame.height_cm Frame.weight_kg
         Frame.belly_circumference_cm Frame.smoking_status Frame.exercise_frequency
         Frame.salt_consumption Frame.sugar_consumption Frame.self_emotional
         Frame.family_history Frame.label_hypertension].
    rewrite !fold_set_at_length. tauto.
  - intro Hold. apply fold_set_at_Forall.
    + eapply Forall_impl; [| exact Hold]. intros x Hx. left. exact Hx.
    + apply combine_snd_Forall.
      match goal with
      | E : sized (np_random_choice [1; 2; 3; 120; 130; 140]%Z _) _ _ = _ |- _ =>
          apply sized_choice_In in E; [| intro C; discriminate C];
          eapply Forall_impl; [| exact E]
      end.
      intros x Hx. right. exact Hx.
Qed.

(** The shape of every dataset [create_dummy_data] returns: the sample
    count was even, every column has that many rows, the ids are 1, 2, ...,
    every label is 0 or 1, every timestamp is a day of the year, and every
    age is between 15 and 90 or one of the six outlier values. *)
Theorem returned_dataset_shape : forall fuel n_samples t g data g',
  create_dummy_data fuel n_samples t g = (Return data, g') ->
  (0 <= n_samples)%Z /\ (n_samples mod 2 = 0)%Z /\
  frame_rows (Z.to_nat n_samples) data /\
  List.length (Frame.input_time data) = Z.to_nat n_samples /\
  Frame.id data = arange 1 (n_samples + 1) /\
  binary (Frame.label_hypertension data) /\
  Forall (fun d => (0 <= d < 365)%Z) (Frame.input_time data) /\
  Forall age_in_domain (Frame.age data).
Proof.
  intros fuel n t g data g' H.
  apply create_dummy_data_Return in H.
  destruct H as (d0 & s0 & label & H0 & _ & Hd & Hn & Hlen & Hb & _).
  unfold before_adjustment in H0.
  inv_bind H0. inv_bind H0. inv_bind H0. inv_bind H0.
  match goal with E : generate_population _ _ = _ |- _ =>
    apply generate_population_shape in E;
    destruct E as (_ & Heven & Hrows1 & Hid1 & Hage1 & _) end.
  match goal with E : add_outliers _ _ _ = _ |- _ =>
    pose proof (add_outliers_frame _ _ _ E) as (_ & Hid2);
    apply add_outliers_shape in E; destruct E as (Hrows2 & _ & Hage2) end.
  match goal with E : add_timestamps _ _ _ = _ |- _ =>
    pose proof (add_timestamps_frame _ _ _ E) as (_ & Hid3);
    apply add_timestamps_shape in E; destruct E as (Hrows3 & Hage3 & Htl & Htr) end.
  pose proof (add_missing_values_frame _ _ H0) as (_ & Hid4).
  pose proof (Hrows3 _ (Hrows2 _ Hrows1)) as Hrows3'.
  destruct (add_missing_values_shape _ Hrows3' H0) as (Hrows4 & Hage4 & Ht4).
  subst data.
  destruct Hrows4 as (R1 & R2 & R3 & R4 & R5 & R6 & R7 & R8 & R9 & R10 & R11 & R12 & R13).
  split; [exact Hn |]. split; [exact Heven |].
  split; [unfold frame_rows; cbn; repeat split; assumption |].
  cbn [Frame.set_label_hypertension Frame.input_time Frame.id Frame.age
       Frame.label_hypertension].
  rewrite Ht4, Hage4, Hage3, Hid4, Hid3, Hid2.
  repeat split; auto.
Qed.

End ShapeSteps.

Lemma returned_dataset_shape_witness :
  exists data g',
    create_dummy_data (np := Lcg.numpy) 10 4 0.5 0%Z = (Return data, g') /\
    (0 <= 4)%Z /\ (4 mod 2 = 0)%Z /\
    frame_rows (Z.to_nat 4) data /\
    List.length (Frame.input_time data) = Z.to_nat 4 /\
    Frame.id data = arange 1 (4 + 1) /\
    binary (Frame.label_hypertension data) /\
    Forall (fun d => (0 <= d < 365)%Z) (Frame.input_time data) /\
    Forall age_in_domain (Frame.age data).
Proof.
  eexists. eexists. split.
  - vm_compute. reflexivity.
  - eapply (@returned_dataset_shape Lcg.numpy 10 4 0.5 0%Z). vm_compute. reflexivity.
Defined.

Lemma add_missing_values_cells_witness :
  frame_rows 2 example_frame /\
  exists data' g',
    add_missing_values (np := Lcg.numpy) example_frame 0%Z = (Return data', g') /\
    frame_rows 2 data' /\
    Frame.id data' = Frame.id example_frame /\
    Frame.age data' = Frame.age example_frame /\
    Frame.label_hypertension data' = Frame.label_hypertension example_frame /\
    Frame.input_time data' = Frame.input_time example_frame /\
    Forall2 same_or_nan (Frame.self_emotional example_frame) (Frame.self_emotional data') /\
    Forall2 same_or_nan (Frame.sugar_consumption example_frame) (Frame.sugar_consumption data') /\
    Forall2 same_or_nan (Frame.salt_consumption example_frame) (Frame.salt_consumption data') /\
    Forall2 same_or_nan (Frame.exercise_frequency example_frame)
            (Frame.exercise_frequency data') /\
    Forall2 same_or_nan (Frame.smoking_status example_frame) (Frame.smoking_status data') /\
    Forall2 same_or_nan (Frame.gender example_frame) (Frame.gender data') /\
    Forall2 same_or_nan (Frame.weight_kg example_frame) (Frame.weight_kg data') /\
    Forall2 same_or_nan (Frame.height_cm example_frame) (Frame.height_cm data') /\
    Forall2 same_or_nan (Frame.belly_circumference_cm example_frame)
            (Frame.belly_circumference_cm data') /\
    Forall2 same_or_nan (Frame.family_history example_frame) (Frame.family_history data').
Proof.
  assert (H : frame_rows 2 example_frame) by (unfold frame_rows; cbn; repeat split).
  split; [exact H |].
  exact (add_missing_values_cells (np := Lcg.numpy) 0%Z H).
Defined.

(** ** When [create_dummy_data] returns *)

Lemma total_ret : forall (S A : Type) (a : A), total (@ret S A a).
Proof. intros S A a s. exists a, s. reflexivity. Qed.

Lemma total_bind : forall (S A B : Type) (m : ST S A) (k : A -> ST S B),
  total m -> (forall a, total (k a)) -> total (bind m k).
Proof.
  intros S A B m k Hm Hk s. destruct (Hm s) as (a & s1 & Ha).
  destruct (Hk a s1) as (b & s2 & Hb). exists b, s2.
  unfold bind. rewrite Ha. exact Hb.
Qed.

Section Totality.
Context {np : Numpy}.

Lemma total_draw : forall (A : Type) (f : RandomState -> A * RandomState), total (draw f).
Proof. intros A f s. unfold draw. destruct (f s) as [a s']. exists a, s'. reflexivity. Qed.

Lemma total_mapM : forall (A B : Type) (f : A -> M B) l,
  (forall a, total (f a)) -> total (mapM f l).
Proof. intros A B f l Hf s. apply mapM_total. intros a s0. apply Hf. Qed.

Lemma total_sized : forall (A : Type) (d : M A) size,
  (0 <= size)%Z -> total d -> total (sized d size).
Proof.
  intros A d size Hs Hd s.
  destruct (@sized_total np A d size s Hs Hd) as (l & s' & H & _). exists l, s'. exact H.
Qed.

Ltac total_step :=
  first
    [ apply total_ret
    | apply total_draw
    | apply total_sized; [lia |]
    | apply total_mapM; intro
    | apply total_bind; [| intro]
    | match goal with
      | |- total (if ?b then _ else _) => destruct b
      end ].

Ltac total_solve := cbv zeta; repeat total_step.

(** The first three draws of step 1. *)
Lemma base_population_draws : forall n_samples g,
  (0 <= n_samples)%Z ->
  exists young older gender g3,
    (young <- sized (draw (random_normal 25 5)) (n_samples / 2) ;;
     older <- sized (draw (random_normal 50 15)) (n_samples / 2) ;;
     gender <- sized (np_random_choice [Male; Female] Male) n_samples ;;
     ret (young, older, gender)) g = (Return (young, older, gender), g3) /\
    List.length young = Z.to_nat (n_samples / 2) /\
    List.length older = Z.to_nat (n_samples / 2) /\
    List.length gender = Z.to_nat n_samples.
Proof.
  intros n g Hn.
  assert (Hh : (0 <= n / 2)%Z) by (apply Z.div_pos; lia).
  destruct (@sized_total np _ (draw (random_normal 25 5)) (n / 2) g Hh)
    as (young & g1 & H1 & L1); [apply total_draw |].
  destruct (@sized_total np _ (draw (random_normal 50 15)) (n / 2) g1 Hh)
    as (older & g2 & H2 & L2); [apply total_draw |].
  destruct (@sized_total np _ (np_random_choice [Male; Female] Male) n g2 Hn)
    as (gender & g3 & H3 & L3); [intro s; apply np_random_choice_total |].
  exists young, older, gender, g3. unfold bind. rewrite H1, H2, H3. auto.
Qed.

Lemma generate_population_returns : forall n_samples g,
  (0 <= n_samples)%Z -> (n_samples mod 2 = 0)%Z ->
  exists data g', generate_population n_samples g = (Return data, g').
Proof.
  intros n g Hn Heven.
  destruct (base_population_draws g Hn) as (young & older & gender & g3 & H & L1 & L2 & L3).
  unfold bind in H.
  destruct (sized (draw (random_normal 25 5)) (n / 2) g) as [[y | e |] s1] eqn:E1;
    try discriminate.
  destruct (sized (draw (random_normal 50 15)) (n / 2) s1) as [[o | e |] s2] eqn:E2;
    try discriminate.
  destruct (sized (np_random_choice [Male; Female] Male) n s2) as [[ge | e |] s3] eqn:E3;
    try discriminate.
  unfold ret in H. inversion H; subst y o ge s3. clear H.
  unfold generate_population.
  unfold bind at 1. rewrite E1. unfold bind at 1. rewrite E2.
  unfold bind at 1. rewrite E3.
  unfold bind at 1. unfold pd_DataFrame at 1.
  rewrite length_map, length_app, arange_length, L1, L2, L3.
  replace (n + 1 - 1)%Z with n by lia.
  assert (Hsum : (Z.to_nat (n / 2) + Z.to_nat (n / 2))%nat = Z.to_nat n).
  { pose proof (Z.div_mod n 2 ltac:(lia)).
    assert (0 <= n / 2)%Z by (apply Z.div_pos; lia). lia. }
  rewrite Hsum, Nat.eqb_refl. cbn [andb ret].
  match goal with
  | |- exists data g', ?m g3 = _ => assert (T : total m)
  end.
  { unfold np_random_choice_p, generate_weight, calculate_risk, np_random_choice.
    total_solve. }
  destruct (T g3) as (data & g' & Hd). exists data, g'. exact Hd.
Qed.

(** An odd sample count: the two halves of the age array have one entry
    less than the id array, and the frame constructor raises. *)
Theorem odd_sample_count_raises : forall fuel n_samples t g,
  (0 < n_samples)%Z -> (n_samples mod 2 = 1)%Z ->
  exists g',
    create_dummy_data fuel n_samples t g =
      (Raise (ValueError "All arrays must be of the same length"), g').
Proof.
  intros fuel n t g Hn Hodd.
  destruct (@base_population_draws n (random_seed 42) ltac:(lia))
    as (young & older & gender & g3 & H & L1 & L2 & L3).
  unfold bind in H.
  destruct (sized (draw (random_normal 25 5)) (n / 2) (random_seed 42))
    as [[y | e |] s1] eqn:E1; try discriminate.
  destruct (sized (draw (random_normal 50 15)) (n / 2) s1) as [[o | e |] s2] eqn:E2;
    try discriminate.
  destruct (sized (np_random_choice [Male; Female] Male) n s2) as [[ge | e |] s3] eqn:E3;
    try discriminate.
  unfold ret in H. inversion H; subst y o ge s3. clear H.
  exists g3. unfold create_dummy_data.
  unfold bind at 1. unfold np_random_seed at 1.
  unfold bind at 1. unfold generate_population.
  unfold bind at 1. rewrite E1. unfold bind at 1. rewrite E2.
  unfold bind at 1. rewrite E3.
  unfold bind at 1. unfold pd_DataFrame at 1.
  rewrite length_map, length_app, arange_length, L1, L2.
  replace (n + 1 - 1)%Z with n by lia.
  assert (Hsum : (Z.to_nat (n / 2) + Z.to_nat (n / 2))%nat <> Z.to_nat n).
  { pose proof (Z.div_mod n 2 ltac:(lia)).
    assert (0 <= n / 2)%Z by (apply Z.div_pos; lia). lia. }
  apply Nat.eqb_neq in Hsum. rewrite Hsum. reflexivity.
Qed.

Lemma add_timestamps_returns : forall n_samples data g,
  (0 <= n_samples)%Z ->
  exists data' g', add_timestamps n_samples data g = (Return data', g').
Proof.
  intros n data g Hn.
  assert (T : total (add_timestamps n data)) by (unfold add_timestamps; total_solve).
  apply T.
Qed.

Lemma add_missing_values_returns : forall data g,
  exists data' g', add_missing_values data g = (Return data', g').
Proof.
  intros data g.
  assert (T : total (add_missing_values data)).
  { unfold add_missing_values, missing_mask. total_solve. }
  apply T.
Qed.

Lemma np_random_choice_no_replace_nonneg : forall a size g,
  (0 <= a)%Z -> (0 <= size <= a)%Z ->
  np_random_choice_no_replace a size g =
    (Return (firstn (Z.to_nat size) (fst (random_permutation (Z.to_nat a) g))),
     snd (random_permutation (Z.to_nat a) g)).
Proof.
  intros a size g Ha Hs.
  destruct (Z.eq_dec a 0) as [E | E].
  - subst a. assert (size = 0%Z) by lia. subst size.
    unfold np_random_choice_no_replace, bind, draw, ret. simpl.
    destruct (random_permutation 0 g). reflexivity.
  - apply np_random_choice_no_replace_Return; lia.
Qed.

Lemma add_outliers_returns : forall n_samples data g,
  (0 <= n_samples)%Z -> ((n_samples / 50) mod 4 = 0)%Z ->
  frame_rows (Z.to_nat n_samples) data ->
  exists data' g', add_outliers n_samples data g = (Return data', g').
Proof.
  intros n data g Hn Hr Hrows.
  destruct Hrows as (_ & Ha & _ & Hh & Hw & Hbc & _).
  unfold add_outliers.
  rewrite n_outliers_floor by lia.
  set (k := (n / 50)%Z) in *.
  assert (Hk : (0 <= k <= n)%Z).
  { subst k. split; [apply Z.div_pos; lia |]. apply Z.div_le_upper_bound; lia. }
  assert (Hq : (0 <= k / 4)%Z) by (apply Z.div_pos; lia).
  assert (Ek : (k = 4 * (k / 4))%Z) by (pose proof (Z.div_mod k 4 ltac:(lia)); lia).
  assert (E2 : (k / 2 = 2 * (k / 4))%Z).
  { rewrite Ek at 1. replace (4 * (k / 4))%Z with (2 * (k / 4) * 2)%Z by lia.
    apply Z.div_mul. lia. }
  assert (E3 : (3 * k / 4 = 3 * (k / 4))%Z).
  { rewrite Ek at 1. replace (3 * (4 * (k / 4)))%Z with (3 * (k / 4) * 4)%Z by lia.
    apply Z.div_mul. lia. }
  unfold bind at 1. rewrite np_random_choice_no_replace_nonneg by lia.
  pose proof (permutation_length (Z.to_nat n) g) as Hlen.
  pose proof (permutation_in_range (Z.to_nat n) g) as Hrange.
  destruct (random_permutation (Z.to_nat n) g) as [perm g1].
  simpl in Hlen, Hrange. simpl fst. simpl snd.
  set (oi := firstn (Z.to_nat k) perm).
  assert (Hoi : List.length oi = Z.to_nat k).
  { subst oi. rewrite length_firstn. lia. }
  assert (Hoir : Forall (fun i => (i < Z.to_nat n)%nat) oi).
  { subst oi. apply Forall_firstn. exact Hrange. }
  destruct (@sized_total np _ (np_random_choice [1; 2; 800; 1000] 0) (k / 4) g1 Hq)
    as (v1 & g2 & Hv1 & Hl1); [intro s; apply np_random_choice_total |].
  destruct (@sized_total np _ (np_random_choice [10; 15; 350; 400] 0) (k / 4) g2 Hq)
    as (v2 & g3 & Hv2 & Hl2); [intro s; apply np_random_choice_total |].
  destruct (@sized_total np _ (np_random_choice [10; 15; 400; 500] 0) (k / 4) g3 Hq)
    as (v3 & g4 & Hv3 & Hl3); [intro s; apply np_random_choice_total |].
  destruct (@sized_total np _ (np_random_choice [1; 2; 3; 120; 130; 140]%Z 0%Z) (k / 4) g4 Hq)
    as (v4 & g5 & Hv4 & Hl4); [intro s; apply np_random_choice_total |].
  unfold bind at 1. rewrite Hv1.
  unfold bind at 1. rewrite loc_set_Return.
  2:{ rewrite length_firstn, length_map, Hoi, Hl1. lia. }
  2:{ rewrite Hw. apply Forall_firstn. exact Hoir. }
  unfold bind at 1. rewrite Hv2.
  unfold bind at 1. rewrite loc_set_Return.
  2:{ rewrite slice_length, length_map, Hoi, Hl2, E2. lia. }
  2:{ rewrite Hh. unfold slice. apply Forall_firstn, Forall_skipn. exact Hoir. }
  unfold bind at 1. rewrite Hv3.
  unfold bind at 1. rewrite loc_set_Return.
  2:{ rewrite slice_length, length_map, Hoi, Hl3, E2, E3. lia. }
  2:{ rewrite Hbc. unfold slice. apply Forall_firstn, Forall_skipn. exact Hoir. }
  unfold bind at 1. rewrite Hv4.
  unfold bind at 1. rewrite loc_set_Return.
  2:{ rewrite length_skipn, Hoi, Hl4, E3. lia. }
  2:{ rewrite Ha. apply Forall_skipn. exact Hoir. }
  unfold ret. eexists. eexists. reflexivity.
Qed.

(** Everything before step 11 returns, on an even sample count whose
    outlier count is a multiple of four. *)
Lemma before_adjustment_returns : forall n_samples g,
  (0 <= n_samples)%Z -> (n_samples mod 2 = 0)%Z -> ((n_samples / 50) mod 4 = 0)%Z ->
  exists data g', before_adjustment n_samples g = (Return data, g').
Proof.
  intros n g Hn Heven Hr.
  destruct (generate_population_returns (random_seed 42) Hn Heven) as (d1 & g1 & H1).
  pose proof (generate_population_shape _ _ H1) as (_ & _ & Hrows & _).
  destruct (add_outliers_returns g1 Hn Hr Hrows) as (d2 & g2 & H2).
  destruct (add_timestamps_returns d2 g2 Hn) as (d3 & g3 & H3).
  destruct (add_missing_values_returns d3 g3) as (d4 & g4 & H4).
  exists d4, g4. unfold before_adjustment, bind, np_random_seed.
  rewrite H1, H2, H3. exact H4.
Qed.

(** Step 11 after the ten steps before it have returned [d0]. *)
Lemma adjustment_reaches_target : forall fuel n_samples t g kstar d0 g0,
  before_adjustment n_samples g = (Return d0, g0) ->
  (0 < n_samples)%Z ->
  (0 <= kstar <= n_samples)%Z ->
  Qabs (inject_Z kstar / inject_Z n_samples - t) <= 0.01 ->
  (Z.to_nat n_samples < fuel)%nat ->
  exists data g' m,
    create_dummy_data fuel n_samples t g = (Return data, g') /\
    mean (Frame.label_hypertension data) = Some m /\ Qabs (m - t) <= 0.01.
Proof.
  intros fuel n t g kstar d0 g0 H0 Hn Hk Hstar Hfuel.
  pose proof (before_adjustment_labels _ _ H0) as (_ & Hlen & Hb).
  assert (Hne : Frame.label_hypertension d0 <> []).
  { intro E. rewrite E in Hlen. simpl in Hlen. lia. }
  assert (HN : Z.of_nat (List.length (Frame.label_hypertension d0)) = n)
    by (rewrite Hlen; lia).
  pose proof (binary_sum_bounds Hb) as Hbd.
  destruct (@loop_terminates_within np (Z.to_nat n) t (Frame.label_hypertension d0) g0 kstar)
    with (fuel := fuel) as (label & g' & Hloop); auto; try (rewrite HN; assumption); try lia.
  pose proof (loop_returns_on_target _ _ _ _ Hloop) as (Hoff & Hl & _).
  assert (Hne' : label <> []).
  { intro E. subst. simpl in Hl. rewrite Hlen in Hl. lia. }
  exists (Frame.set_label_hypertension d0 label), g',
    (inject_Z (sum_Z label) / inject_Z (Z.of_nat (List.length label))).
  split; [| split].
  - rewrite create_dummy_data_split. unfold bind. rewrite H0.
    unfold adjust_prevalence, bind. rewrite Hloop. reflexivity.
  - cbn [Frame.set_label_hypertension Frame.label_hypertension]. apply mean_cons, Hne'.
  - apply off_target_false in Hoff; auto.
Qed.

(** Total correctness. For an even positive sample count whose outlier
    count [int(n_samples * 0.02)] is a multiple of four, and a target that
    some count of positives meets within 0.01, clear of the rounding of the
    double comparison, [create_dummy_data] returns a dataset, whatever the
    generator draws, once the loop is allowed [n_samples] iterations; the
    prevalence of the dataset is within 0.01 of the target. *)
Theorem create_dummy_data_returns : forall fuel n_samples t g kstar,
  (0 < n_samples)%Z -> (n_samples mod 2 = 0)%Z -> ((n_samples / 50) mod 4 = 0)%Z ->
  (0 <= kstar <= n_samples)%Z ->
  well_on_target kstar n_samples t ->
  (Z.to_nat n_samples < fuel)%nat ->
  exists data g' m,
    create_dummy_data fuel n_samples t g = (Return data, g') /\
    mean (Frame.label_hypertension data) = Some m /\ Qabs (m - t) <= 0.01.
Proof.
  intros fuel n t g kstar Hn Heven Hr Hk Hwell Hfuel.
  assert (Hstar : Qabs (inject_Z kstar / inject_Z n - t) <= 0.01).
  { unfold well_on_target, rounding_margin in Hwell. lra. }
  assert (Hn0 : (0 <= n)%Z) by lia.
  destruct (before_adjustment_returns g Hn0 Heven Hr) as (d0 & g0 & H0).
  exact (@adjustment_reaches_target fuel n t g kstar d0 g0 H0 Hn Hk Hstar Hfuel).
Qed.

End Totality.

Lemma odd_sample_count_raises_witness :
  (0 < 3)%Z /\ (3 mod 2 = 1)%Z /\
  exists g',
    create_dummy_data (np := Lcg.numpy) 10 3 0.29 0%Z =
      (Raise (ValueError "All arrays must be of the same length"), g').
Proof.
  assert (H1 : (0 < 3)%Z) by lia.
  assert (H2 : (3 mod 2 = 1)%Z) by reflexivity.
  split; [exact H1 | split; [exact H2 |]].
  exact (@odd_sample_count_raises Lcg.numpy 10 3 0.29 0%Z H1 H2).
Defined.

Lemma create_dummy_data_returns_witness :
  (0 < 4)%Z /\ (4 mod 2 = 0)%Z /\ ((4 / 50) mod 4 = 0)%Z /\ (0 <= 2 <= 4)%Z /\
  well_on_target 2 4 0.5 /\ (Z.to_nat 4 < 5)%nat /\
  exists data g' m,
    create_dummy_data (np := Lcg.numpy) 5 4 0.5 0%Z = (Return data, g') /\
    mean (Frame.label_hypertension data) = Some m /\ Qabs (m - 0.5) <= 0.01.
Proof.
  assert (H1 : (0 < 4)%Z) by lia.
  assert (H2 : (4 mod 2 = 0)%Z) by reflexivity.
  assert (H3 : ((4 / 50) mod 4 = 0)%Z) by reflexivity.
  assert (H4 : (0 <= 2 <= 4)%Z) by lia.
  assert (H5 : well_on_target 2 4 0.5) by (apply Qle_bool_imp_le; vm_compute; reflexivity).
  assert (H6 : (Z.to_nat 4 < 5)%nat) by (simpl; lia).
  repeat (split; [assumption |]).
  exact (@create_dummy_data_returns Lcg.numpy 5 4 0.5 0%Z 2 H1 H2 H3 H4 H5 H6).
Defined.

(** The call of [main]: 20000 samples and a target of 0.29. Whatever the
    generator draws, the call returns, after at most 20000 iterations of
    the loop, a dataset whose prevalence is within 0.01 of 0.29. *)
Theorem create_dummy_data_default_returns : forall (np : Numpy) (g : RandomState),
  exists data g' m,
    create_dummy_data (S (Z.to_nat 20000)) 20000 0.29 g = (Return data, g') /\
    mean (Frame.label_hypertension data) = Some m /\ Qabs (m - 0.29) <= 0.01.
Proof.
  intros np g.
  assert (Hn0 : (0 <= 20000)%Z) by lia.
  destruct (@before_adjustment_returns np 20000 g Hn0 eq_refl eq_refl) as (d0 & g0 & H0).
  apply (@adjustment_reaches_target np (S (Z.to_nat 20000)) 20000 0.29 g 5800 d0 g0 H0).
  - lia.
  - lia.
  - vm_compute. discriminate.
  - apply Nat.lt_succ_diag_r.
Qed.

(** ** Outlier injection on concrete frames *)

Lemma add_outliers_raises_unless_multiple_of_4_witness :
  (0 < 50)%Z /\ ((50 / 50) mod 4 <> 0)%Z /\
  List.length (Frame.weight_kg (blank_frame 50)) = Z.to_nat 50 /\
  List.length (Frame.height_cm (blank_frame 50)) = Z.to_nat 50 /\
  List.length (Frame.belly_circumference_cm (blank_frame 50)) = Z.to_nat 50 /\
  exists g',
    add_outliers (np := Lcg.numpy) 50 (blank_frame 50) 0%Z =
      (Raise (ValueError "Must have equal len keys and value when setting with an iterable"),
       g').
Proof.
  assert (H1 : (0 < 50)%Z) by lia.
  assert (H2 : ((50 / 50) mod 4 <> 0)%Z) by (intro E; discriminate E).
  assert (H3 : List.length (Frame.weight_kg (blank_frame 50)) = Z.to_nat 50)
    by reflexivity.
  assert (H4 : List.length (Frame.height_cm (blank_frame 50)) = Z.to_nat 50)
    by reflexivity.
  assert (H5 : List.length (Frame.belly_circumference_cm (blank_frame 50)) = Z.to_nat 50)
    by reflexivity.
  repeat (split; [assumption |]).
  exact (@add_outliers_raises_unless_multiple_of_4 Lcg.numpy 50 (blank_frame 50) 0%Z
           H1 H2 H3 H4 H5).
Defined.

Lemma add_outliers_when_multiple_of_4_witness :
  (0 < 200)%Z /\ ((200 / 50) mod 4 = 0)%Z /\
  List.length (Frame.weight_kg (blank_frame 200)) = Z.to_nat 200 /\
  List.length (Frame.height_cm (blank_frame 200)) = Z.to_nat 200 /\
  List.length (Frame.belly_circumference_cm (blank_frame 200)) = Z.to_nat 200 /\
  List.length (Frame.age (blank_frame 200)) = Z.to_nat 200 /\
  exists data' g' outlier_indices,
    add_outliers (np := Lcg.numpy) 200 (blank_frame 200) 0%Z = (Return data', g') /\
    NoDup outlier_indices /\
    List.length outlier_indices = 4%nat /\
    overwritten (Frame.age (blank_frame 200)) (Frame.age data')
      (slice 3 4 outlier_indices) [1; 2; 3; 120; 130; 140]%Z.
Proof.
  assert (H1 : (0 < 200)%Z) by lia.
  assert (H2 : ((200 / 50) mod 4 = 0)%Z) by reflexivity.
  assert (H3 : List.length (Frame.weight_kg (blank_frame 200)) = Z.to_nat 200)
    by reflexivity.
  assert (H4 : List.length (Frame.height_cm (blank_frame 200)) = Z.to_nat 200)
    by reflexivity.
  assert (H5 : List.length (Frame.belly_circumference_cm (blank_frame 200)) = Z.to_nat 200)
    by reflexivity.
  assert (H6 : List.length (Frame.age (blank_frame 200)) = Z.to_nat 200)
    by reflexivity.
  repeat (split; [assumption |]).
  destruct (@add_outliers_when_multiple_of_4 Lcg.numpy 200 (blank_frame 200) 0%Z
              H1 H2 H3 H4 H5 H6)
    as (data' & g' & oi & Hret & Hnd & Hlen & Hq & _).
  exists data', g', oi.
  split; [exact Hret |]. split; [exact Hnd |]. split; [exact Hlen |].
  destruct Hq as (_ & _ & _ & _ & Hage). exact Hage.
Defined.

(** ** The loop of step 11 flips labels one way *)

Lemma Forall2_same : forall (A : Type) (R : A -> A -> Prop) l,
  (forall x, R x x) -> Forall2 R l l.
Proof. intros A R l HR. induction l; constructor; auto. Qed.

Lemma Forall2_compose : forall (A : Type) (R : A -> A -> Prop) l1 l2 l3,
  (forall x y z, R x y -> R y z -> R x z) ->
  Forall2 R l1 l2 -> Forall2 R l2 l3 -> Forall2 R l1 l3.
Proof.
  intros A R l1 l2 l3 HR H12. revert l3.
  induction H12 as [|x y l1 l2 Hxy _ IH]; intros l3 H23; inversion H23; subst.
  - constructor.
  - constructor; [eapply HR; eauto | apply IH; assumption].
Qed.

Lemma set_at_Forall2 : forall (A : Type) (R : A -> A -> Prop) d col i v,
  (forall x, R x x) -> (i < List.length col)%nat -> R (nth i col d) v ->
  Forall2 R col (set_at i v col).
Proof.
  intros A R d col. induction col as [|x col IH]; intros i v HR Hi Hv; simpl in Hi.
  - lia.
  - destruct i as [|i]; simpl in *.
    + constructor; [exact Hv | apply Forall2_same, HR].
    + constructor; [apply HR | apply IH; auto; lia].
Qed.

Lemma mean_count : forall col col',
  List.length col = List.length col' -> sum_Z col = sum_Z col' -> mean col = mean col'.
Proof.
  intros col col' Hl Hs.
  destruct col as [|x l], col' as [|y l']; try discriminate Hl; [reflexivity |].
  rewrite !mean_cons by discriminate. rewrite Hl, Hs. reflexivity.
Qed.

Section OneWay.
Context {np : Numpy}.

Lemma sample_1_index_Return : forall labels g i g',
  sample_1_index labels g = (Return i, g') -> In i labels.
Proof.
  intros labels g i g' H. destruct labels as [|x l].
  - rewrite sample_1_index_empty in H. discriminate H.
  - assert (Hne : x :: l <> []) by discriminate.
    destruct (sample_1_index_nonempty g Hne) as (i' & g'' & E & Hin).
    rewrite E in H. inversion H; subst. exact Hin.
Qed.

(** One iteration of the loop that went on to return. *)
Lemma loop_step_inv : forall fuel t col g col' g',
  adjust_prevalence_loop (S fuel) t col g = (Return col', g') ->
  off_target (mean col) t = true ->
  exists i g1,
    (i < List.length col)%nat /\
    nth i col 0%Z = (if above_target (mean col) t then 1%Z else 0%Z) /\
    adjust_prevalence_loop fuel t
      (set_at i (if above_target (mean col) t then 0%Z else 1%Z) col) g1 = (Return col', g').
Proof.
  intros fuel t col g col' g' H Hoff. simpl in H. rewrite Hoff in H.
  destruct (above_target (mean col) t); inv_bind H;
    apply sample_1_index_Return, labels_where_In in E; destruct E as [Hi Hn];
    eexists; eexists; (split; [exact Hi |]); (split; [exact Hn |]); exact H.
Qed.

(** Two neighbouring counts, both off target, the higher above the target
    and the lower not above it: the loop goes from one to the other and
    never returns. *)
Lemma loop_oscillates : forall t hi lo,
  List.length lo = List.length hi -> sum_Z lo = (sum_Z hi - 1)%Z ->
  off_target (mean hi) t = true -> above_target (mean hi) t = true ->
  off_target (mean lo) t = true -> above_target (mean lo) t = false ->
  forall fuel col g col' g',
  binary col -> List.length col = List.length hi ->
  sum_Z col = sum_Z hi \/ sum_Z col = sum_Z lo ->
  adjust_prevalence_loop fuel t col g <> (Return col', g').
Proof.
  intros t hi lo Hl Hs Oh Ah Ol Al.
  induction fuel as [|fuel IH]; intros col g col' g' Hb Hlen Hsum H.
  - discriminate H.
  - destruct Hsum as [E | E].
    + assert (Hm : mean col = mean hi) by (apply mean_count; assumption).
      apply loop_step_inv in H; [| rewrite Hm; exact Oh].
      rewrite Hm, Ah in H. destruct H as (i & g1 & Hi & Hn & H).
      apply IH in H; [exact H | | |].
      * apply set_at_binary; auto.
      * rewrite set_at_length. exact Hlen.
      * right. rewrite sum_Z_set_at by exact Hi. lia.
    + assert (Hm : mean col = mean lo) by (apply mean_count; congruence).
      apply loop_step_inv in H; [| rewrite Hm; exact Ol].
      rewrite Hm, Al in H. destruct H as (i & g1 & Hi & Hn & H).
      apply IH in H; [exact H | | |].
      * apply set_at_binary; auto.
      * rewrite set_at_length. exact Hlen.
      * left. rewrite sum_Z_set_at by exact Hi. lia.
Qed.

Lemma lowered_trans : forall x y z, lowered x y -> lowered y z -> lowered x z.
Proof. unfold lowered. intros x y z H1 H2. lia. Qed.

Lemma raised_trans : forall x y z, raised x y -> raised y z -> raised x z.
Proof. unfold raised. intros x y z H1 H2. lia. Qed.

Lemma loop_only_lowers : forall fuel t col g col' g',
  binary col -> above_target (mean col) t = true ->
  adjust_prevalence_loop fuel t col g = (Return col', g') ->
  Forall2 lowered col col'.
Proof.
  induction fuel as [|fuel IH]; intros t col g col' g' Hb Ha H.
  - discriminate H.
  - destruct (off_target (mean col) t) eqn:Hoff.
    + pose proof (loop_step_inv _ _ _ _ H Hoff) as (i & g1 & Hi & Hn & Hloop).
      rewrite Ha in Hn, Hloop.
      assert (Hstep : Forall2 lowered col (set_at i 0%Z col)).
      { apply set_at_Forall2 with (d := 0%Z); auto.
        - intro x. left. reflexivity.
        - right. split; [exact Hn | reflexivity]. }
      assert (Hb1 : binary (set_at i 0%Z col)) by (apply set_at_binary; auto).
      destruct (off_target (mean (set_at i 0%Z col)) t) eqn:O1.
      * destruct (above_target (mean (set_at i 0%Z col)) t) eqn:A1.
        -- eapply Forall2_compose; [exact lowered_trans | exact Hstep |].
           eapply IH; eauto.
        -- exfalso. revert Hloop.
           apply (@loop_oscillates t col (set_at i 0%Z col)); auto.
           ++ apply set_at_length.
           ++ rewrite sum_Z_set_at by exact Hi. lia.
           ++ apply set_at_length.
      * destruct fuel as [|fuel]; [discriminate Hloop |].
        rewrite loop_on_target in Hloop by exact O1.
        inversion Hloop; subst. exact Hstep.
    + rewrite loop_on_target in H by exact Hoff. inversion H; subst.
      apply Forall2_same. intro x. left. reflexivity.
Qed.

Lemma loop_only_raises : forall fuel t col g col' g',
  binary col -> above_target (mean col) t = false ->
  adjust_prevalence_loop fuel t col g = (Return col', g') ->
  Forall2 raised col col'.
Proof.
  induction fuel as [|fuel IH]; intros t col g col' g' Hb Ha H.
  - discriminate H.
  - destruct (off_target (mean col) t) eqn:Hoff.
    + pose proof (loop_step_inv _ _ _ _ H Hoff) as (i & g1 & Hi & Hn & Hloop).
      rewrite Ha in Hn, Hloop.
      assert (Hstep : Forall2 raised col (set_at i 1%Z col)).
      { apply set_at_Forall2 with (d := 0%Z); auto.
        - intro x. left. reflexivity.
        - right. split; [exact Hn | reflexivity]. }
      assert (Hb1 : binary (set_at i 1%Z col)) by (apply set_at_binary; auto).
      destruct (off_target (mean (set_at i 1%Z col)) t) eqn:O1.
      * destruct (above_target (mean (set_at i 1%Z col)) t) eqn:A1.
        -- exfalso. revert Hloop.
           apply (@loop_oscillates t (set_at i 1%Z col) col); auto.
           ++ rewrite set_at_length. reflexivity.
           ++ rewrite sum_Z_set_at by exact Hi. lia.
        -- eapply Forall2_compose; [exact raised_trans | exact Hstep |].
           eapply IH; eauto.
      * destruct fuel as [|fuel]; [discriminate Hloop |].
        rewrite loop_on_target in Hloop by exact O1.
        inversion Hloop; subst. exact Hstep.
    + rewrite loop_on_target in H by exact Hoff. inversion H; subst.
      apply Forall2_same. intro x. left. reflexivity.
Qed.

(** When the loop of step 11 returns, it has flipped labels in one
    direction only: from 1 to 0 if the prevalence started above the target,
    from 0 to 1 otherwise.  No label is flipped and flipped back, so the
    number of labels that differ is the difference of the two counts. *)
Theorem calibration_flips_one_way : forall fuel t col g col' g',
  binary col ->
  adjust_prevalence_loop fuel t col g = (Return col', g') ->
  (if above_target (mean col) t
   then Forall2 lowered col col'
   else Forall2 raised col col').
Proof.
  intros fuel t col g col' g' Hb H.
  destruct (above_target (mean col) t) eqn:Ha.
  - eapply loop_only_lowers; eauto.
  - eapply loop_only_raises; eauto.
Qed.

End OneWay.

Lemma calibration_flips_one_way_witness :
  binary [1; 1; 1; 1]%Z /\
  adjust_prevalence_loop (np := Lcg.numpy) 10 0.5 [1; 1; 1; 1]%Z 7%Z =
    (Return [0; 1; 0; 1]%Z, 642666333%Z) /\
  (if above_target (mean [1; 1; 1; 1]%Z) 0.5
   then Forall2 lowered [1; 1; 1; 1]%Z [0; 1; 0; 1]%Z
   else Forall2 raised [1; 1; 1; 1]%Z [0; 1; 0; 1]%Z).
Proof.
  assert (H1 : binary [1; 1; 1; 1]%Z) by solve_binary.
  assert (H2 : adjust_prevalence_loop (np := Lcg.numpy) 10 0.5 [1; 1; 1; 1]%Z 7%Z =
               (Return [0; 1; 0; 1]%Z, 642666333%Z)) by (vm_compute; reflexivity).
  split; [exact H1 | split; [exact H2 |]].
  exact (@calibration_flips_one_way Lcg.numpy 10 0.5 [1; 1; 1; 1]%Z 7%Z _ _ H1 H2).
Defined.

(** ** [split_data]: every outcome *)

Section SplitOutcomes.
Context {env : SplitEnv}.

Lemma fuel_free_print : forall line, fuel_free (print line).
Proof. intros line w. discriminate. Qed.

Lemma fuel_free_to_csv : forall df path, fuel_free (to_csv df path).
Proof. intros df path w. discriminate. Qed.

Lemma fuel_free_call : forall (A : Type) (r : exn + A), fuel_free (call (A := A) r).
Proof. intros A [e | a] w; discriminate. Qed.

Lemma fuel_free_percent : forall part whole, fuel_free (percent part whole).
Proof. intros part whole w. unfold percent. destruct (whole =? 0)%nat; discriminate. Qed.

Lemma fuel_free_try_except : forall (A : Type) (m : IO A) (h : exn -> IO A),
  fuel_free m -> (forall e, fuel_free (h e)) -> fuel_free (try_except m h).
Proof.
  intros A m h Hm Hh w. unfold try_except. specialize (Hm w).
  destruct (m w) as [[a | e |] w1]; simpl in *.
  - discriminate.
  - apply Hh.
  - congruence.
Qed.

Ltac io_step :=
  first
    [ apply fuel_free_ret
    | apply fuel_free_raise
    | apply fuel_free_print
    | apply fuel_free_to_csv
    | apply fuel_free_call
    | apply fuel_free_percent
    | apply fuel_free_try_except; [| intro]
    | apply fuel_free_bind; [| intro]
    | match goal with
      | |- fuel_free (match ?b with _ => _ end) => destruct b
      end ].

Lemma fuel_free_split_and_save : forall input_folder random_state df,
  fuel_free (split_and_save input_folder random_state df).
Proof. intros. unfold split_and_save. cbv zeta. repeat io_step. Qed.

Lemma fuel_free_split_data : forall input_folder input_filename random_state,
  fuel_free (split_data input_folder input_filename random_state).
Proof.
  intros. unfold split_data. cbv zeta.
  destruct (pd_read_csv (os_path_join input_folder input_filename)) as [e | df].
  - destruct e; repeat io_step.
  - apply fuel_free_bind; [apply fuel_free_print | intro].
    apply fuel_free_bind; [apply fuel_free_print | intro].
    apply fuel_free_try_except; [apply fuel_free_split_and_save | intro].
    apply fuel_free_bind; [apply fuel_free_print | intro; apply fuel_free_raise].
Qed.

Lemma print_Return : forall line w (u : unit) w',
  print line w = (Return u, w') ->
  stdout w' = stdout w ++ [line] /\ written w' = written w.
Proof. intros line w u w' H. unfold print in H. inversion H; subst. simpl. auto. Qed.

Lemma to_csv_Return : forall df path w (u : unit) w',
  to_csv df path w = (Return u, w') ->
  stdout w' = stdout w /\ written w' = written w ++ [(path, df)].
Proof. intros df path w u w' H. unfold to_csv in H. inversion H; subst. simpl. auto. Qed.

Lemma call_Return : forall (A : Type) (r : exn + A) w a w',
  call r w = (Return a, w') -> r = inr a /\ w' = w.
Proof.
  intros A [e | x] w a w' H; unfold call, raise, ret in H; inversion H; subst. auto.
Qed.

Lemma percent_Return : forall part whole w q w',
  percent part whole w = (Return q, w') -> whole <> O /\ w' = w.
Proof.
  intros part whole w q w' H. unfold percent in H.
  destruct (whole =? 0)%nat eqn:E; unfold raise, ret in H; inversion H; subst.
  apply Nat.eqb_neq in E. auto.
Qed.

(** What a returning second block has done. *)
Lemma split_and_save_Return : forall input_folder random_state df w r w',
  split_and_save input_folder random_state df w = (Return r, w') ->
  exists stratify train_data test_data,
    df_getitem df "label_hypertension" = inr stratify /\
    train_test_split df 0.3 random_state stratify = inr (train_data, test_data) /\
    r = Some (train_data, test_data) /\
    df_len df <> O /\
    written w' = written w ++
      [(os_path_join input_folder "train_data.csv", train_data);
       (os_path_join input_folder "test_data.csv", test_data)].
Proof.
  intros input_folder random_state df w r w' H. unfold split_and_save in H.
  cbv zeta in H.
  inv_bind H. apply call_Return in E. destruct E as [Hs ?]; subst.
  inv_bind H. apply call_Return in E. destruct E as [Hp ?]; subst.
  inv_bind H. apply to_csv_Return in E. destruct E as [_ W1].
  inv_bind H. apply to_csv_Return in E. destruct E as [_ W2].
  inv_bind H. apply print_Return in E. destruct E as [_ W3].
  inv_bind H. apply percent_Return in E. destruct E as [Hne ?]; subst.
  inv_bind H. apply print_Return in E. destruct E as [_ W4].
  inv_bind H. apply percent_Return in E. destruct E as [_ ?]; subst.
  inv_bind H. apply print_Return in E. destruct E as [_ W5].
  inv_bind H. apply call_Return in E. destruct E as [_ ?]; subst.
  inv_bind H. apply call_Return in E. destruct E as [_ ?]; subst.
  inv_bind H. apply call_Return in E. destruct E as [_ ?]; subst.
  inv_bind H. apply call_Return in E. destruct E as [_ ?]; subst.
  inv_bind H. apply print_Return in E. destruct E as [_ W6].
  inv_bind H. apply print_Return in E. destruct E as [_ W7].
  inv_bind H. apply print_Return in E. destruct E as [_ W8].
  inv_bind H. apply print_Return in E. destruct E as [_ W9].
  inv_bind H. apply print_Return in E. destruct E as [_ W10].
  inv_bind H. apply print_Return in E. destruct E as [_ W11].
  apply ret_Return in H. destruct H as [Hr ?]; subst.
  destruct a0 as [train_data test_data]. simpl in *.
  exists a, train_data, test_data.
  split; [exact Hs |]. split; [exact Hp |]. split; [reflexivity |].
  split; [exact Hne |].
  rewrite W11, W10, W9, W8, W7, W6, W5, W4, W3, W2, W1, <- app_assoc. reflexivity.
Qed.

(** Every call of [split_data] ends in one of three ways.
    - The file could not be read: one line is printed (the file-not-found
      line for a [FileNotFoundError], the loading-error line for any other
      exception), nothing is written, and [None] is returned.
    - The file was read and the second block went through: the table was
      split by [train_test_split] with [test_size = 0.3], the given
      [random_state] and the [label_hypertension] column as [stratify]; the
      two parts are returned, and were written, train first, to
      [train_data.csv] and [test_data.csv] of the input folder.
    - The file was read and the second block raised: the exception leaves
      [split_data] after the line "Error during data splitting: ..." was
      printed. *)
Theorem split_data_outcomes :
  forall (input_folder input_filename : string) (random_state : Z) (w : World),
  let input_path := os_path_join input_folder input_filename in
  (exists e,
     pd_read_csv input_path = inl e /\
     split_data input_folder input_filename random_state w =
       (Return None,
        {| stdout := stdout w ++
             [match e with
              | FileNotFoundError _ => ("Error: File not found at " ++ input_path)%string
              | _ => ("Error loading CSV file: " ++ exn_str e)%string
              end];
           written := written w |})) \/
  (exists df stratify train_data test_data w',
     pd_read_csv input_path = inr df /\
     df_getitem df "label_hypertension" = inr stratify /\
     train_test_split df 0.3 random_state stratify = inr (train_data, test_data) /\
     split_data input_folder input_filename random_state w =
       (Return (Some (train_data, test_data)), w') /\
     written w' = written w ++
       [(os_path_join input_folder "train_data.csv", train_data);
        (os_path_join input_folder "test_data.csv", test_data)]) \/
  (exists df e w',
     pd_read_csv input_path = inr df /\
     split_data input_folder input_filename random_state w = (Raise e, w') /\
     last (stdout w') EmptyString = ("Error during data splitting: " ++ exn_str e)%string).
Proof.
  intros input_folder input_filename random_state w input_path.
  destruct (pd_read_csv input_path) as [e | df] eqn:Hread.
  - left. exists e. split; [reflexivity |].
    unfold split_data. fold input_path. rewrite Hread. destruct e; reflexivity.
  - right.
    set (w1 := {| stdout := (stdout w ++
                    [("Data loaded successfully from: " ++ input_path)%string]) ++
                    [("Total records: " ++ str_of_nat (df_len df))%string];
                  written := written w |}).
    assert (Hsd : split_data input_folder input_filename random_state w =
                  match split_and_save input_folder random_state df w1 with
                  | (Raise e, w2) =>
                      (Raise e,
                       {| stdout := stdout w2 ++
                            [("Error during data splitting: " ++ exn_str e)%string];
                          written := written w2 |})
                  | r => r
                  end).
    { unfold split_data. fold input_path. rewrite Hread.
      unfold bind at 1. cbn [print]. unfold bind at 1. cbn [print stdout written].
      fold w1. unfold try_except.
      destruct (split_and_save input_folder random_state df w1) as [[r | e |] w2];
        reflexivity. }
    rewrite Hsd.
    destruct (split_and_save input_folder random_state df w1) as [[r | e |] w2] eqn:Hs.
    + left. apply split_and_save_Return in Hs.
      destruct Hs as (stratify & train_data & test_data & H1 & H2 & Hr & _ & Hw).
      subst r. exists df, stratify, train_data, test_data, w2.
      repeat (split; [reflexivity || assumption |]). exact Hw.
    + right. exists df, e. eexists. split; [reflexivity |]. split; [reflexivity |].
      cbn [stdout]. apply last_last.
    + exfalso. pose proof (@fuel_free_split_and_save input_folder random_state df w1) as F.
      rewrite Hs in F. apply F. reflexivity.
Qed.

(** The script's [main] ends normally on every file system and for every
    behaviour of pandas and scikit-learn: whatever [split_data] raises, and
    the [TypeError] of unpacking its [None], is caught and printed. *)
Theorem split_main_ends_normally : forall w : World,
  exists w', split_main w = (Return tt, w').
Proof.
  intro w. unfold split_main, try_except.
  pose proof (@fuel_free_split_data "dataset" "dummy_data.csv" 42%Z w) as F.
  unfold bind at 1.
  destruct (split_data "dataset" "dummy_data.csv" 42 w) as [[r | e |] w1] eqn:Hs.
  - destruct r as [parts |]; eexists; reflexivity.
  - eexists; reflexivity.
  - exfalso. apply F. reflexivity.
Qed.

End SplitOutcomes.

(** ** Worse habits never lower the risk *)

Lemma clip_mono : forall x y lo hi, x <= y -> clip x lo hi <= clip y lo hi.
Proof.
  intros x y lo hi H. unfold clip.
  apply Q.min_le_compat_r, Q.max_le_compat_r, H.
Qed.

Lemma lifestyle_points_mono : forall row sm ex sa su,
  no_better row sm ex sa su ->
  lifestyle_points row <= lifestyle_points (with_habits row sm ex sa su).
Proof.
  intros row sm ex sa su (Hsm & Hex & Hsa & Hsu).
  unfold lifestyle_points, is_young, with_habits.
  cbn [age smoking_status exercise_frequency salt_consumption sugar_consumption].
  repeat apply Qplus_le_compat.
  - lra.
  - destruct (age row <? 35)%Z, (salt_consumption row), sa; cbn [Level_eqb];
      try lra; discriminate (Hsa eq_refl).
  - destruct (age row <? 35)%Z, (sugar_consumption row), su; cbn [Level_eqb];
      try lra; discriminate (Hsu eq_refl).
  - destruct (age row <? 35)%Z, (exercise_frequency row), ex; cbn [Level_eqb];
      try lra; discriminate (Hex eq_refl).
  - destruct (age row <? 35)%Z, (smoking_status row), sm; cbn [Smoking_eqb];
      cbn [smoking_rank] in Hsm; try lra; lia.
Qed.

Lemma lifestyle_score_mono : forall row sm ex sa su,
  no_better row sm ex sa su ->
  lifestyle_score row <= lifestyle_score (with_habits row sm ex sa su).
Proof.
  intros row sm ex sa su H. apply lifestyle_points_mono in H.
  unfold lifestyle_score.
  change (is_young (with_habits row sm ex sa su)) with (is_young row).
  apply clip_mono.
  destruct (is_young row); apply Qmult_le_compat_r; try exact H;
    apply Qinv_le_0_compat; lra.
Qed.

(** With the other scores fixed, the risk grows with the lifestyle score. *)
Lemma risk_grows_with_lifestyle_score : forall row row',
  is_young row' = is_young row ->
  genetic_score row' = genetic_score row ->
  health_score row' = health_score row ->
  family_history row' = family_history row ->
  lifestyle_score row <= lifestyle_score row' ->
  risk_before_noise row <= risk_before_noise row'.
Proof.
  intros row row' Hy Hg Hh Hf HL.
  unfold risk_before_noise, weighted_risk, combined_bonus, family_bonus.
  rewrite Hy, Hg, Hh, Hf.
  generalize dependent (lifestyle_score row'). intros L' HL.
  generalize dependent (lifestyle_score row). intros L HL.
  generalize (genetic_score row) (health_score row). intros G H.
  destruct (is_young row).
  - destruct (Qgtb L 0.6) eqn:E1, (Qgtb L' 0.6) eqn:E2, (Qgtb H 0.6),
      (family_history row =? 1)%Z; cbn [andb];
      try apply Qgtb_true in E1; try apply Qgtb_false in E1;
      try apply Qgtb_true in E2; try apply Qgtb_false in E2; lra.
  - destruct (Qgtb L 0.7) eqn:E1, (Qgtb L' 0.7) eqn:E2, (Qgtb H 0.7),
      (family_history row =? 1)%Z; cbn [andb];
      try apply Qgtb_true in E1; try apply Qgtb_false in E1;
      try apply Qgtb_true in E2; try apply Qgtb_false in E2; lra.
Qed.

Section RiskOrder.
Context {np : Numpy}.

(** Changing a row's habits for the worse (more smoking, less exercise,
    more salt, more sugar, everything else as it was) never lowers the risk
    [calculate_risk] returns on the same draw of the noise, for a row whose
    height lets line 91 compute the BMI. *)
Theorem worse_habits_never_lower_risk :
  forall (row : Row) (sm : Smoking) (ex sa su : Level) (g : RandomState),
  height_in_float_range (height_cm row) ->
  no_better row sm ex sa su ->
  exists risk risk' g',
    calculate_risk row g = (Return risk, g') /\
    calculate_risk (with_habits row sm ex sa su) g = (Return risk', g') /\
    risk <= risk'.
Proof.
  intros row sm ex sa su g _ H.
  rewrite !calculate_risk_returns.
  eexists. eexists. eexists. split; [reflexivity |]. split; [reflexivity |].
  apply clip_mono. apply Qplus_le_compat; [| lra].
  apply risk_grows_with_lifestyle_score; try reflexivity.
  apply lifestyle_score_mono, H.
Qed.

End RiskOrder.

Lemma worse_habits_never_lower_risk_witness :
  height_in_float_range (height_cm careful_row) /\
  no_better careful_row smoker low high high /\
  exists risk risk' g',
    calculate_risk (np := Lcg.numpy) careful_row 0%Z = (Return risk, g') /\
    calculate_risk (np := Lcg.numpy) (with_habits careful_row smoker low high high) 0%Z =
      (Return risk', g') /\
    risk <= risk'.
Proof.
  assert (Hh : height_in_float_range (height_cm careful_row)).
  { unfold height_in_float_range. split; apply Qle_bool_imp_le; vm_compute; reflexivity. }
  assert (H : no_better careful_row smoker low high high).
  { unfold no_better, careful_row. cbn. repeat split; auto; intro E; discriminate E. }
  split; [exact Hh |]. split; [exact H |].
  exact (@worse_habits_never_lower_risk Lcg.numpy careful_row smoker low high high 0%Z
           Hh H).
Defined.

(** ** [merge_csv.py] *)

Section MergeProperties.
Import MergeCsv.
Context {env : MergeCsv.Env}.

Lemma merge_print_names : forall csv_files w,
  exists out,
    print_names csv_files w =
      (Return tt, {| stdout := stdout w ++ out; files := files w |}).
Proof.
  induction csv_files as [|file rest IH]; intro w; simpl.
  - exists []. unfold ret. rewrite app_nil_r. destruct w; reflexivity.
  - unfold bind at 1. cbn [print].
    match goal with |- context [print_names rest ?w1] =>
      destruct (IH w1) as (out & E); rewrite E end. cbn [stdout files]. eexists. rewrite <- app_assoc. reflexivity.
Qed.

Lemma load_files_spec : forall csv_files dfs w,
  exists out,
    load_files csv_files dfs w =
      (Return (dfs ++ readable csv_files (files w)),
       {| stdout := stdout w ++ out; files := files w |}) /\
    List.length out = List.length csv_files.
Proof.
  induction csv_files as [|file rest IH]; intros dfs w; simpl.
  - exists []. unfold ret. rewrite !app_nil_r. destruct w; auto.
  - unfold bind at 1, try_except, bind at 1, read.
    destruct (pd_read_csv file (files w)) as [e | df].
    + unfold bind at 1. cbn [print]. unfold ret at 1.
      match goal with |- context [load_files rest dfs ?w1] =>
        destruct (IH dfs w1) as (out & E & L); rewrite E end.
      cbn [stdout files]. eexists. rewrite <- app_assoc. split; [reflexivity |].
      simpl. rewrite L. reflexivity.
    + unfold bind at 1. cbn [print]. unfold ret at 1.
      match goal with |- context [load_files rest (dfs ++ [df]) ?w1] =>
        destruct (IH (dfs ++ [df]) w1) as (out & E & L); rewrite E end.
      cbn [stdout files]. eexists. rewrite <- !app_assoc. split; [reflexivity |].
      simpl. rewrite L. reflexivity.
Qed.

Lemma bind_Return_eq : forall (A B : Type) (m : IO A) (k : A -> IO B) w a w1,
  m w = (Return a, w1) -> bind m k w = k a w1.
Proof. intros A B m k w a w1 H. unfold bind. rewrite H. reflexivity. Qed.

Lemma bind_Raise_eq : forall (A B : Type) (m : IO A) (k : A -> IO B) w e w1,
  m w = (Raise e, w1) -> bind m k w = (Raise e, w1).
Proof. intros A B m k w e w1 H. unfold bind. rewrite H. reflexivity. Qed.

(** The first statement of [merge_csv_files]: the output folder is created
    when it is not there. *)
Lemma output_folder_step : forall (A : Type) output_folder (k : IO A) w fs,
  with_output_folder output_folder (files w) = inr fs ->
  exists out,
    (present <- look (os_path_exists output_folder) ;;
     (if negb present
      then (change (os_makedirs output_folder) ;;
            print ("Created directory: " ++ output_folder))
      else ret tt) ;;
     k) w = k {| stdout := stdout w ++ out; files := fs |}.
Proof.
  intros A output_folder k w fs H. unfold with_output_folder in H.
  unfold bind at 1, look.
  destruct (os_path_exists output_folder (files w)); cbn [negb].
  - inversion H; subst fs. exists []. unfold bind, ret. rewrite app_nil_r.
    destruct w; reflexivity.
  - unfold bind at 1. unfold bind at 1. unfold change. rewrite H.
    cbn [print stdout files]. eexists. reflexivity.
Qed.

Lemma merge_csv_files_unfold :
  forall (input_folder output_folder output_filename : string) (w : World) (fs : Files),
  with_output_folder output_folder (files w) = inr fs ->
  exists out,
    merge_csv_files input_folder output_folder output_filename w =
      match readable (glob (os_path_join input_folder "*.csv") fs) fs with
      | [] => (Return None, {| stdout := stdout w ++ out; files := fs |})
      | df :: dfs =>
          write_merged output_folder output_filename (df :: dfs)
            {| stdout := stdout w ++ out; files := fs |}
      end.
Proof.
  intros input_folder output_folder output_filename w fs Hfolder.
  unfold merge_csv_files.
  match goal with
  | |- context [bind (look (os_path_exists output_folder)) (fun present => bind _ (fun _ => ?k))] =>
      destruct (output_folder_step output_folder k w Hfolder) as (out0 & Hstep)
  end.
  rewrite Hstep. clear Hstep.
  set (w0 := {| stdout := stdout w ++ out0; files := fs |}).
  unfold bind at 1, look. cbn [files w0].
  set (csv_files := glob (os_path_join input_folder "*.csv") fs).
  assert (Hload : forall w1, files w1 = fs ->
            exists out, load_files csv_files [] w1 =
              (Return (readable csv_files fs), {| stdout := stdout w1 ++ out; files := fs |})).
  { intros w1 Hw1. destruct (load_files_spec csv_files [] w1) as (out & E & _).
    rewrite Hw1 in E. exists out. exact E. }
  destruct csv_files as [|file rest] eqn:Hglob.
  - cbn [readable]. unfold bind, print, ret. cbn [stdout files w0].
    eexists. rewrite <- app_assoc. reflexivity.
  - cbv iota. rewrite <- Hglob in *. clear Hglob.
    unfold bind at 1. cbn [print]. unfold bind at 1.
    match goal with |- context [print_names csv_files ?w1] =>
      destruct (merge_print_names csv_files w1) as (out1 & E1) end.
    rewrite E1. cbn [stdout files w0]. unfold bind at 1.
    match goal with |- context [load_files csv_files [] ?w2] =>
      destruct (Hload w2 eq_refl) as (out2 & E2) end.
    rewrite E2. cbn [stdout files].
    destruct (readable csv_files fs) as [|df dfs].
    + unfold bind, print, ret. cbn [stdout files].
      eexists. rewrite <- !app_assoc. reflexivity.
    + fold (write_merged output_folder output_filename (df :: dfs)).
      eexists. rewrite <- !app_assoc. reflexivity.
Qed.

(** [merge_csv_files] once the output folder is there, [fs] being the file
    system then.  The files the pattern matches are read in the order glob
    gives them, and a file that cannot be read is skipped.
    - When no file is matched or none can be read, [None] is returned; the
      output folder has been created all the same.
    - Otherwise the tables read are concatenated and written to
      [output_folder/output_filename], and that path is returned.
    - An exception of [pd.concat] or of [to_csv] leaves the function. *)
Theorem merge_csv_files_outcomes :
  forall (input_folder output_folder output_filename : string) (w : World) (fs : Files),
  with_output_folder output_folder (files w) = inr fs ->
  (readable (glob (os_path_join input_folder "*.csv") fs) fs = [] ->
   exists w',
     merge_csv_files input_folder output_folder output_filename w = (Return None, w') /\
     files w' = fs) /\
  (forall merged_df,
     readable (glob (os_path_join input_folder "*.csv") fs) fs <> [] ->
     pd_concat (readable (glob (os_path_join input_folder "*.csv") fs) fs) = inr merged_df ->
     (forall fs',
        df_to_csv merged_df (os_path_join output_folder output_filename) fs = inr fs' ->
        exists w',
          merge_csv_files input_folder output_folder output_filename w =
            (Return (Some (os_path_join output_folder output_filename)), w') /\
          files w' = fs') /\
     (forall e,
        df_to_csv merged_df (os_path_join output_folder output_filename) fs = inl e ->
        exists w',
          merge_csv_files input_folder output_folder output_filename w = (Raise e, w') /\
          files w' = fs)) /\
  (forall e,
     readable (glob (os_path_join input_folder "*.csv") fs) fs <> [] ->
     pd_concat (readable (glob (os_path_join input_folder "*.csv") fs) fs) = inl e ->
     exists w',
       merge_csv_files input_folder output_folder output_filename w = (Raise e, w') /\
       files w' = fs).
Proof.
  intros input_folder output_folder output_filename w fs Hfolder.
  destruct (merge_csv_files_unfold input_folder output_folder output_filename w Hfolder)
    as (out & Heq).
  rewrite Heq. clear Heq.
  destruct (readable (glob (os_path_join input_folder "*.csv") fs) fs) as [|df dfs].
  - split; [| split].
    + intros _. eexists. split; reflexivity.
    + intros merged_df Hne. exfalso. apply Hne. reflexivity.
    + intros e Hne. exfalso. apply Hne. reflexivity.
  - split; [| split].
    + intro C. discriminate C.
    + intros merged_df _ Hc. split.
      * intros fs' Hw. unfold write_merged, bind, read, change. cbv beta.
        rewrite Hc. cbn [files]. rewrite Hw. eexists. split; reflexivity.
      * intros e Hw. unfold write_merged, bind, read, change. cbv beta.
        rewrite Hc. cbn [files]. rewrite Hw. eexists. split; reflexivity.
    + intros e _ Hc. unfold write_merged, bind, read. cbv beta. rewrite Hc.
      eexists. split; reflexivity.
Qed.

(** [check_duplicates] on a file that was read. *)
Lemma check_duplicates_unfold : forall csv_path output_folder remove_duplicates w df,
  pd_read_csv csv_path (files w) = inr df ->
  exists out,
    check_duplicates csv_path output_folder remove_duplicates w =
      if (len df =? 0)%nat
      then (Raise (OtherError "division by zero"),
            {| stdout := stdout w ++ out; files := files w |})
      else if remove_duplicates && (0 <? len (duplicated_rows df))%nat
      then match df_to_csv (drop_duplicates df)
                   (no_duplicates_path csv_path output_folder) (files w) with
           | inl e =>
               (Raise e,
                {| stdout := (stdout w ++ out)
                     ++ [("Duplicate percentage: "
                          ++ format_2f (inject_Z (Z.of_nat (len (duplicated_rows df)))
                                        / inject_Z (Z.of_nat (len df)) * 100)
                          ++ "%")%string];
                   files := files w |})
           | inr fs' =>
               (Return (len df, len (duplicated_rows df),
                        Some (no_duplicates_path csv_path output_folder)),
                {| stdout := (stdout w ++ out)
                     ++ [("Duplicate percentage: "
                          ++ format_2f (inject_Z (Z.of_nat (len (duplicated_rows df)))
                                        / inject_Z (Z.of_nat (len df)) * 100)
                          ++ "%")%string;
                         (nl ++ "Duplicates removed:")%string;
                         ("Original rows: " ++ str (len df))%string;
                         ("Rows after deduplication: "
                          ++ str (len (drop_duplicates df)))%string;
                         ("Deduplicated file saved as: "
                          ++ no_duplicates_path csv_path output_folder)%string];
                   files := fs' |})
           end
      else (Return (len df, len (duplicated_rows df), None),
            {| stdout := (stdout w ++ out)
                 ++ [("Duplicate percentage: "
                      ++ format_2f (inject_Z (Z.of_nat (len (duplicated_rows df)))
                                    / inject_Z (Z.of_nat (len df)) * 100)
                      ++ "%")%string];
               files := files w |}).
Proof.
  intros csv_path output_folder remove_duplicates w df Hread.
  exists [(nl ++ "Checking duplicates in: " ++ csv_path)%string;
          (nl ++ "Duplicate Analysis:")%string;
          ("Total rows: " ++ str (len df))%string;
          ("Duplicate rows: " ++ str (len (duplicated_rows df)))%string].
  unfold check_duplicates, no_duplicates_path.
  unfold bind at 1. unfold print at 1.
  unfold bind at 1. unfold read at 1. cbn [files]. rewrite Hread.
  cbv zeta.
  unfold bind at 1. unfold print at 1.
  unfold bind at 1. unfold print at 1.
  unfold bind at 1. unfold print at 1.
  unfold bind at 1. unfold percentage.
  cbn [stdout files].
  replace ((((stdout w ++ [(nl ++ "Checking duplicates in: " ++ csv_path)%string])
              ++ [(nl ++ "Duplicate Analysis:")%string])
             ++ [("Total rows: " ++ str (len df))%string])
            ++ [("Duplicate rows: " ++ str (len (duplicated_rows df)))%string])
    with (stdout w ++
          [(nl ++ "Checking duplicates in: " ++ csv_path)%string;
           (nl ++ "Duplicate Analysis:")%string;
           ("Total rows: " ++ str (len df))%string;
           ("Duplicate rows: " ++ str (len (duplicated_rows df)))%string])
    by (rewrite <- !app_assoc; reflexivity).
  destruct (len df =? 0)%nat.
  - reflexivity.
  - unfold ret at 1. unfold bind at 1. unfold print at 1. cbn [stdout files].
    destruct (remove_duplicates && (0 <? len (duplicated_rows df))%nat).
    + destruct (os_path_splitext (os_path_basename csv_path)) as [base ext].
      cbn [fst snd]. unfold bind at 1. unfold change at 1. cbn [files].
      destruct (df_to_csv (drop_duplicates df)
                  (os_path_join output_folder (base ++ "_no_duplicates" ++ ext)) (files w))
        as [e | fs'].
      * reflexivity.
      * unfold bind, print, ret. cbn [stdout files].
        rewrite <- !app_assoc. reflexivity.
    + reflexivity.
Qed.

(** How [check_duplicates] fails.  An exception of [pd.read_csv] is not
    caught: it leaves the function after the first line was printed.  A
    table without rows makes the percentage a division by zero, whatever
    [remove_duplicates] is; nothing has been written then. *)
Theorem check_duplicates_failures :
  forall (csv_path output_folder : string) (remove_duplicates : bool) (w : World),
  (forall e,
     pd_read_csv csv_path (files w) = inl e ->
     check_duplicates csv_path output_folder remove_duplicates w =
       (Raise e,
        {| stdout := stdout w ++ [(nl ++ "Checking duplicates in: " ++ csv_path)%string];
           files := files w |})) /\
  (forall df,
     pd_read_csv csv_path (files w) = inr df ->
     len df = O ->
     exists w',
       check_duplicates csv_path output_folder remove_duplicates w =
         (Raise (OtherError "division by zero"), w') /\
       files w' = files w).
Proof.
  intros csv_path output_folder remove_duplicates w. split.
  - intros e H. unfold check_duplicates.
    unfold bind at 1. unfold print at 1.
    unfold bind at 1. unfold read at 1. cbn [files]. rewrite H. reflexivity.
  - intros df H H0.
    destruct (check_duplicates_unfold csv_path output_folder remove_duplicates w H)
      as (out & E).
    rewrite E, H0. cbn [Nat.eqb]. eexists. split; reflexivity.
Qed.

(** What [check_duplicates] returns on a table with rows: the number of
    rows, the number of rows that repeat an earlier one, and the path of
    the deduplicated file.  That file is written, with the table
    [drop_duplicates] gives, exactly when [remove_duplicates] is set and
    there is a duplicate; otherwise the path is [None] and the file system
    is untouched. *)
Theorem check_duplicates_returns :
  forall (csv_path output_folder : string) (remove_duplicates : bool) (w : World)
         (df : Table),
  pd_read_csv csv_path (files w) = inr df ->
  len df <> O ->
  (remove_duplicates && (0 <? len (duplicated_rows df))%nat = false ->
   exists w',
     check_duplicates csv_path output_folder remove_duplicates w =
       (Return (len df, len (duplicated_rows df), None), w') /\
     files w' = files w) /\
  (remove_duplicates && (0 <? len (duplicated_rows df))%nat = true ->
   forall fs',
     df_to_csv (drop_duplicates df) (no_duplicates_path csv_path output_folder) (files w)
       = inr fs' ->
     exists w',
       check_duplicates csv_path output_folder remove_duplicates w =
         (Return (len df, len (duplicated_rows df),
                  Some (no_duplicates_path csv_path output_folder)), w') /\
       files w' = fs').
Proof.
  intros csv_path output_folder remove_duplicates w df H Hne.
  destruct (check_duplicates_unfold csv_path output_folder remove_duplicates w H)
    as (out & E).
  rewrite E. clear E.
  apply Nat.eqb_neq in Hne. rewrite Hne.
  split.
  - intro Hb. rewrite Hb. eexists. split; reflexivity.
  - intros Hb fs' Hw. rewrite Hb, Hw. eexists. split; reflexivity.
Qed.

Lemma write_merged_Return : forall output_folder output_filename dfs w merged_df fs',
  pd_concat dfs = inr merged_df ->
  df_to_csv merged_df (os_path_join output_folder output_filename) (files w) = inr fs' ->
  exists out,
    write_merged output_folder output_filename dfs w =
      (Return (Some (os_path_join output_folder output_filename)),
       {| stdout := stdout w ++ out; files := fs' |}).
Proof.
  intros output_folder output_filename dfs w merged_df fs' Hc Hw.
  unfold write_merged, bind at 1, read. cbv beta. rewrite Hc.
  unfold bind at 1, change. rewrite Hw.
  unfold bind, print, ret. cbn [stdout files].
  eexists. rewrite <- !app_assoc. reflexivity.
Qed.

Lemma merge_main_unfold : forall (w : World) (fs : Files),
  with_output_folder "dataset" (files w) = inr fs ->
  exists out,
    main w =
      match readable (glob (os_path_join "raw_data" "*.csv") fs) fs with
      | [] => (Return tt, {| stdout := stdout w ++ out; files := fs |})
      | df :: dfs =>
          bind (write_merged "dataset" "DUMMY_DATA_hypertension_patient.csv" (df :: dfs))
            (fun merged_file =>
               match merged_file with
               | Some path =>
                   if String.eqb path EmptyString
                   then ret tt
                   else (check_duplicates path "dataset" true ;; ret tt)
               | None => ret tt
               end)
            {| stdout := stdout w ++ out; files := fs |}
      end.
Proof.
  intros w fs Hfolder. unfold main.
  destruct (merge_csv_files_unfold "raw_data" "dataset"
              "DUMMY_DATA_hypertension_patient.csv" w Hfolder) as (out & Heq).
  exists out. unfold bind at 1. rewrite Heq.
  destruct (readable (glob (os_path_join "raw_data" "*.csv") fs) fs) as [|df dfs];
    reflexivity.
Qed.

(** The script's [main], once the output folder is there.
    - With nothing to merge, [main] ends without checking anything.
    - With a merged table, [check_duplicates] reads the file that
      [merge_csv_files] has just written.  If that table has no rows,
      [main] ends in the division by zero, the merged file written. *)
Theorem merge_main_outcomes : forall (w : World) (fs : Files),
  with_output_folder "dataset" (files w) = inr fs ->
  (readable (glob (os_path_join "raw_data" "*.csv") fs) fs = [] ->
   exists w', main w = (Return tt, w') /\ files w' = fs) /\
  (forall merged_df fs' df,
     readable (glob (os_path_join "raw_data" "*.csv") fs) fs <> [] ->
     pd_concat (readable (glob (os_path_join "raw_data" "*.csv") fs) fs) = inr merged_df ->
     df_to_csv merged_df (os_path_join "dataset" "DUMMY_DATA_hypertension_patient.csv") fs
       = inr fs' ->
     os_path_join "dataset" "DUMMY_DATA_hypertension_patient.csv" <> EmptyString ->
     pd_read_csv (os_path_join "dataset" "DUMMY_DATA_hypertension_patient.csv") fs' = inr df ->
     (len df = O ->
      exists w',
        main w = (Raise (OtherError "division by zero"), w') /\ files w' = fs') /\
     (len df <> O -> (0 <? len (duplicated_rows df))%nat = false ->
      exists w', main w = (Return tt, w') /\ files w' = fs') /\
     (len df <> O -> (0 <? len (duplicated_rows df))%nat = true ->
      forall fs'',
        df_to_csv (drop_duplicates df)
          (no_duplicates_path (os_path_join "dataset" "DUMMY_DATA_hypertension_patient.csv")
             "dataset") fs' = inr fs'' ->
        exists w', main w = (Return tt, w') /\ files w' = fs'')).
Proof.
  intros w fs Hfolder.
  destruct (merge_main_unfold w Hfolder) as (out & Heq). rewrite Heq. clear Heq.
  set (path := os_path_join "dataset" "DUMMY_DATA_hypertension_patient.csv") in *.
  destruct (readable (glob (os_path_join "raw_data" "*.csv") fs) fs) as [|df0 dfs].
  - split.
    + intros _. eexists. split; reflexivity.
    + intros merged_df fs' df Hne. exfalso. apply Hne. reflexivity.
  - split; [intro C; discriminate C |].
    intros merged_df fs' df _ Hc Hw Hpath Hread.
    set (w0 := {| stdout := stdout w ++ out; files := fs |}).
    destruct (@write_merged_Return "dataset" "DUMMY_DATA_hypertension_patient.csv"
                (df0 :: dfs) w0 merged_df fs' Hc Hw) as (out0 & E0).
    fold path in E0.
    erewrite bind_Return_eq; [| exact E0].
    cbv beta iota. apply String.eqb_neq in Hpath. rewrite Hpath.
    set (w1 := {| stdout := stdout w0 ++ out0; files := fs' |}).
    destruct (check_duplicates_unfold path "dataset" true w1 Hread) as (out1 & E1).
    cbn [files w1 andb] in E1.
    unfold bind. rewrite E1. clear E1.
    split; [| split].
    + intro H0. rewrite H0. cbn [Nat.eqb]. eexists. split; reflexivity.
    + intros Hne Hd. apply Nat.eqb_neq in Hne. rewrite Hne, Hd.
      eexists. split; reflexivity.
    + intros Hne Hd fs'' Hw2. apply Nat.eqb_neq in Hne. rewrite Hne, Hd, Hw2.
      eexists. split; reflexivity.
Qed.

End MergeProperties.

Lemma merge_csv_files_outcomes_witness :
  exists (fs : MergeCsv.Disk.Fs) (merged_df : MergeCsv.Disk.Rows) (fs' : MergeCsv.Disk.Fs)
         (w' : @MergeCsv.World MergeCsv.Disk.env),
    MergeCsv.with_output_folder (env := MergeCsv.Disk.env) "dataset" MergeCsv.Disk.raw
      = inr fs /\
    MergeCsv.pd_concat (Env := MergeCsv.Disk.env)
      (MergeCsv.readable (env := MergeCsv.Disk.env)
         (MergeCsv.glob (Env := MergeCsv.Disk.env) "raw_data/*.csv" fs) fs) = inr merged_df /\
    merged_df = [[1; 20]; [2; 30]; [2; 30]; [3; 40]]%Z /\
    MergeCsv.merge_csv_files (env := MergeCsv.Disk.env) "raw_data" "dataset" "merged.csv"
      (MergeCsv.Disk.start MergeCsv.Disk.raw) =
      (Return (Some "dataset/merged.csv"%string), w') /\
    MergeCsv.files (env := MergeCsv.Disk.env) w' = fs' /\
    MergeCsv.Disk.lookup "dataset/merged.csv" fs' = Some (Some merged_df).
Proof.
  set (w := (MergeCsv.Disk.start MergeCsv.Disk.raw)).
  set (fs := {| MergeCsv.Disk.dirs := ["dataset"%string; "raw_data"%string];
                MergeCsv.Disk.entries := MergeCsv.Disk.entries MergeCsv.Disk.raw |}).
  set (merged_df := [[1; 20]; [2; 30]; [2; 30]; [3; 40]]%Z).
  set (fs' := {| MergeCsv.Disk.dirs := MergeCsv.Disk.dirs fs;
                 MergeCsv.Disk.entries :=
                   ("dataset/merged.csv"%string, Some merged_df)
                   :: MergeCsv.Disk.entries fs |}).
  assert (H : MergeCsv.with_output_folder (env := MergeCsv.Disk.env) "dataset"
                (MergeCsv.files (env := MergeCsv.Disk.env) w) = inr fs) by reflexivity.
  destruct (@merge_csv_files_outcomes MergeCsv.Disk.env "raw_data" "dataset" "merged.csv"
              w fs H) as (_ & H2 & _).
  assert (Hne : MergeCsv.readable (env := MergeCsv.Disk.env)
                  (MergeCsv.glob (Env := MergeCsv.Disk.env)
                     (MergeCsv.os_path_join (Env := MergeCsv.Disk.env) "raw_data" "*.csv") fs) fs <> [])
    by (intro C; discriminate C).
  assert (Hc : MergeCsv.pd_concat (Env := MergeCsv.Disk.env)
                 (MergeCsv.readable (env := MergeCsv.Disk.env)
                    (MergeCsv.glob (Env := MergeCsv.Disk.env)
                     (MergeCsv.os_path_join (Env := MergeCsv.Disk.env) "raw_data" "*.csv") fs) fs)
               = inr merged_df) by reflexivity.
  destruct (H2 merged_df Hne Hc) as [H3 _].
  destruct (H3 fs' eq_refl) as (w' & E & F).
  exists fs, merged_df, fs', w'.
  split; [exact H |]. split; [exact Hc |]. split; [reflexivity |].
  split; [exact E |]. split; [exact F |]. reflexivity.
Defined.

Lemma check_duplicates_returns_witness :
  exists (df : MergeCsv.Disk.Rows) (w' : @MergeCsv.World MergeCsv.Disk.env),
    MergeCsv.pd_read_csv (Env := MergeCsv.Disk.env) "dataset/merged.csv"
      MergeCsv.Disk.with_duplicates = inr df /\
    MergeCsv.len (Env := MergeCsv.Disk.env) df <> O /\
    MergeCsv.check_duplicates (env := MergeCsv.Disk.env) "dataset/merged.csv" "dataset" true
      (MergeCsv.Disk.start MergeCsv.Disk.with_duplicates) =
      (Return (4%nat, 2%nat, Some "dataset/merged_no_duplicates.csv"%string), w') /\
    MergeCsv.Disk.lookup "dataset/merged_no_duplicates.csv" (MergeCsv.files (env := MergeCsv.Disk.env) w') =
      Some (Some [[1; 20]; [2; 30]]%Z).
Proof.
  set (w := (MergeCsv.Disk.start MergeCsv.Disk.with_duplicates)).
  set (df := [[1; 20]; [2; 30]; [1; 20]; [1; 20]]%Z).
  assert (H : MergeCsv.pd_read_csv (Env := MergeCsv.Disk.env) "dataset/merged.csv"
                (MergeCsv.files (env := MergeCsv.Disk.env) w) = inr df) by reflexivity.
  assert (Hne : MergeCsv.len (Env := MergeCsv.Disk.env) df <> O)
    by (intro C; discriminate C).
  destruct (@check_duplicates_returns MergeCsv.Disk.env "dataset/merged.csv" "dataset" true
              w df H Hne) as (_ & H2).
  destruct (H2 eq_refl _ eq_refl) as (w' & E & F).
  exists df, w'.
  split; [exact H |]. split; [exact Hne |]. split; [exact E |].
  rewrite F. reflexivity.
Defined.

Lemma merge_main_outcomes_witness :
  MergeCsv.with_output_folder (env := MergeCsv.Disk.env) "dataset"
    MergeCsv.Disk.headers_only = inr MergeCsv.Disk.headers_only /\
  exists w' : @MergeCsv.World MergeCsv.Disk.env,
    MergeCsv.main (env := MergeCsv.Disk.env)
      (MergeCsv.Disk.start MergeCsv.Disk.headers_only) =
      (Raise (OtherError "division by zero"), w') /\
    MergeCsv.Disk.lookup "dataset/DUMMY_DATA_hypertension_patient.csv" (MergeCsv.files (env := MergeCsv.Disk.env) w') =
      Some (Some []).
Proof.
  set (w := (MergeCsv.Disk.start MergeCsv.Disk.headers_only)).
  assert (H : MergeCsv.with_output_folder (env := MergeCsv.Disk.env) "dataset"
                (MergeCsv.files (env := MergeCsv.Disk.env) w) = inr MergeCsv.Disk.headers_only) by reflexivity.
  split; [exact H |].
  destruct (@merge_main_outcomes MergeCsv.Disk.env w MergeCsv.Disk.headers_only H)
    as (_ & H2).
  set (fs' := {| MergeCsv.Disk.dirs := MergeCsv.Disk.dirs MergeCsv.Disk.headers_only;
                 MergeCsv.Disk.entries :=
                   ("dataset/DUMMY_DATA_hypertension_patient.csv"%string, Some [])
                   :: MergeCsv.Disk.entries MergeCsv.Disk.headers_only |}).
  assert (Hne : MergeCsv.readable (env := MergeCsv.Disk.env)
                  (MergeCsv.glob (Env := MergeCsv.Disk.env)
                     (MergeCsv.os_path_join (Env := MergeCsv.Disk.env) "raw_data" "*.csv")
                     MergeCsv.Disk.headers_only) MergeCsv.Disk.headers_only <> [])
    by (intro C; discriminate C).
  assert (Hp : MergeCsv.os_path_join (Env := MergeCsv.Disk.env) "dataset"
                 "DUMMY_DATA_hypertension_patient.csv" <> EmptyString)
    by (intro C; discriminate C).
  destruct (H2 [] fs' [] Hne eq_refl eq_refl Hp eq_refl) as (H3 & _).
  destruct (H3 eq_refl) as (w' & E & F).
  exists w'. split; [exact E |]. rewrite F. reflexivity.
Defined.

(** ** Sample counts on which the outlier step fails *)

Section ShortSlices.
Context {np : Numpy}.

(** For every even positive sample count whose outlier count
    [int(n_samples * 0.02)] is not a multiple of four (50 to 198, 250 to
    398, ...), [create_dummy_data] raises at step 8, whatever the target
    and the draws: the population is generated, and then a slice of
    [outlier_indices] meets an array of another length. *)
Theorem create_dummy_data_raises_unless_multiple_of_4 :
  forall (fuel : nat) (n_samples : Z) (t : Q) (g : RandomState),
  (0 < n_samples)%Z -> (n_samples mod 2 = 0)%Z ->
  ((n_samples / 50) mod 4 <> 0)%Z ->
  exists g',
    create_dummy_data fuel n_samples t g =
      (Raise (ValueError "Must have equal len keys and value when setting with an iterable"),
       g').
Proof.
  intros fuel n t g Hn Heven Hr.
  assert (Hn0 : (0 <= n)%Z) by lia.
  destruct (generate_population_returns (random_seed 42) Hn0 Heven) as (d1 & g1 & H1).
  pose proof (generate_population_shape _ _ H1) as (_ & _ & Hrows & _).
  destruct Hrows as (_ & _ & _ & Hh & Hw & Hb & _).
  destruct (add_outliers_raises_unless_multiple_of_4 d1 g1 Hn Hr Hw Hh Hb) as (g2 & H2).
  exists g2. unfold create_dummy_data, bind, np_random_seed.
  rewrite H1, H2. reflexivity.
Qed.

End ShortSlices.

Lemma create_dummy_data_raises_unless_multiple_of_4_witness :
  (0 < 50)%Z /\ (50 mod 2 = 0)%Z /\ ((50 / 50) mod 4 <> 0)%Z /\
  exists g',
    create_dummy_data (np := Lcg.numpy) 10 50 0.29 0%Z =
      (Raise (ValueError "Must have equal len keys and value when setting with an iterable"),
       g').
Proof.
  assert (H1 : (0 < 50)%Z) by lia.
  assert (H2 : (50 mod 2 = 0)%Z) by reflexivity.
  assert (H3 : ((50 / 50) mod 4 <> 0)%Z) by (intro E; discriminate E).
  repeat (split; [assumption |]).
  exact (@create_dummy_data_raises_unless_multiple_of_4 Lcg.numpy 10 50 0.29 0%Z H1 H2 H3).
Defined.
